(** * Skill sync: manifest, status resolution, download walk and sync worker

    A shallow embedding of [skill_sync.py] (the synchronisation core of the
    repository) together with the properties of its specification.

    - Python values that travel through [json.loads] / [json.dumps] are the
      inductive type [pyval]; a [dict] with string keys is a [gmap string];
      a [str] is a [string], one element of which stands for one character.
    - A Python exception is a value of [exn]; a call that may raise returns
      [result A]; a method that may raise after having changed the outside
      world is a function [St -> result A * St], so that the effects done
      before the exception are kept.
    - The local file system, the write of the manifest file, the [json]
      codec and the clock are interfaces (type classes and functions of the
      state); in-memory instances are given for running examples. *)

From stdpp Require Import base option list strings gmap fin_maps sorting.
From Stdlib Require Import ZArith Lia.

Local Open Scope string_scope.
Local Open Scope Z_scope.
#[local] Set Warnings "-register-all".

(** ** Python values *)

Inductive pyval : Type :=
  | PyNone
  | PyBool (b : bool)
  | PyInt (z : Z)
  | PyFloat (bits : Z)            (* IEEE-754 binary64 bit pattern *)
  | PyStr (s : string)
  | PyList (l : list pyval)
  | PyDict (d : gmap string pyval).

(** Exceptions raised by the modelled code and by the libraries it calls. *)
Inductive exn : Type :=
  | KeyError (key : string)
  | AttributeError (attr : string)
  | TypeError
  | JSONDecodeError
  | HTTPStatusError (code : Z)
  | TransportError
  | Base64Error
  | OSError (msg : string)
  | MarkupError.

Definition result (A : Type) : Type := (exn + A)%type.
Abbreviation Ok a := (@inr exn _ a).
Abbreviation Raise e := (@inl exn _ e).

#[global] Instance result_ret : MRet result := fun A a => Ok a.
#[global] Instance result_bind : MBind result := fun A B f r =>
  match r with inl e => inl e | inr a => f a end.
#[global] Instance result_fmap : FMap result := fun A B f r =>
  match r with inl e => inl e | inr a => inr (f a) end.

(** [s[:n]] on a [str]. *)
Fixpoint str_take (n : nat) (s : string) : string :=
  match n, s with
  | S n', String c s' => String c (str_take n' s')
  | _, _ => EmptyString
  end.

(** [v.get(key)] : only a [dict] has the method. *)
Definition py_get (v : pyval) (key : string) : result (option pyval) :=
  match v with
  | PyDict d => Ok (d !! key)
  | _ => Raise (AttributeError "get")
  end.

(** [v.get(key, default)]. *)
Definition py_get_default (v : pyval) (key : string) (dflt : pyval) : result pyval :=
  o ← py_get v key; mret (default dflt o).

(** [v[key]] with a [str] key. A [list] or [str] wants an integer index, a
    number, [bool] or [None] is not subscriptable. *)
Definition py_getitem (v : pyval) (key : string) : result pyval :=
  match v with
  | PyDict d =>
      match d !! key with
      | Some x => Ok x
      | None => Raise (KeyError key)
      end
  | _ => Raise TypeError
  end.

(** [v[key] = x] with a [str] key; the result is the object [v] after the
    store (Python mutates it in place). *)
Definition py_setitem (v : pyval) (key : string) (x : pyval) : result pyval :=
  match v with
  | PyDict d => Ok (PyDict (<[key := x]> d))
  | _ => Raise TypeError
  end.

(** [v[:n]] : a [str] and a [list] can be sliced; nothing else here can (a
    [dict] raises too, [TypeError] or, from Python 3.12 on, [KeyError]). *)
Definition py_slice (n : nat) (v : pyval) : result pyval :=
  match v with
  | PyStr s => Ok (PyStr (str_take n s))
  | PyList l => Ok (PyList (take n l))
  | _ => Raise TypeError
  end.

(** Truth value of an object, as [or] and [if] test it. *)
Definition py_truthy (v : pyval) : bool :=
  match v with
  | PyNone => false
  | PyBool b => b
  | PyInt z => negb (z =? 0)
  | PyFloat bits => negb (bits mod 2 ^ 63 =? 0)
  | PyStr s => negb (String.eqb s "")
  | PyList l => match l with [] => false | _ => true end
  | PyDict d => negb (bool_decide (d = ∅))
  end.

(** [v or None]. *)
Definition py_or_none (v : pyval) : pyval :=
  if py_truthy v then v else PyNone.

(** [v != s] where [s] is a [str]: an object that is not a [str] differs. *)
Definition py_ne_str (v : pyval) (s : string) : bool :=
  match v with
  | PyStr a => negb (String.eqb a s)
  | _ => true
  end.

(** ** Data classes *)

Module Skill.
Record t : Type := mk {
  name : string;
  description : string;
  files : list string
}.
End Skill.

Module SyncStatus.
Record t : Type := mk {
  skill : Skill.t;
  status : string;          (* "new", "update", "ok" *)
  local_sha : pyval;        (* [str | None] *)
  remote_sha : pyval        (* [str | None] *)
}.
End SyncStatus.

(** ** Interfaces of the outside world *)

Definition path : Type := list string.      (* components below [skills_dir] *)
Definition bytes : Type := list Byte.byte.
(** [dir / name]. *)
Definition child (dir : path) (name : string) : path := (dir ++ [name])%list.

(** [pathlib] / [shutil] on the local disk. Every operation but [exists]
    may raise, and what it did before raising stays done. *)
Class LocalFS (FS : Type) : Type := {
  fs_exists : path -> FS -> bool;
  fs_rmtree : path -> FS -> result unit * FS;
  fs_mkdir : path -> FS -> result unit * FS;      (* parents=True, exist_ok=True *)
  fs_write_bytes : path -> bytes -> FS -> result unit * FS
}.

(** The [json] module on the text of the manifest file: [json_dumps v] is
    [json.dumps(v, indent=2) + "\n"], and reading back what was written
    gives the value again. *)
Class JsonCodec (text : Type) : Type := {
  json_loads : text -> result pyval;
  json_dumps : pyval -> text;
  json_loads_dumps : forall v, json_loads (json_dumps v) = Ok v
}.

(** [Path.write_text] on the manifest file, as the disk lets it go. The
    state is the disk and the file ([None]: there is no such file). A write
    that returns has put the text in the file. A write that raises
    ([PermissionError] on a read-only file, [OSError] on a full disk) has
    left the file as it was when the file could not be opened; when the
    write was cut short the file holds what was written of the text, which
    [json.loads] refuses, the document being closed by its last brace, or,
    cut after that brace, reads as the whole text. *)
Class WriteText (FS text : Type) `{JsonCodec text} : Type := {
  fs_write_text : text -> FS * option text -> result unit * (FS * option text);
  fs_write_text_Ok : forall t s s',
    fs_write_text t s = (Ok (), s') -> s'.2 = Some t;
  fs_write_text_Raise : forall t s e s',
    fs_write_text t s = (Raise e, s') ->
    s'.2 = s.2 \/
    exists t', s'.2 = Some t' /\
      (json_loads t' = json_loads t \/ exists e', json_loads t' = Raise e')
}.

(** ** State and exceptions *)

Definition io (St A : Type) : Type := St -> result A * St.

Definition io_ret {St A} (a : A) : io St A := fun s => (Ok a, s).
Definition io_raise {St A} (e : exn) : io St A := fun s => (Raise e, s).
Definition io_bind {St A B} (c : io St A) (k : A -> io St B) : io St B :=
  fun s => match c s with
           | (inr a, s') => k a s'
           | (inl e, s') => (inl e, s')
           end.
(** A pure computation that may raise. *)
Definition io_lift {St A} (r : result A) : io St A := fun s => (r, s).
(** [try: body  except Exception as e: handler e]. *)
Definition try_except {St A} (body : io St A) (handler : exn -> io St A) : io St A :=
  fun s => match body s with
           | (inl e, s') => handler e s'
           | (inr a, s') => (inr a, s')
           end.

Declare Scope io_scope.
Delimit Scope io_scope with io.
Notation "x <- c ;; k" := (io_bind c (fun x => k))
  (at level 100, c at next level, right associativity) : io_scope.
Notation "c ;;; k" := (io_bind c (fun _ => k))
  (at level 100, right associativity) : io_scope.

(** ** The remote repository

    The contents API answers a request for a directory with the list of
    its entries, and the model takes the answer in that shape: a list of
    entries, each of one of the three kinds below. An answer of status 200
    that is no such list (a JSON object, over the keys of which the loop
    of [_download_directory] would run) is not among the remotes modelled.
    What the API answers for an entry is data of the entry:
    - for a ["file"], [inline] is [Some r] when [item.get("content")] is
      truthy, [r] being what [base64.b64decode] makes of it, and [fetched]
      is the outcome of the follow-up request ([GET item["url"]],
      [raise_for_status], decoding of its ["content"]);
    - for a ["dir"], [listing] is the outcome of [GET .../contents/<path>]
      with [raise_for_status], the entries in the order the API gave them;
    - any other type (["symlink"], ["submodule"]) is kept with its type. *)
Inductive item : Type :=
  | File (name : string) (inline : option (result bytes)) (fetched : result bytes)
  | Dir (name : string) (listing : result (list item))
  | Other (type name : string).

Module GitHubClient.
Record t : Type := mk {
  commits_main : result string;                    (* GET .../commits/main, its "sha" *)
  contents : string -> result (list item);         (* GET .../contents/<path> *)
  _latest_commit : option string
}.
End GitHubClient.

Definition REPO_OWNER : string := "anthropics".
Definition REPO_NAME : string := "skills".
Definition SKILLS_PATH : string := "skills".

(** [if self._latest_commit:] tests the cached string for truth. *)
Definition get_latest_commit (self : GitHubClient.t) : result string * GitHubClient.t :=
  match GitHubClient._latest_commit self with
  | Some c =>
      if negb (String.eqb c "") then (Ok c, self) else
      match GitHubClient.commits_main self with
      | inl e => (Raise e, self)
      | inr sha => (Ok sha, GitHubClient.mk (GitHubClient.commits_main self)
                              (GitHubClient.contents self) (Some sha))
      end
  | None =>
      match GitHubClient.commits_main self with
      | inl e => (Raise e, self)
      | inr sha => (Ok sha, GitHubClient.mk (GitHubClient.commits_main self)
                              (GitHubClient.contents self) (Some sha))
      end
  end.

(** The content of a file entry as [_download_file] obtains it: decoded
    from the listing when the listing has it, requested otherwise. *)
Definition file_content (inline : option (result bytes)) (fetched : result bytes)
    : result bytes :=
  match inline with Some r => r | None => fetched end.

Section Download.
Context {FS : Type} `{LocalFS FS}.
Local Open Scope io_scope.

(** [_download_file]: the content comes from the listing when it is there,
    from a request of its own otherwise, and is written under the leaf
    name. *)
Definition _download_file (name : string) (inline : option (result bytes))
    (fetched : result bytes) (target_dir : path) : io FS unit :=
  content <- io_lift (file_content inline fetched) ;;
  fs_write_bytes (child target_dir name) content.

(** One turn of the [for item in response.json()] loop of
    [_download_directory], with the recursive call on a ["dir"] unfolded:
    request the listing, [raise_for_status], [mkdir] the target, then the
    loop over the entries. [files] is the list the caller appends to. *)
Fixpoint download_item (it : item) (target_dir : path) (files : list string)
    {struct it} : io FS (list string) :=
  match it with
  | File name inline fetched =>
      _download_file name inline fetched target_dir ;;;
      io_ret (files ++ [name])%list
  | Dir name listing =>
      let subdir := child target_dir name in
      match listing with
      | inl e => io_raise e
      | inr items =>
          fs_mkdir subdir ;;;
          (fix each (items : list item) (files : list string) : io FS (list string) :=
             match items with
             | [] => io_ret files
             | it' :: rest =>
                 files' <- download_item it' subdir files ;;
                 each rest files'
             end) items files
      end
  | Other _ _ => io_ret files
  end.

(** The loop [for item in response.json(): ...]. *)
Fixpoint download_items (items : list item) (target_dir : path)
    (files : list string) : io FS (list string) :=
  match items with
  | [] => io_ret files
  | it :: rest =>
      files' <- download_item it target_dir files ;;
      download_items rest target_dir files'
  end.

(** [_download_directory], given the answer to its request. *)
Definition _download_directory (response : result (list item))
    (target_dir : path) (files : list string) : io FS (list string) :=
  match response with
  | inl e => io_raise e
  | inr items =>
      fs_mkdir target_dir ;;;
      download_items items target_dir files
  end.

Definition download_skill (self : GitHubClient.t) (skill_name : string)
    (target_dir : path) : io FS (list string) :=
  _download_directory
    (GitHubClient.contents self (SKILLS_PATH ++ "/" ++ skill_name))
    target_dir [].

End Download.

(** ** The local side: manifest and status *)

Module World.
(** What the manager and the worker touch: the disk below [skills_dir],
    the manifest file ([None]: the file does not exist) and the clock, the
    [n]-th reading of which is [clock n]. The manifest file is not below
    [skills_dir] ([manifest_path] is [skills_dir.parent.parent /
    ".skill-manifest.json"]), so it is kept beside the disk: an operation
    on a path whose components are plain names stays below [skills_dir] and
    leaves the file alone. *)
Record t (FS text : Type) : Type := mk {
  fs : FS;
  manifest_file : option text;
  clock : nat -> string;
  clock_reads : nat
}.
Arguments mk {FS text}.
Arguments fs {FS text}.
Arguments manifest_file {FS text}.
Arguments clock {FS text}.
Arguments clock_reads {FS text}.
End World.

Section SkillManager.
Context {FS : Type} `{LocalFS FS} {text : Type} `{JsonCodec text} `{!WriteText FS text}.
Local Open Scope io_scope.

Local Abbreviation world := (World.t FS text).

(** An operation of the disk, run in the world. *)
Definition on_fs {A} (c : io FS A) : io world A :=
  fun w => let '(r, fs') := c (World.fs w) in
           (r, World.mk fs' (World.manifest_file w) (World.clock w) (World.clock_reads w)).

(** [datetime.now(timezone.utc).isoformat()]. *)
Definition utcnow_isoformat : io world string :=
  fun w => (Ok (World.clock w (World.clock_reads w)),
            World.mk (World.fs w) (World.manifest_file w) (World.clock w)
                     (S (World.clock_reads w))).

(** [self.manifest_path.write_text(t)]: the disk says whether the write goes
    through and what is in the file afterwards. *)
Definition write_manifest_text (t : text) : io world unit :=
  fun w => let '(r, (fs', file')) := fs_write_text t (World.fs w, World.manifest_file w) in
           (r, World.mk fs' file' (World.clock w) (World.clock_reads w)).

Definition get_manifest (w : world) : result pyval :=
  match World.manifest_file w with
  | Some t => json_loads t
  | None => Ok (PyDict {[ "skills" := PyDict ∅ ]})
  end.

Definition save_manifest (manifest : pyval) : io world unit :=
  on_fs (fs_mkdir []) ;;;
  write_manifest_text (json_dumps manifest).

(** The body of the loop of [get_sync_status] for one skill. *)
Definition sync_status_of (local_skills : pyval) (remote_sha : string)
    (skill : Skill.t) : result SyncStatus.t :=
  local_info ← py_get local_skills (Skill.name skill);
  match local_info with
  | None | Some PyNone =>
      Ok (SyncStatus.mk skill "new" PyNone (PyStr (str_take 7 remote_sha)))
  | Some local_info =>
      sha ← py_get_default local_info "commit_sha" (PyStr "");
      sha7 ← py_slice 7 sha;
      if py_ne_str sha7 (str_take 7 remote_sha) then
        Ok (SyncStatus.mk skill "update" (py_or_none sha7)
              (PyStr (str_take 7 remote_sha)))
      else
        Ok (SyncStatus.mk skill "ok" sha7 (PyStr (str_take 7 remote_sha)))
  end.

(** [for skill in skills: ...; statuses.append(status)]. *)
Fixpoint sync_status_loop (local_skills : pyval) (remote_sha : string)
    (skills : list Skill.t) (statuses : list SyncStatus.t)
    : result (list SyncStatus.t) :=
  match skills with
  | [] => Ok statuses
  | skill :: rest =>
      status ← sync_status_of local_skills remote_sha skill;
      sync_status_loop local_skills remote_sha rest (statuses ++ [status])%list
  end.

Definition get_sync_status (w : world) (skills : list Skill.t)
    (remote_sha : string) : result (list SyncStatus.t) :=
  manifest ← get_manifest w;
  local_skills ← py_get_default manifest "skills" (PyDict ∅);
  sync_status_loop local_skills remote_sha skills [].

(** [record_sync]. The right-hand side of the assignment is evaluated
    first (the clock is read), then [manifest["skills"]], then the store
    into it; the table is the object inside [manifest], so the store is
    seen through [manifest]. *)
Definition record_sync (skill_name commit_sha : string) (files : list string)
    : io world unit :=
  manifest <- (fun w => (get_manifest w, w)) ;;
  now <- utcnow_isoformat ;;
  let entry := PyDict {[ "commit_sha" := PyStr commit_sha;
                         "synced_at" := PyStr now;
                         "files" := PyList (PyStr <$> files) ]} in
  skills <- io_lift (py_getitem manifest "skills") ;;
  skills' <- io_lift (py_setitem skills skill_name entry) ;;
  manifest' <- io_lift (py_setitem manifest "skills" skills') ;;
  save_manifest manifest'.

End SkillManager.

(** ** The sync worker *)

(** The texts handed to [update_status], by shape:
    ["Syncing {name}... ({i}/{total})"], ["Error syncing {name}: {e}"],
    ["Done! Synced {n} skill(s)"], ["No skills selected"]. *)
Inductive ui_event : Type :=
  | Syncing (skill_name : string) (i total : nat)
  | ErrorSyncing (skill_name : string) (e : exn)
  | DoneSynced (n : nat)
  | NoSkillsSelected.

(** The lines printed by [sync_skills_cli], by shape:
    ["Syncing to commit: {sha[:7]}"], ["  Syncing {name}..."],
    ["done ({n} files)"], ["error: {e}"], ["Done!"]. *)
Inductive cli_line : Type :=
  | SyncingToCommit (sha7 : string)
  | CliSyncing (name : string)
  | CliDone (nfiles : nat)
  | CliError (e : exn)
  | CliAllDone.

Module App.
(** The fields of [SkillSyncApp] the worker reads and writes, and its
    widget [#status]: [status_log] holds the texts the widget has shown,
    oldest first, and [markup_ok] says of a text whether the markup parser
    of the widget takes it. *)
Record t : Type := mk {
  statuses : list SyncStatus.t;
  remote_sha : string;
  selected : gset string;
  synced_skills : list string;
  status_log : list ui_event;
  markup_ok : ui_event -> bool
}.
End App.

Section SyncWorker.
Context {FS : Type} `{LocalFS FS} {text : Type} `{JsonCodec text} `{!WriteText FS text}.
Local Open Scope io_scope.

Local Abbreviation world := (World.t FS text).

(** The statements between [try:] and the bookkeeping of the caller, the
    same in [sync_selected] and in [sync_skills_cli]: remove the local copy
    if there is one, download, record. [child [] skill_name] is
    [skills_dir / skill_name], the name joined as it is written; for a name
    that is one plain component, a directory name as the catalogue lists
    them, it is the directory of the unit in [skills_dir]. A name with a
    separator or dots for a component ([".."], an absolute path) takes the
    same calls out of [skills_dir], where the disk modelled here does not
    follow them: the properties of a batch are stated for plain names. *)
Definition sync_unit (github : GitHubClient.t) (skill_name remote_sha : string)
    : io world (list string) :=
  let target := child [] skill_name in
  (fun w => if fs_exists target (World.fs w)
            then on_fs (fs_rmtree target) w
            else (Ok (), w)) ;;;
  files <- on_fs (download_skill github skill_name target) ;;
  record_sync skill_name remote_sha files ;;;
  io_ret files.

Definition on_world {A} (c : io world A) : io (App.t * world) A :=
  fun '(app, w) => let '(r, w') := c w in (r, (app, w')).

(** [update_status]: the text is handed to [Static.update] of the widget,
    which reads it as markup. The name of the unit and the message of the
    exception stand in the text as they are, so the text may be no valid
    markup: the parser then raises [MarkupError] and nothing is shown. *)
Definition update_status (message : ui_event) : io (App.t * world) unit :=
  fun '(app, w) =>
    if App.markup_ok app message
    then (Ok (), (App.mk (App.statuses app) (App.remote_sha app) (App.selected app)
                         (App.synced_skills app) (App.status_log app ++ [message])%list
                         (App.markup_ok app), w))
    else (Raise MarkupError, (app, w)).

(** [self.synced_skills.append(skill_name)]. *)
Definition synced_skills_append (skill_name : string) : io (App.t * world) unit :=
  fun '(app, w) =>
    (Ok (), (App.mk (App.statuses app) (App.remote_sha app) (App.selected app)
                    (App.synced_skills app ++ [skill_name])%list (App.status_log app)
                    (App.markup_ok app), w)).

(** [for i, status in enumerate(skills_to_sync, 1): ...] from index [i] on.
    The two calls of [update_status] are outside the [try]: the first
    before it, the second in its handler. An exception they raise leaves
    the loop. *)
Fixpoint sync_selected_loop (github : GitHubClient.t) (total i : nat)
    (skills_to_sync : list SyncStatus.t) : io (App.t * world) unit :=
  match skills_to_sync with
  | [] => io_ret ()
  | status :: rest =>
      let skill_name := Skill.name (SyncStatus.skill status) in
      update_status (Syncing skill_name i total) ;;;
      try_except
        (remote_sha <- (fun s => (Ok (App.remote_sha (fst s)), s)) ;;
         on_world (sync_unit github skill_name remote_sha) ;;;
         synced_skills_append skill_name)
        (fun e => update_status (ErrorSyncing skill_name e)) ;;;
      sync_selected_loop github total (S i) rest
  end.

(** [refresh_table]: statuses are resolved again; a synced skill is
    unchecked. The cells of the table are not part of the state. *)
Definition refresh_table : io (App.t * world) unit :=
  fun '(app, w) =>
    match get_sync_status w (SyncStatus.skill <$> App.statuses app) (App.remote_sha app) with
    | inl e => (Raise e, (app, w))
    | inr new_statuses =>
        let selected' :=
          foldl (fun sel s =>
                   let n := Skill.name (SyncStatus.skill s) in
                   if bool_decide (n ∈ App.synced_skills app) then sel ∖ {[ n ]} else sel)
                (App.selected app) new_statuses in
        (Ok (), (App.mk new_statuses (App.remote_sha app) selected'
                        (App.synced_skills app) (App.status_log app)
                        (App.markup_ok app), w))
    end.

(** The list comprehension [[s for s in self.statuses if s.skill.name in self.selected]]. *)
Definition skills_to_sync (app : App.t) : list SyncStatus.t :=
  filter (fun s => Skill.name (SyncStatus.skill s) ∈ App.selected app) (App.statuses app).

Definition sync_selected (github : GitHubClient.t) : io (App.t * world) unit :=
  to_sync <- (fun s => (Ok (skills_to_sync (fst s)), s)) ;;
  let total := length to_sync in
  sync_selected_loop github total 1 to_sync ;;;
  n <- (fun s => (Ok (length (App.synced_skills (fst s))), s)) ;;
  update_status (DoneSynced n) ;;;
  refresh_table.

(** [action_toggle] on the row of [skill_name]. *)
Definition action_toggle (skill_name : string) : io (App.t * world) unit :=
  fun '(app, w) =>
    let selected' :=
      if bool_decide (skill_name ∈ App.selected app)
      then App.selected app ∖ {[ skill_name ]}
      else App.selected app ∪ {[ skill_name ]} in
    (Ok (), (App.mk (App.statuses app) (App.remote_sha app) selected'
                    (App.synced_skills app) (App.status_log app)
                    (App.markup_ok app), w)).

Definition action_sync (github : GitHubClient.t) : io (App.t * world) unit :=
  fun s =>
    if bool_decide (App.selected (fst s) = ∅)
    then update_status NoSkillsSelected s
    else sync_selected github s.

(** *** Non-interactive sync *)

Definition print (line : cli_line) : io (list cli_line * world) unit :=
  fun '(out, w) => (Ok (), ((out ++ [line])%list, w)).




End SyncWorker.

(** ** An in-memory world, to run the code on examples *)

(** A disk as a list of paths with their nodes, a path at most once. *)
Inductive node : Type :=
  | NDir
  | NFile (content : bytes).

Definition memfs : Type := list (path * node).

Fixpoint memfs_lookup (p : path) (fs : memfs) : option node :=
  match fs with
  | [] => None
  | (q, n) :: rest => if decide (q = p) then Some n else memfs_lookup p rest
  end.

Definition memfs_store (p : path) (n : node) (fs : memfs) : memfs :=
  (p, n) :: filter (fun kv => kv.1 <> p) fs.

Definition memfs_exists (p : path) (fs : memfs) : bool :=
  bool_decide (is_Some (memfs_lookup p fs)).

(** [shutil.rmtree(p)]: [p] and everything below it goes. *)
Definition memfs_rmtree (p : path) (fs : memfs) : result unit * memfs :=
  match memfs_lookup p fs with
  | Some NDir => (Ok (), filter (fun kv => ¬ p `prefix_of` kv.1) fs)
  | Some (NFile _) => (Raise (OSError "NotADirectoryError"), fs)
  | None => (Raise (OSError "FileNotFoundError"), fs)
  end.

(** A regular file among the prefixes [qs] of a path, shortest first, is in
    the way of [mkdir]: [os.mkdir] raises [NotADirectoryError] when the
    file is a proper prefix of the path and [FileExistsError] when it is
    the path itself. *)
Fixpoint memfs_in_the_way (qs : list path) (fs : memfs) : option exn :=
  match qs with
  | [] => None
  | q :: rest =>
      match memfs_lookup q fs with
      | Some (NFile _) =>
          Some (OSError match rest with
                        | [] => "FileExistsError"
                        | _ => "NotADirectoryError"
                        end)
      | _ => memfs_in_the_way rest fs
      end
  end.

(** The directories [qs], shortest first, made where they are missing. *)
Fixpoint memfs_mkdirs (qs : list path) (fs : memfs) : memfs :=
  match qs with
  | [] => fs
  | q :: rest => memfs_mkdirs rest (memfs_store q NDir fs)
  end.

(** All prefixes of a path, shortest first. *)
Fixpoint prefixes (p : path) : list path :=
  match p with
  | [] => [[]]
  | c :: p' => [] :: ((c ::.) <$> prefixes p')
  end.

(** [mkdir(parents=True, exist_ok=True)]: nothing is made when a regular
    file is in the way. *)
Definition memfs_mkdir (p : path) (fs : memfs) : result unit * memfs :=
  match memfs_in_the_way (prefixes p) fs with
  | Some e => (Raise e, fs)
  | None => (Ok (), memfs_mkdirs (prefixes p) fs)
  end.

Definition memfs_write_bytes (p : path) (content : bytes) (fs : memfs)
    : result unit * memfs :=
  match memfs_lookup (removelast p) fs with
  | Some NDir =>
      match memfs_lookup p fs with
      | Some NDir => (Raise (OSError "IsADirectoryError"), fs)
      | _ => (Ok (), memfs_store p (NFile content) fs)
      end
  | Some (NFile _) => (Raise (OSError "NotADirectoryError"), fs)
  | None => (Raise (OSError "FileNotFoundError"), fs)
  end.

#[global] Instance memfs_LocalFS : LocalFS memfs := {
  fs_exists := memfs_exists;
  fs_rmtree := memfs_rmtree;
  fs_mkdir := memfs_mkdir;
  fs_write_bytes := memfs_write_bytes
}.

(** The calls made on a disk, in order. *)
Inductive fs_call : Type :=
  | CallRmtree (p : path)
  | CallMkdir (p : path)
  | CallWriteBytes (p : path) (content : bytes).

(** A disk that also keeps the list of the calls made on it, oldest first.
    [exists] changes nothing and is not listed. *)
Definition traced (FS : Type) : Type := (list fs_call * FS)%type.

Definition traced_call {FS} (c : fs_call) (op : FS -> result unit * FS)
    : traced FS -> result unit * traced FS :=
  fun '(log, fs) => let '(r, fs') := op fs in (r, ((log ++ [c])%list, fs')).

#[global] Instance traced_LocalFS {FS} `{LocalFS FS} : LocalFS (traced FS) := {
  fs_exists p s := fs_exists p (snd s);
  fs_rmtree p := traced_call (CallRmtree p) (fs_rmtree p);
  fs_mkdir p := traced_call (CallMkdir p) (fs_mkdir p);
  fs_write_bytes p content := traced_call (CallWriteBytes p content) (fs_write_bytes p content)
}.

(** The text of a file, by what [json.loads] makes of it: the document of a
    value, or something that does not parse. *)
Inductive memtext : Type :=
  | Doc (v : pyval)
  | Garbage (s : string).

Definition memtext_loads (t : memtext) : result pyval :=
  match t with
  | Doc v => Ok v
  | Garbage _ => Raise JSONDecodeError
  end.

#[global] Instance memtext_JsonCodec : JsonCodec memtext := {|
  json_loads := memtext_loads;
  json_dumps := Doc;
  json_loads_dumps := fun v => eq_refl
|}.

(** On the disk in memory every write of the manifest file goes through. *)
#[global] Program Instance memfs_WriteText : WriteText memfs memtext := {|
  fs_write_text t s := (Ok (), (s.1, Some t))
|}.
Next Obligation. intros t s s' [= <-]. reflexivity. Qed.
Next Obligation. intros t s e s' [=]. Qed.

(** A disk that lists its calls lets the write through to the disk below;
    the write of the manifest file is not one of the calls it lists. *)
#[global] Program Instance traced_WriteText {FS text : Type} `{WriteText FS text}
    : WriteText (traced FS) text := {|
  fs_write_text t s :=
    let '(r, (fs', file')) := fs_write_text t (s.1.2, s.2) in (r, ((s.1.1, fs'), file'))
|}.
Next Obligation.
  intros FS text ? ? t [[log fs] file] s'. simpl.
  destruct (fs_write_text t (fs, file)) as [r [fs' file']] eqn:Hw.
  intros [= -> <-]. simpl. exact (fs_write_text_Ok _ _ _ Hw).
Qed.
Next Obligation.
  intros FS text ? ? t [[log fs] file] e s'. simpl.
  destruct (fs_write_text t (fs, file)) as [r [fs' file']] eqn:Hw.
  intros [= -> <-]. simpl. exact (fs_write_text_Raise _ _ _ _ Hw).
Qed.

(** A disk in memory with room for [sd_room] more writes of the manifest
    file. A write for which there is no room raises as a full disk does
    ([OSError], errno 28), after the file was opened and emptied. *)
Record small_disk : Type := SmallDisk {
  sd_files : memfs;
  sd_room : nat
}.

Definition small_disk_op (op : memfs -> result unit * memfs) (d : small_disk)
    : result unit * small_disk :=
  let '(r, fs') := op (sd_files d) in (r, SmallDisk fs' (sd_room d)).

#[global] Instance small_disk_LocalFS : LocalFS small_disk := {
  fs_exists p d := memfs_exists p (sd_files d);
  fs_rmtree p := small_disk_op (memfs_rmtree p);
  fs_mkdir p := small_disk_op (memfs_mkdir p);
  fs_write_bytes p content := small_disk_op (memfs_write_bytes p content)
}.

#[global] Program Instance small_disk_WriteText : WriteText small_disk memtext := {|
  fs_write_text t s :=
    match sd_room s.1 with
    | O => (Raise (OSError "[Errno 28] No space left on device"), (s.1, Some (Garbage "")))
    | S room => (Ok (), (SmallDisk (sd_files s.1) room, Some t))
    end
|}.
Next Obligation. intros t [[fs [|room]] file] s'; simpl; intros [= <-]. reflexivity. Qed.
Next Obligation.
  intros t [[fs [|room]] file] e s'; simpl; intros [= <- <-].
  right. exists (Garbage ""). split; [reflexivity|]. right. by exists JSONDecodeError.
Qed.

(** *** Example data *)

Definition example_revision : string := "abcdef1234567".

Definition example_clock (n : nat) : string := "2024-05-01T12:00:00+00:00".

(** A remote with three units that download and one, [pptx], the second
    file of which cannot be fetched. The listing of [pdf] has a file after
    a directory. *)
Definition example_contents (p : string) : result (list item) :=
  if String.eqb p "skills/pdf" then
    Ok [ File "SKILL.md" (Some (Ok [Byte.x23])) (Raise TransportError);
         Dir "scripts" (Ok [ File "extract.py" None (Ok [Byte.x70]) ]);
         Other "symlink" "latest";
         File "tables.md" None (Ok [Byte.x7c]) ]
  else if String.eqb p "skills/docx" then
    Ok [ File "SKILL.md" None (Ok [Byte.x23]) ]
  else if String.eqb p "skills/xlsx" then
    Ok [ File "SKILL.md" None (Ok [Byte.x23]); Dir "templates" (Ok []) ]
  else if String.eqb p "skills/pptx" then
    Ok [ File "SKILL.md" None (Ok [Byte.x23]);
         File "big.bin" None (Raise (HTTPStatusError 500)) ]
  else Raise (HTTPStatusError 404).

Definition example_github : GitHubClient.t :=
  GitHubClient.mk (Ok example_revision) example_contents None.

Definition example_world (file : option memtext) : World.t memfs memtext :=
  World.mk [] file example_clock 0.

Definition example_skill (name : string) : Skill.t := Skill.mk name "" [].

(** The statuses of four units never synced, and the app showing them. *)
Definition example_statuses : list SyncStatus.t :=
  (fun n => SyncStatus.mk (example_skill n) "new" PyNone (PyStr "abcdef1"))
    <$> ["docx"; "pdf"; "pptx"; "xlsx"].

(** A status widget that takes every text: the texts of the examples have
    no bracket in them but those of their own tags. *)
Definition example_app (selected : gset string) : App.t :=
  App.mk example_statuses example_revision selected [] [] (fun _ => true).

(** A remote on which the unit [pptx] has a directory "a[" with a directory
    "b]" in it, the listing of which is answered by a 500. The exception
    raised for it names the address that was asked for, and that address
    ends in "skills/pptx/a[/b]". *)
Definition example_contents_brackets (p : string) : result (list item) :=
  if String.eqb p "skills/pptx" then
    Ok [ File "SKILL.md" None (Ok [Byte.x23]);
         Dir "a[" (Ok [ Dir "b]" (Raise (HTTPStatusError 500)) ]) ]
  else example_contents p.

Definition example_github_brackets : GitHubClient.t :=
  GitHubClient.mk (Ok example_revision) example_contents_brackets None.

(** The app in front of that remote. Its widget takes every text but the
    error of [pptx]: there the message of the exception stands between
    the tags of the text as it is, and its "[/b]" is a closing tag that
    closes nothing. *)
Definition example_app_strict (selected : gset string) : App.t :=
  App.mk example_statuses example_revision selected [] []
         (fun ev => match ev with
                    | ErrorSyncing n (HTTPStatusError _) => negb (String.eqb n "pptx")
                    | _ => true
                    end).

(** A unit table with three entries, one of them without a revision. *)
Definition example_table : gmap string pyval :=
  {[ "pdf" := PyDict {[ "commit_sha" := PyStr "abcdef1999999";
                        "synced_at" := PyStr "2024-04-01T08:00:00+00:00";
                        "files" := PyList [PyStr "SKILL.md"] ]};
     "docx" := PyDict {[ "commit_sha" := PyStr "0123456789abc";
                         "synced_at" := PyStr "2024-04-01T08:00:00+00:00";
                         "files" := PyList [PyStr "SKILL.md"] ]};
     "legacy" := PyDict {[ "files" := PyList [] ]} ]}.

(** A manifest with that table and a top-level key the code knows nothing of. *)
Definition example_top : gmap string pyval :=
  {[ "skills" := PyDict example_table; "schema" := PyInt 2 ]}.

Definition example_manifest : pyval := PyDict example_top.

(** A manifest that parses to an object without the ["skills"] key. *)
Definition example_manifest_no_table : pyval :=
  PyDict {[ "schema" := PyInt 2 ]}.

(** A session of the app: [docx] is checked and synced, then [pdf], [pptx]
    and [xlsx] are checked. The state is the one in which [s] is pressed
    for the second time. *)
Definition example_second_batch : App.t * World.t memfs memtext :=
  let s0 := (example_app ∅, example_world None) in
  let s1 := (action_toggle "docx" s0).2 in
  let s2 := (action_sync example_github s1).2 in
  let s3 := (action_toggle "pdf" s2).2 in
  let s4 := (action_toggle "pptx" s3).2 in
  (action_toggle "xlsx" s4).2.

(** ** Notions the properties are stated with *)

(** The unit table status resolution works on: the ["skills"] entry of the
    loaded manifest, the empty table when the manifest has no such key. *)
Definition skills_table {FS text : Type} `{JsonCodec text} (w : World.t FS text)
    : option (gmap string pyval) :=
  match get_manifest w with
  | inr (PyDict m) =>
      match m !! "skills" with
      | None => Some ∅
      | Some (PyDict tbl) => Some tbl
      | Some _ => None
      end
  | _ => None
  end.

(** The manifest entry [record_sync] stores. *)
Definition manifest_entry (commit_sha synced_at : string) (files : list string) : pyval :=
  PyDict {[ "commit_sha" := PyStr commit_sha;
            "synced_at" := PyStr synced_at;
            "files" := PyList (PyStr <$> files) ]}.

(** The revision stored in an entry: its ["commit_sha"], the empty string
    when the entry has none. *)
Definition stored_revision (entry : gmap string pyval) : pyval :=
  default (PyStr "") (entry !! "commit_sha").

(** The three outcomes of status resolution. *)
Definition status_new (skill : Skill.t) (remote_sha : string) : SyncStatus.t :=
  SyncStatus.mk skill "new" PyNone (PyStr (str_take 7 remote_sha)).

Definition status_ok (skill : Skill.t) (stored remote_sha : string) : SyncStatus.t :=
  SyncStatus.mk skill "ok" (PyStr (str_take 7 stored)) (PyStr (str_take 7 remote_sha)).

Definition status_update (skill : Skill.t) (stored remote_sha : string) : SyncStatus.t :=
  SyncStatus.mk skill "update"
    (if decide (stored = "") then PyNone else PyStr (str_take 7 stored))
    (PyStr (str_take 7 remote_sha)).

(** The leaf names of the files below a listing, in the order the walk of
    [_download_directory] meets them: the entries of a listing in the order
    given, the files of a directory at the place of the directory. *)
Fixpoint names_in_walk_order (it : item) : list string :=
  match it with
  | File name _ _ => [name]
  | Dir _ (inr items) => concat (names_in_walk_order <$> items)
  | Dir _ (inl _) => []
  | Other _ _ => []
  end.

(** The order the specification describes: in each listing, first the
    files of that listing, then the contents of its directories. *)
Fixpoint names_files_first (it : item) : list string :=
  match it with
  | File name _ _ => [name]
  | Dir _ (inr items) =>
      (concat ((fun it' => match it' with File n _ _ => [n] | _ => [] end) <$> items)
       ++ concat ((fun it' => match it' with Dir _ _ => names_files_first it' | _ => [] end) <$> items))%list
  | Dir _ (inl _) => []
  | Other _ _ => []
  end.

(** An entry the resolver can classify: none, [null], or an object whose
    ["commit_sha"] is missing or is a string or a list (what can be sliced). *)
Definition resolvable (entry : option pyval) : bool :=
  match entry with
  | None | Some PyNone => true
  | Some (PyDict e) =>
      match stored_revision e with
      | PyStr _ | PyList _ => true
      | _ => false
      end
  | Some _ => false
  end.

(** The calls a completed walk makes on the disk for an entry found in
    [target_dir], in order. *)
Fixpoint walk_calls (it : item) (target_dir : path) : list fs_call :=
  match it with
  | File name inline fetched =>
      match file_content inline fetched with
      | inr content => [CallWriteBytes (child target_dir name) content]
      | inl _ => []
      end
  | Dir name (inr items) =>
      CallMkdir (child target_dir name)
      :: concat ((fun it' => walk_calls it' (child target_dir name)) <$> items)
  | Dir _ (inl _) => []
  | Other _ _ => []
  end.

(** The entry of a unit in the manifest of a world, if the manifest loads
    and has one. *)
Definition manifest_entry_of {FS text : Type} `{JsonCodec text} (w : World.t FS text)
    (skill_name : string) : option pyval :=
  tbl ← skills_table w; tbl !! skill_name.

(** The remove/download/record cycles of a batch, one unit after the other,
    each with its outcome: the files it recorded or the exception it raised. *)
Fixpoint batch_outcomes {FS text : Type} `{LocalFS FS} `{JsonCodec text}
    `{!WriteText FS text} (github : GitHubClient.t) (remote_sha : string) (names : list string)
    (w : World.t FS text) : list (string * result (list string)) * World.t FS text :=
  match names with
  | [] => ([], w)
  | name :: rest =>
      let '(r, w1) := sync_unit github name remote_sha w in
      let '(outcomes, w') := batch_outcomes github remote_sha rest w1 in
      ((name, r) :: outcomes, w')
  end.

(** The units of a batch whose cycle returned, in order. *)
Definition succeeded (outcomes : list (string * result (list string))) : list string :=
  omap (fun o => match o.2 with inr _ => Some o.1 | inl _ => None end) outcomes.

(** The units of a batch whose cycle raised, in order. *)
Definition failed (outcomes : list (string * result (list string))) : list string :=
  omap (fun o => match o.2 with inr _ => None | inl _ => Some o.1 end) outcomes.

(** What the worker tells [update_status] during a batch with these
    outcomes, the first unit being number [i] of [total]. *)
Fixpoint worker_events (total i : nat) (outcomes : list (string * result (list string)))
    : list ui_event :=
  match outcomes with
  | [] => []
  | (name, r) :: rest =>
      (Syncing name i total
       :: match r with inl e => [ErrorSyncing name e] | inr _ => [] end)
      ++ worker_events total (S i) rest
  end%list.


(** The units a status log shows as started, in order. *)
Definition started (log : list ui_event) : list string :=
  omap (fun ev => match ev with Syncing name _ _ => Some name | _ => None end) log.

(** The name of the unit of a status. *)
Definition unit_name (s : SyncStatus.t) : string := Skill.name (SyncStatus.skill s).



(** The app after a batch: the units [synced] appended to [synced_skills],
    the texts [shown] appended to the status line. *)
Definition app_after (app : App.t) (synced : list string) (shown : list ui_event) : App.t :=
  App.mk (App.statuses app) (App.remote_sha app) (App.selected app)
         (App.synced_skills app ++ synced)%list (App.status_log app ++ shown)%list
         (App.markup_ok app).

(** What a batch of the worker hands to the status line when the cycles of
    its units have these outcomes: the start of each unit and the error of
    each that raised, then the number of units in [synced_skills]. *)
Definition batch_events (app : App.t) (outcomes : list (string * result (list string)))
    : list ui_event :=
  (worker_events (length outcomes) 1 outcomes
   ++ [DoneSynced (length (App.synced_skills app ++ succeeded outcomes))])%list.

(** ** The rest of the client and of the app *)

(** [sorted(skills, key=lambda s: s.name)]: the sort is stable and compares
    the names as strings, character by character. Inserting each skill
    before the first one whose name is not smaller, from the last skill
    to the first, is that sort. *)
Fixpoint insert_by_name (s : Skill.t) (sorted : list Skill.t) : list Skill.t :=
  match sorted with
  | [] => [s]
  | x :: rest =>
      if String.leb (Skill.name s) (Skill.name x)
      then s :: x :: rest
      else x :: insert_by_name s rest
  end.

Definition sorted_by_name (skills : list Skill.t) : list Skill.t :=
  foldr insert_by_name [] skills.

(** [for item in response.json(): if item["type"] == "dir": skills.append(...)]. *)
Fixpoint list_skills_loop (items : list item) (skills : list Skill.t) : list Skill.t :=
  match items with
  | [] => skills
  | Dir name _ :: rest => list_skills_loop rest (skills ++ [Skill.mk name "" []])%list
  | _ :: rest => list_skills_loop rest skills
  end.

Definition list_skills (self : GitHubClient.t) : result (list Skill.t) :=
  items ← GitHubClient.contents self SKILLS_PATH;
  Ok (sorted_by_name (list_skills_loop items [])).

Section Selection.
Context {FS text : Type}.

Local Abbreviation world := (World.t FS text).

(** [action_select_all]: every unit of the table is checked. *)
Definition action_select_all : io (App.t * world) unit :=
  fun '(app, w) =>
    let selected' :=
      foldl (fun sel s => sel ∪ {[ Skill.name (SyncStatus.skill s) ]})
            (App.selected app) (App.statuses app) in
    (Ok (), (App.mk (App.statuses app) (App.remote_sha app) selected'
                    (App.synced_skills app) (App.status_log app)
                    (App.markup_ok app), w)).

(** [action_select_new]: the selection is cleared, then the units whose
    status is ["new"] or ["update"] are checked. *)
Definition action_select_new : io (App.t * world) unit :=
  fun '(app, w) =>
    let selected' :=
      foldl (fun sel s =>
               if String.eqb (SyncStatus.status s) "new"
                  || String.eqb (SyncStatus.status s) "update"
               then sel ∪ {[ Skill.name (SyncStatus.skill s) ]}
               else sel)
            ∅ (App.statuses app) in
    (Ok (), (App.mk (App.statuses app) (App.remote_sha app) selected'
                    (App.synced_skills app) (App.status_log app)
                    (App.markup_ok app), w)).

End Selection.

(** The names of the directories of a listing, in the order of the listing. *)
Definition dir_names (items : list item) : list string :=
  omap (fun it => match it with Dir name _ => Some name | _ => None end) items.

(** The paths a list of calls has written files to, in order. *)
Definition written_paths (calls : list fs_call) : list path :=
  omap (fun c => match c with
                 | CallWriteBytes p _ => Some p
                 | _ => None
                 end) calls.

(** *** The listing of the command line *)

(** The lines printed by [list_skills_cli], by shape: ["Fetching skills
    from ..."], ["Latest commit: {sha[:7]}"], the header of the table, the
    rule under it, and one row per status with the name, the status (which
    the row shows in upper case) and the two objects put in the columns
    [Local] and [Remote]. *)
Inductive list_line : Type :=
  | FetchingSkills
  | LatestCommitLine (sha7 : string)
  | TableHeader
  | TableRule
  | TableRow (name status : string) (local remote : pyval).

(** [v or d]. *)
Definition py_or (v d : pyval) : pyval := if py_truthy v then v else d.

(** Whether [f"{v:<10}"] can be formatted: [None], a [list] and a [dict]
    take no format string. *)
Definition py_formats_left (v : pyval) : bool :=
  match v with
  | PyNone | PyList _ | PyDict _ => false
  | _ => true
  end.

(** [for s in statuses: ... print(f"...")]: the four fields are formatted,
    then the row is printed. *)
Fixpoint list_skills_cli_loop (statuses : list SyncStatus.t) : io (list list_line) unit :=
  match statuses with
  | [] => io_ret ()
  | s :: rest =>
      let local := py_or (SyncStatus.local_sha s) (PyStr "-") in
      let remote := py_or (SyncStatus.remote_sha s) (PyStr "-") in
      io_bind
        (if py_formats_left local && py_formats_left remote
         then (fun out => (Ok (), (out ++ [TableRow (Skill.name (SyncStatus.skill s))
                                             (SyncStatus.status s) local remote])%list))
         else io_raise TypeError)
        (fun _ => list_skills_cli_loop rest)
  end.

(** [list_skills_cli]; the client after the call, with its cache, is
    returned beside the run. *)
Definition list_skills_cli {FS text : Type} `{JsonCodec text}
    (github : GitHubClient.t) (w : World.t FS text)
    : io (list list_line) unit * GitHubClient.t :=
  let '(r, github') := get_latest_commit github in
  (io_bind (fun out => (Ok (), (out ++ [FetchingSkills])%list))
     (fun _ =>
        io_bind (io_lift r) (fun remote_sha =>
        io_bind (io_lift (list_skills github')) (fun skills =>
        io_bind (io_lift (get_sync_status w skills remote_sha)) (fun statuses =>
        io_bind (fun out => (Ok (), (out ++ [LatestCommitLine (str_take 7 remote_sha);
                                             TableHeader; TableRule])%list))
          (fun _ => list_skills_cli_loop statuses))))),
   github').

(** ** [sync_skill_creator.py]

    The script that mirrors the one unit [skill-creator]. Its client has no
    cache and its walk collects the path of each file, not its leaf name
    (the source appends [str(target_dir / item["name"])]; the list here
    holds the paths those strings spell). Paths are below the directory of
    the script. *)

Definition SKILL_MAKER_PATH : string := "skills/skill-creator".

(** The lines the script prints, by shape: ["Fetching latest commit from
    ..."], ["Latest commit: {sha[:7]}"], ["Removing existing {dir}..."],
    ["Downloading ... to {dir}..."], ["Done! Downloaded {n} files."]. *)
Inductive creator_line : Type :=
  | FetchingLatestCommit
  | LatestCommit (sha7 : string)
  | RemovingExisting (target_dir : path)
  | Downloading (target_dir : path)
  | DoneDownloaded (n : nat).

Module SkillCreator.
Section WithDisk.
Context {FS : Type} `{LocalFS FS}.
Local Open Scope io_scope.

Definition get_latest_commit (self : GitHubClient.t) : result string :=
  GitHubClient.commits_main self.

(** One turn of the loop of [_download_directory], the recursive call
    unfolded as in the walk of [skill_sync.py]. *)
Fixpoint download_item (it : item) (target_dir : path) (files : list path)
    {struct it} : io FS (list path) :=
  match it with
  | File name inline fetched =>
      _download_file name inline fetched target_dir ;;;
      io_ret (files ++ [child target_dir name])%list
  | Dir name listing =>
      let subdir := child target_dir name in
      match listing with
      | inl e => io_raise e
      | inr items =>
          fs_mkdir subdir ;;;
          (fix each (items : list item) (files : list path) : io FS (list path) :=
             match items with
             | [] => io_ret files
             | it' :: rest =>
                 files' <- download_item it' subdir files ;;
                 each rest files'
             end) items files
      end
  | Other _ _ => io_ret files
  end.

Fixpoint download_items (items : list item) (target_dir : path)
    (files : list path) : io FS (list path) :=
  match items with
  | [] => io_ret files
  | it :: rest =>
      files' <- download_item it target_dir files ;;
      download_items rest target_dir files'
  end.

Definition _download_directory (response : result (list item))
    (target_dir : path) (files : list path) : io FS (list path) :=
  match response with
  | inl e => io_raise e
  | inr items =>
      fs_mkdir target_dir ;;;
      download_items items target_dir files
  end.

Definition download_directory (self : GitHubClient.t) (p : string)
    (target_dir : path) : io FS (list path) :=
  _download_directory (GitHubClient.contents self p) target_dir [].

Definition print (line : creator_line) : io (list creator_line * FS) unit :=
  fun '(out, fs) => (Ok (), ((out ++ [line])%list, fs)).

Definition on_disk {A} (c : io FS A) : io (list creator_line * FS) A :=
  fun '(out, fs) => let '(r, fs') := c fs in (r, (out, fs')).

Definition main (github : GitHubClient.t) : io (list creator_line * FS) unit :=
  let target_dir := child [] "skill-creator" in
  print FetchingLatestCommit ;;;
  commit_sha <- io_lift (get_latest_commit github) ;;
  print (LatestCommit (str_take 7 commit_sha)) ;;;
  (fun s => if fs_exists target_dir (snd s)
            then (print (RemovingExisting target_dir) ;;;
                  on_disk (fs_rmtree target_dir)) s
            else (Ok (), s)) ;;;
  print (Downloading target_dir) ;;;
  files <- on_disk (download_directory github SKILL_MAKER_PATH target_dir) ;;
  print (DoneDownloaded (length files)).

End WithDisk.
End SkillCreator.

(** How a run of the walk of [sync_skill_creator.py] and a run of the walk
    of [skill_sync.py] compare: the same disk afterwards, the same
    exception if any, and lists that grew by the paths and by the leaf
    names of the same files, below [target_dir]. *)
Definition same_walk {FS : Type} (target_dir : path) (paths : list path)
    (names : list string)
    (run1 : result (list path) * FS) (run2 : result (list string) * FS) : Prop :=
  run1.2 = run2.2 /\
  match run1.1, run2.1 with
  | inr paths', inr names' =>
      exists new : list (path * string),
        paths' = (paths ++ new.*1)%list /\ names' = (names ++ new.*2)%list /\
        Forall (fun pn => target_dir `prefix_of` pn.1 /\ last pn.1 = Some pn.2) new
  | inl e1, inl e2 => e1 = e2
  | _, _ => False
  end.

(** A catalogue with two directories and a file. *)
Definition example_catalogue : GitHubClient.t :=
  GitHubClient.mk (Ok example_revision)
    (fun p => if String.eqb p "skills"
              then Ok [ Dir "pdf" (Raise TransportError);
                        File "README.md" None (Ok []);
                        Dir "docx" (Raise TransportError);
                        Other "symlink" "latest" ]
              else example_contents p)
    None.

(** A manifest in which the entry of [pdf] is [null] and that of [docx] a
    number. *)
Definition example_manifest_odd : pyval :=
  PyDict {[ "skills" := PyDict {[ "pdf" := PyNone; "docx" := PyInt 7 ]} ]}.

(** A remote that has the unit [skill-creator]. *)
Definition example_creator_github : GitHubClient.t :=
  GitHubClient.mk (Ok example_revision)
    (fun p => if String.eqb p "skills/skill-creator"
              then Ok [ File "SKILL.md" None (Ok [Byte.x23]);
                        Dir "scripts" (Ok [ File "init.py" None (Ok [Byte.x70]) ]) ]
              else Raise (HTTPStatusError 404))
    None.

(** A disk that lists its calls and already holds a copy of [pdf] with a
    file the remote no longer has, and a world on it without manifest. *)
Definition example_stale_disk : traced memfs :=
  ([], [ ([], NDir); (["pdf"], NDir); (["pdf"; "old.md"], NFile [Byte.x6f]) ]).

Definition example_stale_world : World.t (traced memfs) memtext :=
  World.mk example_stale_disk None example_clock 0.

(** The app after a first batch that synced [pdf]. *)
Definition example_after_first_batch : App.t * World.t memfs memtext :=
  (sync_selected example_github (example_app {[ "pdf" ]}, example_world None)).2.

(** * Properties *)

(** ** Strings and slices *)

Lemma str_take_nil n : str_take n "" = "".
Proof. by destruct n. Qed.

Lemma str_take_app (p x : string) :
  str_take (String.length p) (p +:+ x) = p.
Proof. induction p as [|c p IH]; simpl; [by destruct x|by rewrite IH]. Qed.

Lemma str_take_length n s : (String.length (str_take n s) <= n)%nat.
Proof. revert s. induction n as [|n IH]; intros [|c s]; simpl; try lia. specialize (IH s). lia. Qed.

Lemma str_take_empty n s : str_take (S n) s = "" <-> s = "".
Proof. destruct s; simpl; split; congruence. Qed.

(** Only the first [n] characters matter to the slice. *)
Lemma str_take_beyond (p x y : string) :
  str_take (String.length p) (p +:+ x) = str_take (String.length p) (p +:+ y).
Proof. by rewrite !str_take_app. Qed.

Lemma eqb_false_ne (a b : string) : String.eqb a b = false <-> a <> b.
Proof. apply String.eqb_neq. Qed.

Arguments str_take : simpl never.

(** ** Status resolution *)

Section Resolver.
Context {FS : Type} `{LocalFS FS} {text : Type} `{JsonCodec text}.

Local Abbreviation world := (World.t FS text).

(** An absent entry resolves to ["new"], and so does an entry that is [null]. *)
Lemma sync_status_of_absent tbl remote_sha skill :
  tbl !! Skill.name skill = None ->
  sync_status_of (PyDict tbl) remote_sha skill = Ok (status_new skill remote_sha).
Proof. intros Habs. unfold sync_status_of. simpl. by rewrite Habs. Qed.

(** An entry with a string revision resolves by the 7-character prefixes. *)
Lemma sync_status_of_present tbl remote_sha skill entry stored :
  tbl !! Skill.name skill = Some (PyDict entry) ->
  stored_revision entry = PyStr stored ->
  sync_status_of (PyDict tbl) remote_sha skill
  = Ok (if decide (str_take 7 stored = str_take 7 remote_sha)
        then status_ok skill stored remote_sha
        else status_update skill stored remote_sha).
Proof.
  intros Hent Hrev. unfold sync_status_of. simpl. rewrite Hent. simpl.
  unfold stored_revision in Hrev. rewrite Hrev. simpl.
  destruct (decide (str_take 7 stored = str_take 7 remote_sha)) as [Heq|Hne].
  - rewrite Heq, String.eqb_refl. simpl. unfold status_ok. by rewrite Heq.
  - apply String.eqb_neq in Hne. rewrite Hne. simpl.
    unfold status_update, py_or_none. simpl.
    destruct (decide (stored = "")) as [->|Hs]; [done|].
    by destruct stored.
Qed.

(** The loop appends one status per skill, in the order of the skills. *)
Lemma sync_status_loop_Ok tbl remote_sha skills acc statuses :
  sync_status_loop tbl remote_sha skills acc = Ok statuses ->
  exists new, statuses = (acc ++ new)%list /\
    Forall2 (fun skill status => sync_status_of tbl remote_sha skill = Ok status) skills new.
Proof.
  revert acc. induction skills as [|skill rest IH]; intros acc Hrun; simpl in Hrun.
  - exists []. split; [injection Hrun as <-; by rewrite app_nil_r|constructor].
  - destruct (sync_status_of tbl remote_sha skill) as [e|status] eqn:Hone; [done|].
    simpl in Hrun. destruct (IH _ Hrun) as (new & -> & Hall).
    exists (status :: new). split; [by rewrite <- app_assoc|by constructor].
Qed.

Lemma sync_status_loop_Forall2 tbl remote_sha skills acc new :
  Forall2 (fun skill status => sync_status_of tbl remote_sha skill = Ok status) skills new ->
  sync_status_loop tbl remote_sha skills acc = Ok (acc ++ new)%list.
Proof.
  intros Hall. revert acc. induction Hall as [|skill status rest new Hone _ IH]; intros acc; simpl.
  - by rewrite app_nil_r.
  - rewrite Hone. simpl. rewrite IH. by rewrite <- app_assoc.
Qed.

(** Every status carries the skill it was computed for. *)
Lemma sync_status_of_skill tbl remote_sha skill status :
  sync_status_of tbl remote_sha skill = Ok status -> SyncStatus.skill status = skill.
Proof.
  unfold sync_status_of. destruct (py_get tbl _) as [e|[info|]]; simpl; [done| |by intros [= <-]].
  destruct info; try by intros [= <-].
  all: destruct (py_get_default _ _ _) as [e|sha]; simpl; [done|];
    destruct (py_slice 7 sha) as [e|sha7]; simpl; [done|];
    destruct (py_ne_str _ _); by intros [= <-].
Qed.

(** Status resolution reads the table [skills_table] gives. *)
Lemma get_sync_status_table (w : world) tbl skills remote_sha :
  skills_table w = Some tbl ->
  get_sync_status w skills remote_sha
  = sync_status_loop (PyDict tbl) remote_sha skills [].
Proof.
  unfold skills_table, get_sync_status. intros Htbl.
  destruct (get_manifest w) as [e|[| | | | | |m]]; try done. simpl.
  destruct (m !! "skills") as [[| | | | | |tbl']|]; try done; simpl; congruence.
Qed.

Lemma get_sync_status_lookup (w : world) tbl skills remote_sha statuses i skill :
  skills_table w = Some tbl ->
  get_sync_status w skills remote_sha = Ok statuses ->
  skills !! i = Some skill ->
  exists status, statuses !! i = Some status /\
    sync_status_of (PyDict tbl) remote_sha skill = Ok status.
Proof.
  intros Htbl Hrun Hi. rewrite (get_sync_status_table _ _ _ _ Htbl) in Hrun.
  apply sync_status_loop_Ok in Hrun as (new & -> & Hall). simpl.
  destruct (Forall2_lookup_l _ _ _ _ _ Hall Hi) as (status & Hst & Hone). eauto.
Qed.

(** C5 (new-unit detection). A unit whose name is not in the unit table of
    the manifest resolves to status ["new"], without a local revision and
    with the first 7 characters of the remote revision, whatever the remote
    revision is: resolving it alone returns just that, and in every run of
    the resolver that returns, its place in the output holds that. *)
Theorem new_unit_detection (w : world) tbl skill remote_sha :
  skills_table w = Some tbl ->
  tbl !! Skill.name skill = None ->
  get_sync_status w [skill] remote_sha = Ok [status_new skill remote_sha] /\
  forall skills statuses i,
    get_sync_status w skills remote_sha = Ok statuses ->
    skills !! i = Some skill ->
    statuses !! i = Some (status_new skill remote_sha).
Proof.
  intros Htbl Habs. split.
  - rewrite (get_sync_status_table _ _ _ _ Htbl). simpl.
    by rewrite (sync_status_of_absent _ _ _ Habs).
  - intros skills statuses i Hrun Hi.
    destruct (get_sync_status_lookup _ _ _ _ _ _ _ Htbl Hrun Hi) as (status & Hst & Hone).
    rewrite (sync_status_of_absent _ _ _ Habs) in Hone. by injection Hone as <-.
Qed.

(** C2 (revision-prefix comparison). For a unit with a manifest entry whose
    stored revision is a string (the empty string when the entry has no
    revision), the resolver compares the first 7 characters of the stored
    revision with the first 7 characters of the remote revision: equal
    prefixes give ["ok"] (unchanged), different ones give ["update"] with
    the stored prefix as local revision, [None] when the stored revision is
    empty, and the remote prefix as remote revision. The resolver returns
    in each case, an empty stored revision included. *)
Theorem revision_prefix_comparison (w : world) tbl skill entry stored remote_sha :
  skills_table w = Some tbl ->
  tbl !! Skill.name skill = Some (PyDict entry) ->
  stored_revision entry = PyStr stored ->
  let resolved :=
    if decide (str_take 7 stored = str_take 7 remote_sha)
    then SyncStatus.mk skill "ok" (PyStr (str_take 7 stored))
           (PyStr (str_take 7 remote_sha))
    else SyncStatus.mk skill "update"
           (if decide (stored = "") then PyNone else PyStr (str_take 7 stored))
           (PyStr (str_take 7 remote_sha)) in
  get_sync_status w [skill] remote_sha = Ok [resolved] /\
  forall skills statuses i,
    get_sync_status w skills remote_sha = Ok statuses ->
    skills !! i = Some skill ->
    statuses !! i = Some resolved.
Proof.
  intros Htbl Hent Hrev resolved.
  pose proof (sync_status_of_present _ remote_sha _ _ _ Hent Hrev) as Hone.
  fold (status_ok skill stored remote_sha) in resolved.
  fold (status_update skill stored remote_sha) in resolved.
  fold resolved in Hone. split.
  - rewrite (get_sync_status_table _ _ _ _ Htbl). simpl. by rewrite Hone.
  - intros skills statuses i Hrun Hi.
    destruct (get_sync_status_lookup _ _ _ _ _ _ _ Htbl Hrun Hi) as (status & Hst & Hone').
    rewrite Hone in Hone'. by injection Hone' as <-.
Qed.

(** Revisions that differ only after their first 7 characters resolve to
    ["ok"]. *)
Corollary revision_beyond_prefix (w : world) tbl skill entry (p x y : string) :
  skills_table w = Some tbl ->
  tbl !! Skill.name skill = Some (PyDict entry) ->
  stored_revision entry = PyStr (p +:+ x) ->
  String.length p = 7%nat ->
  get_sync_status w [skill] (p +:+ y)
  = Ok [SyncStatus.mk skill "ok" (PyStr p) (PyStr p)].
Proof.
  intros Htbl Hent Hrev Hlen.
  rewrite (get_sync_status_table _ _ _ _ Htbl). simpl.
  rewrite (sync_status_of_present _ (p +:+ y) _ _ _ Hent Hrev). simpl.
  unfold status_ok. rewrite <- Hlen, !str_take_app.
  by destruct (decide (p = p)).
Qed.

Lemma sync_status_of_resolvable tbl remote_sha skill :
  resolvable (tbl !! Skill.name skill) = true ->
  exists status, sync_status_of (PyDict tbl) remote_sha skill = Ok status.
Proof.
  unfold sync_status_of, resolvable. simpl.
  destruct (tbl !! Skill.name skill) as [[| | | | | |e]|]; try done; eauto.
  simpl. unfold py_get_default. simpl. fold (stored_revision e).
  destruct (stored_revision e) as [| | | |s|l|]; try done; simpl; intros _.
  - destruct (negb _); eauto.
  - eauto.
Qed.

(** Status resolution returns on every manifest whose looked-up entries can
    be classified. *)
Lemma get_sync_status_returns (w : world) tbl skills remote_sha :
  skills_table w = Some tbl ->
  Forall (fun skill => resolvable (tbl !! Skill.name skill) = true) skills ->
  exists statuses, get_sync_status w skills remote_sha = Ok statuses.
Proof.
  intros Htbl Hall. rewrite (get_sync_status_table _ _ _ _ Htbl).
  assert (exists new, Forall2 (fun skill status =>
            sync_status_of (PyDict tbl) remote_sha skill = Ok status) skills new) as [new Hnew].
  { induction Hall as [|skill rest Hres _ [new IH]]; [by exists []|].
    destruct (sync_status_of_resolvable _ remote_sha _ Hres) as [status Hone].
    exists (status :: new). by constructor. }
  exists new. by rewrite (sync_status_loop_Forall2 _ _ _ _ _ Hnew).
Qed.

(** C6 (order preservation). Whenever status resolution returns, its output
    has one status per input unit, and the units of the output are the
    input units in the input order; and it does return on every manifest
    in which the entries of the input units can be classified. *)
Theorem order_preservation (w : world) skills remote_sha :
  (forall statuses,
     get_sync_status w skills remote_sha = Ok statuses ->
     SyncStatus.skill <$> statuses = skills /\ length statuses = length skills) /\
  (forall tbl,
     skills_table w = Some tbl ->
     Forall (fun skill => resolvable (tbl !! Skill.name skill) = true) skills ->
     exists statuses, get_sync_status w skills remote_sha = Ok statuses).
Proof.
  split; [|intros tbl; apply get_sync_status_returns].
  unfold get_sync_status. intros statuses Hrun.
  destruct (get_manifest w) as [e|manifest]; [done|]. simpl in Hrun.
  destruct (py_get_default manifest "skills" (PyDict ∅)) as [e|local_skills]; [done|].
  simpl in Hrun. apply sync_status_loop_Ok in Hrun as (new & -> & Hall). simpl.
  induction Hall as [|skill status rest new Hone _ [IH1 IH2]]; [done|].
  apply sync_status_of_skill in Hone. rewrite fmap_cons. simpl.
  split; [by rewrite Hone, IH1|by rewrite IH2].
Qed.

(** When each unit resolves to [f] of it, the run returns [f] of the units. *)
Lemma get_sync_status_fmap (w : world) tbl skills remote_sha (f : Skill.t -> SyncStatus.t) :
  skills_table w = Some tbl ->
  Forall (fun skill => sync_status_of (PyDict tbl) remote_sha skill = Ok (f skill)) skills ->
  get_sync_status w skills remote_sha = Ok (f <$> skills).
Proof.
  intros Htbl Hall. rewrite (get_sync_status_table _ _ _ _ Htbl).
  rewrite (sync_status_loop_Forall2 _ _ _ _ (f <$> skills)); [done|].
  induction Hall; [constructor|]. rewrite fmap_cons. by constructor.
Qed.

End Resolver.

(** ** The manifest *)

Section Manifest.
Context {FS : Type} `{LocalFS FS} {text : Type} `{JsonCodec text} `{!WriteText FS text}.

Local Abbreviation world := (World.t FS text).

(** [record_sync] on a manifest that loads as an object with a unit table:
    the clock is read, the directory of the units made, the file written. *)
Lemma record_sync_run (w : world) m tbl skill_name commit_sha files :
  get_manifest w = Ok (PyDict m) ->
  m !! "skills" = Some (PyDict tbl) ->
  let doc := json_dumps (PyDict (<["skills" :=
               PyDict (<[skill_name :=
                 manifest_entry commit_sha (World.clock w (World.clock_reads w)) files]> tbl)]> m)) in
  record_sync skill_name commit_sha files w
  = match fs_mkdir [] (World.fs w) with
    | (inl e, fs1) =>
        (Raise e, World.mk fs1 (World.manifest_file w) (World.clock w)
                           (S (World.clock_reads w)))
    | (inr _, fs1) =>
        let '(r, (fs2, file2)) := fs_write_text doc (fs1, World.manifest_file w) in
        (r, World.mk fs2 file2 (World.clock w) (S (World.clock_reads w)))
    end.
Proof.
  intros Hload Hskills doc.
  unfold record_sync, io_bind, io_lift, utcnow_isoformat, save_manifest, on_fs,
    write_manifest_text, io_bind.
  rewrite Hload. simpl. rewrite Hskills. simpl.
  destruct (fs_mkdir [] (World.fs w)) as [[e|[]] fs1]; simpl; done.
Qed.

(** A [record_sync] that gets as far as the disk has loaded an object with
    a unit table. *)
Lemma record_sync_shape (w w' : world) skill_name commit_sha files r :
  record_sync skill_name commit_sha files w = (r, w') ->
  (exists e, r = Raise e /\
     w' = World.mk (World.fs w) (World.manifest_file w) (World.clock w)
                   match get_manifest w with
                   | inl _ => World.clock_reads w
                   | inr _ => S (World.clock_reads w)
                   end) \/
  (exists m tbl, get_manifest w = Ok (PyDict m) /\ m !! "skills" = Some (PyDict tbl)).
Proof.
  unfold record_sync, io_bind, io_lift, utcnow_isoformat.
  destruct (get_manifest w) as [e|manifest] eqn:Hload.
  { intros [= <- <-]. left. exists e. by destruct w. }
  destruct manifest as [| | | | | |m]; simpl;
    try (intros [= <- <-]; left; by eexists).
  destruct (m !! "skills") as [[| | | | | |tbl]|] eqn:Hskills; simpl;
    try (intros [= <- <-]; left; by eexists).
  intros _. right. by exists m, tbl.
Qed.

(** What a returning [record_sync] has done: the manifest was an object
    with a unit table, and the file now holds that object with the entry of
    the unit stored in the table. *)
Lemma record_sync_Ok (w w' : world) skill_name commit_sha files :
  record_sync skill_name commit_sha files w = (Ok (), w') ->
  exists m tbl,
    get_manifest w = Ok (PyDict m) /\
    m !! "skills" = Some (PyDict tbl) /\
    World.manifest_file w'
    = Some (json_dumps (PyDict (<["skills" :=
        PyDict (<[skill_name :=
          manifest_entry commit_sha (World.clock w (World.clock_reads w)) files]> tbl)]> m))) /\
    World.clock w' = World.clock w.
Proof.
  intros Hrun.
  destruct (record_sync_shape _ _ _ _ _ _ Hrun) as [(e & He & _)|(m & tbl & Hload & Hskills)];
    [done|].
  rewrite (record_sync_run _ _ _ _ _ _ Hload Hskills) in Hrun.
  exists m, tbl. split; [done|]. split; [done|].
  destruct (fs_mkdir [] (World.fs w)) as [[e|[]] fs1]; [done|].
  destruct (fs_write_text _ _) as [r [fs2 file2]] eqn:Hwrite.
  injection Hrun as -> <-. apply fs_write_text_Ok in Hwrite. simpl in *. by subst.
Qed.

(** A raising [record_sync] has left the manifest file as it was, unless
    what raised is the write of the file: the file then is as that write
    left it. *)
Lemma record_sync_Raise (w w' : world) skill_name commit_sha files e :
  record_sync skill_name commit_sha files w = (Raise e, w') ->
  World.manifest_file w' = World.manifest_file w \/
  exists m tbl fs1 s',
    get_manifest w = Ok (PyDict m) /\
    m !! "skills" = Some (PyDict tbl) /\
    fs_write_text
      (json_dumps (PyDict (<["skills" :=
         PyDict (<[skill_name :=
           manifest_entry commit_sha (World.clock w (World.clock_reads w)) files]> tbl)]> m)))
      (fs1, World.manifest_file w) = (Raise e, s') /\
    World.manifest_file w' = s'.2.
Proof.
  intros Hrun.
  destruct (record_sync_shape _ _ _ _ _ _ Hrun) as [(e' & _ & ->)|(m & tbl & Hload & Hskills)];
    [by left|].
  rewrite (record_sync_run _ _ _ _ _ _ Hload Hskills) in Hrun.
  destruct (fs_mkdir [] (World.fs w)) as [[e'|[]] fs1]; [injection Hrun as _ <-; by left|].
  destruct (fs_write_text _ _) as [r [fs2 file2]] eqn:Hwrite.
  injection Hrun as -> <-. right. by exists m, tbl, fs1, (fs2, file2).
Qed.


(** When [record_sync] raises before it reaches the disk, nothing but the
    clock reading has happened. *)
Lemma record_sync_getitem_Raise (w : world) skill_name commit_sha files manifest e :
  get_manifest w = Ok manifest ->
  py_getitem manifest "skills" = Raise e ->
  record_sync skill_name commit_sha files w
  = (Raise e, World.mk (World.fs w) (World.manifest_file w) (World.clock w)
                       (S (World.clock_reads w))).
Proof.
  intros Hload Hget.
  unfold record_sync, io_bind, io_lift, utcnow_isoformat.
  rewrite Hload. cbn beta iota zeta. by rewrite Hget.
Qed.

(** The table after a returning [record_sync]. *)
Lemma record_sync_table (w w' : world) skill_name commit_sha files :
  record_sync skill_name commit_sha files w = (Ok (), w') ->
  exists tbl,
    skills_table w = Some tbl /\
    skills_table w'
    = Some (<[skill_name :=
        manifest_entry commit_sha (World.clock w (World.clock_reads w)) files]> tbl).
Proof.
  intros Hrun. apply record_sync_Ok in Hrun as (m & tbl & Hload & Hskills & Hfile & _).
  exists tbl. split.
  - unfold skills_table. by rewrite Hload, Hskills.
  - unfold skills_table, get_manifest. rewrite Hfile, json_loads_dumps.
    by rewrite lookup_insert_eq.
Qed.

(** C8 (manifest load). When the manifest file does not exist, loading
    gives the empty manifest, an object with an empty unit table, and does
    not raise. When the file exists and its text does not parse, the error
    of the parser is what loading raises, and what status resolution and
    [record_sync] raise in turn, the latter leaving the world as it was. *)
Theorem manifest_load (w : world) :
  (World.manifest_file w = None ->
   get_manifest w = Ok (PyDict {[ "skills" := PyDict ∅ ]})) /\
  (forall t e,
     World.manifest_file w = Some t ->
     json_loads t = Raise e ->
     get_manifest w = Raise e /\
     (forall skills remote_sha, get_sync_status w skills remote_sha = Raise e) /\
     (forall skill_name commit_sha files,
        record_sync skill_name commit_sha files w = (Raise e, w))).
Proof.
  split.
  - intros Hnone. unfold get_manifest. by rewrite Hnone.
  - intros t e Hfile Hparse.
    assert (get_manifest w = Raise e) as Hload.
    { unfold get_manifest. by rewrite Hfile. }
    split; [done|]. split.
    + intros skills remote_sha. unfold get_sync_status. by rewrite Hload.
    + intros skill_name commit_sha files. unfold record_sync, io_bind.
      by rewrite Hload.
Qed.

(** C9 (frame property of [record_sync]). On a manifest file that parses
    to an object with a unit table, after a [record_sync] that returns the
    file holds an object in which every top-level key other than ["skills"]
    has the value it had, and whose unit table has the new entry for the
    unit and, for every other unit, the entry it had. *)
Theorem record_sync_frame (w w' : world) t m tbl skill_name commit_sha files :
  World.manifest_file w = Some t ->
  json_loads t = Ok (PyDict m) ->
  m !! "skills" = Some (PyDict tbl) ->
  record_sync skill_name commit_sha files w = (Ok (), w') ->
  exists m' tbl',
    World.manifest_file w' = Some (json_dumps (PyDict m')) /\
    json_loads (json_dumps (PyDict m')) = Ok (PyDict m') /\
    m' !! "skills" = Some (PyDict tbl') /\
    (forall k, k <> "skills" -> m' !! k = m !! k) /\
    (forall u, u <> skill_name -> tbl' !! u = tbl !! u) /\
    tbl' !! skill_name
    = Some (manifest_entry commit_sha (World.clock w (World.clock_reads w)) files).
Proof.
  intros Hfile Hparse Hskills Hrun.
  assert (get_manifest w = Ok (PyDict m)) as Hload.
  { unfold get_manifest. by rewrite Hfile. }
  apply record_sync_Ok in Hrun as (m0 & tbl0 & Hload0 & Hskills0 & Hfile' & _).
  rewrite Hload in Hload0. injection Hload0 as <-.
  rewrite Hskills in Hskills0. injection Hskills0 as <-.
  eexists _, _. split; [exact Hfile'|]. split; [apply json_loads_dumps|].
  split; [apply lookup_insert_eq|]. split; [|split].
  - intros k Hk. by rewrite lookup_insert_ne.
  - intros u Hu. by rewrite lookup_insert_ne.
  - apply lookup_insert_eq.
Qed.

(** X22. When [record_sync] returns and when it raises. On a manifest file
    that parses to an object with a unit table, [record_sync] makes the
    directory of the units and then writes the file, and its outcome is
    that of the first of the two that raises, or that of the write. When
    the directory cannot be made, the file is the one it was; otherwise the
    file is as the write left it, whether the write returned or raised. *)
Theorem record_sync_outcome (w : world) t m tbl skill_name commit_sha files :
  World.manifest_file w = Some t ->
  json_loads t = Ok (PyDict m) ->
  m !! "skills" = Some (PyDict tbl) ->
  let doc := json_dumps (PyDict (<["skills" :=
               PyDict (<[skill_name :=
                 manifest_entry commit_sha (World.clock w (World.clock_reads w)) files]> tbl)]> m)) in
  let made := fs_mkdir [] (World.fs w) in
  let written := fs_write_text doc (made.2, Some t) in
  let run := record_sync skill_name commit_sha files w in
  run.1 = match made.1 with inl e => Raise e | inr _ => written.1 end /\
  World.manifest_file run.2
  = match made.1 with inl _ => Some t | inr _ => written.2.2 end.
Proof.
  intros Hfile Hparse Hskills doc made written run.
  assert (get_manifest w = Ok (PyDict m)) as Hload.
  { unfold get_manifest. by rewrite Hfile. }
  subst run. rewrite (record_sync_run _ _ _ _ _ _ Hload Hskills). fold doc.
  rewrite Hfile. subst written made.
  destruct (fs_mkdir [] (World.fs w)) as [[e|[]] fs1]; simpl; [done|].
  by destruct (fs_write_text doc (fs1, Some t)) as [r' [fs2 file2]].
Qed.

(** C10 (what [record_sync] asks of the manifest). On a manifest file that
    parses to an object without the ["skills"] key, [record_sync] raises
    [KeyError] for that key and leaves the file and the disk as they were
    (only the clock has been read), while status resolution on the same file
    returns and resolves every unit to ["new"]. And [record_sync] returns
    only when the file is absent or parses to an object that has the key,
    with a unit table under it. *)
Theorem record_sync_needs_skills_key (w : world) :
  (forall t m skill_name commit_sha files skills remote_sha,
     World.manifest_file w = Some t ->
     json_loads t = Ok (PyDict m) ->
     m !! "skills" = None ->
     record_sync skill_name commit_sha files w
     = (Raise (KeyError "skills"),
        World.mk (World.fs w) (World.manifest_file w) (World.clock w)
                 (S (World.clock_reads w))) /\
     get_sync_status w skills remote_sha
     = Ok ((fun skill => status_new skill remote_sha) <$> skills)) /\
  (forall skill_name commit_sha files w',
     record_sync skill_name commit_sha files w = (Ok (), w') ->
     World.manifest_file w = None \/
     exists t m tbl,
       World.manifest_file w = Some t /\
       json_loads t = Ok (PyDict m) /\
       m !! "skills" = Some (PyDict tbl)).
Proof.
  split.
  - intros t m skill_name commit_sha files skills remote_sha Hfile Hparse Hkey.
    assert (get_manifest w = Ok (PyDict m)) as Hload.
    { unfold get_manifest. by rewrite Hfile. }
    split.
    + apply (record_sync_getitem_Raise _ _ _ _ _ _ Hload). simpl. by rewrite Hkey.
    + apply (get_sync_status_fmap w ∅).
      * unfold skills_table. by rewrite Hload, Hkey.
      * apply Forall_forall. intros skill _. by apply sync_status_of_absent.
  - intros skill_name commit_sha files w' Hrun.
    apply record_sync_Ok in Hrun as (m & tbl & Hload & Hskills & _).
    unfold get_manifest in Hload.
    destruct (World.manifest_file w) as [t|]; [right|by left].
    by exists t, m, tbl.
Qed.

(** C4 (sync, then resolve). After a returning [record_sync] for a unit,
    the unit table of the manifest maps the unit to an entry with the full
    revision, and is just that entry when there was no manifest file; and
    status resolution at the same revision then returns ["ok"] for the unit
    and still ["new"] for every unit that had no entry before, in any
    sequence made of such units. *)
Theorem sync_then_resolve (w w' : world) skill_name commit_sha files :
  record_sync skill_name commit_sha files w = (Ok (), w') ->
  let entry :=
    PyDict {[ "commit_sha" := PyStr commit_sha;
              "synced_at" := PyStr (World.clock w (World.clock_reads w));
              "files" := PyList (PyStr <$> files) ]} in
  exists tbl tbl',
    skills_table w = Some tbl /\
    skills_table w' = Some tbl' /\
    tbl' !! skill_name = Some entry /\
    (World.manifest_file w = None -> tbl' = {[ skill_name := entry ]}) /\
    forall skills,
      Forall (fun skill => Skill.name skill = skill_name \/
                           tbl !! Skill.name skill = None) skills ->
      get_sync_status w' skills commit_sha
      = Ok ((fun skill =>
               if decide (Skill.name skill = skill_name)
               then SyncStatus.mk skill "ok" (PyStr (str_take 7 commit_sha))
                      (PyStr (str_take 7 commit_sha))
               else SyncStatus.mk skill "new" PyNone
                      (PyStr (str_take 7 commit_sha))) <$> skills).
Proof.
  intros Hrun entry.
  destruct (record_sync_table _ _ _ _ _ Hrun) as (tbl & Htbl & Htbl').
  fold (manifest_entry commit_sha (World.clock w (World.clock_reads w)) files) in entry.
  fold entry in Htbl'.
  exists tbl, (<[skill_name := entry]> tbl).
  split; [done|]. split; [done|]. split; [apply lookup_insert_eq|]. split.
  - intros Hnone. unfold skills_table, get_manifest in Htbl. rewrite Hnone in Htbl.
    rewrite lookup_singleton_eq in Htbl. by injection Htbl as <-.
  - intros skills Hall. apply (get_sync_status_fmap w' _ _ _ _ Htbl').
    eapply Forall_impl; [exact Hall|]. intros skill Hcase. simpl in Hcase.
    destruct (decide (Skill.name skill = skill_name)) as [Heq|Hne].
    + erewrite sync_status_of_present;
        [|rewrite Heq; apply lookup_insert_eq|reflexivity].
      by destruct (decide (str_take 7 commit_sha = str_take 7 commit_sha)).
    + destruct Hcase as [Heq|Habs]; [done|].
      apply sync_status_of_absent. by rewrite lookup_insert_ne.
Qed.

End Manifest.

(** ** The download walk *)

(** Induction on an entry, with the entries of a directory as premises. *)
Lemma item_listing_ind (P : item -> Prop) :
  (forall name inline fetched, P (File name inline fetched)) ->
  (forall name e, P (Dir name (inl e))) ->
  (forall name items, Forall P items -> P (Dir name (inr items))) ->
  (forall type name, P (Other type name)) ->
  forall it, P it.
Proof.
  intros HFile HErr HDir HOther.
  fix IH 1. intros [name inline fetched|name [e|items]|type name].
  - apply HFile.
  - apply HErr.
  - apply HDir. induction items as [|it rest IHrest]; constructor; [apply IH|exact IHrest].
  - apply HOther.
Qed.

Section Walk.
Context {FS : Type} `{LocalFS FS}.

(** The recursive call of the source is [_download_directory] again. *)
Lemma download_item_Dir name listing target_dir files fs :
  download_item (Dir name listing) target_dir files fs
  = _download_directory listing (child target_dir name) files fs.
Proof.
  unfold _download_directory. simpl. destruct listing as [e|items]; [done|].
  unfold io_bind. destruct (fs_mkdir _ fs) as [[e|[]] fs1]; [done|].
  revert files fs1. induction items as [|it rest IH]; intros files fs1; [done|].
  simpl. unfold io_bind.
  destruct (download_item it _ files fs1) as [[e|files'] fs2]; [done|].
  apply IH.
Qed.

Lemma download_items_names (items : list item) :
  Forall (fun it => forall target_dir files (fs fs' : FS) files',
            download_item it target_dir files fs = (Ok files', fs') ->
            files' = (files ++ names_in_walk_order it)%list) items ->
  forall target_dir files (fs fs' : FS) files',
    download_items items target_dir files fs = (Ok files', fs') ->
    files' = (files ++ concat (names_in_walk_order <$> items))%list.
Proof.
  induction 1 as [|it rest Hit _ IH]; intros target_dir files fs fs' files'; simpl.
  - intros [= <- _]. by rewrite app_nil_r.
  - unfold io_bind.
    destruct (download_item it target_dir files fs) as [[e|files1] fs1] eqn:Hone; [done|].
    intros Hrest. apply Hit in Hone as ->. apply IH in Hrest as ->.
    by rewrite <- app_assoc.
Qed.

(** The walk appends the leaf names of the files in the order it meets them. *)
Lemma download_item_names (it : item) :
  forall target_dir files (fs fs' : FS) files',
    download_item it target_dir files fs = (Ok files', fs') ->
    files' = (files ++ names_in_walk_order it)%list.
Proof.
  induction it as [name inline fetched|name e|name items IH|type name]
    using item_listing_ind; intros target_dir files fs fs' files'.
  - simpl. unfold io_bind, _download_file, io_bind, io_lift.
    destruct (file_content inline fetched) as [e|content]; [done|].
    destruct (fs_write_bytes _ content fs) as [[e|[]] fs1]; [done|].
    by intros [= <- _].
  - done.
  - rewrite download_item_Dir. unfold _download_directory, io_bind.
    destruct (fs_mkdir _ fs) as [[e|[]] fs1]; [done|].
    apply (download_items_names _ IH).
  - simpl. intros [= <- _]. by rewrite app_nil_r.
Qed.

(** On any disk, a download that returns gives the leaf names of the files
    of the unit in the order of the walk. *)
Lemma download_skill_names (github : GitHubClient.t) skill_name target_dir
    (fs fs' : FS) files :
  download_skill github skill_name target_dir fs = (Ok files, fs') ->
  files = names_in_walk_order
            (Dir skill_name (GitHubClient.contents github (SKILLS_PATH +:+ "/" +:+ skill_name))).
Proof.
  unfold download_skill, _download_directory. simpl.
  destruct (GitHubClient.contents github _) as [e|items]; [done|].
  unfold io_bind. destruct (fs_mkdir target_dir fs) as [[e|[]] fs1]; [done|].
  intros Hrun. eapply (download_items_names items) in Hrun; [exact Hrun|].
  apply Forall_forall. intros it _. apply download_item_names.
Qed.

End Walk.

Section TracedWalk.
Context {FS : Type} `{LocalFS FS}.

Lemma download_items_calls (items : list item) :
  Forall (fun it => forall target_dir files log (fs : FS) files' log' fs',
            download_item it target_dir files (log, fs) = (Ok files', (log', fs')) ->
            log' = (log ++ walk_calls it target_dir)%list) items ->
  forall target_dir files log (fs : FS) files' log' fs',
    download_items items target_dir files (log, fs) = (Ok files', (log', fs')) ->
    log' = (log ++ concat ((fun it => walk_calls it target_dir) <$> items))%list.
Proof.
  induction 1 as [|it rest Hit _ IH]; intros target_dir files log fs files' log' fs'; simpl.
  - intros [= _ <- _]. by rewrite app_nil_r.
  - unfold io_bind.
    destruct (download_item it target_dir files (log, fs)) as [[e|files1] [log1 fs1]] eqn:Hone;
      [done|].
    intros Hrest. apply Hit in Hone as ->. apply IH in Hrest as ->.
    by rewrite <- app_assoc.
Qed.

(** On a disk that lists its calls, a completed walk has added the calls of
    [walk_calls], in that order. *)
Lemma download_item_calls (it : item) :
  forall target_dir files log (fs : FS) files' log' fs',
    download_item it target_dir files (log, fs) = (Ok files', (log', fs')) ->
    log' = (log ++ walk_calls it target_dir)%list.
Proof.
  induction it as [name inline fetched|name e|name items IH|type name]
    using item_listing_ind; intros target_dir files log fs files' log' fs'.
  - simpl. unfold io_bind, _download_file, io_bind, io_lift.
    destruct (file_content inline fetched) as [e|content]; [done|].
    simpl. destruct (fs_write_bytes _ content fs) as [[e|[]] fs1]; [done|].
    by intros [= _ <- _].
  - done.
  - rewrite download_item_Dir. unfold _download_directory, io_bind.
    simpl. destruct (fs_mkdir _ fs) as [[e|[]] fs1]; [done|].
    intros Hrun. apply (download_items_calls _ IH) in Hrun as ->.
    by rewrite <- app_assoc.
  - simpl. intros [= _ <- _]. by rewrite app_nil_r.
Qed.

Lemma download_items_erase (items : list item) :
  Forall (fun it => forall target_dir files log (fs : FS),
            exists log',
              download_item it target_dir files (log, fs)
              = ((download_item it target_dir files fs).1,
                 (log', (download_item it target_dir files fs).2))) items ->
  forall target_dir files log (fs : FS),
    exists log',
      download_items items target_dir files (log, fs)
      = ((download_items items target_dir files fs).1,
         (log', (download_items items target_dir files fs).2)).
Proof.
  induction 1 as [|it rest Hit _ IH]; intros target_dir files log fs; simpl.
  - by exists log.
  - unfold io_bind. destruct (Hit target_dir files log fs) as [log1 ->].
    destruct (download_item it target_dir files fs) as [[e|files1] fs1]; simpl.
    + by exists log1.
    + apply IH.
Qed.

(** Listing the calls changes neither what the walk returns or raises nor
    what it does to the disk. *)
Lemma download_item_erase (it : item) :
  forall target_dir files log (fs : FS),
    exists log',
      download_item it target_dir files (log, fs)
      = ((download_item it target_dir files fs).1,
         (log', (download_item it target_dir files fs).2)).
Proof.
  induction it as [name inline fetched|name e|name items IH|type name]
    using item_listing_ind; intros target_dir files log fs.
  - simpl. unfold io_bind, _download_file, io_bind, io_lift.
    destruct (file_content inline fetched) as [e|content]; [by exists log|].
    simpl. destruct (fs_write_bytes _ content fs) as [[e|[]] fs1]; simpl; eauto.
  - by exists log.
  - rewrite !download_item_Dir. unfold _download_directory, io_bind.
    simpl. destruct (fs_mkdir _ fs) as [[e|[]] fs1]; simpl; [eauto|].
    apply (download_items_erase _ IH).
  - by exists log.
Qed.

Lemma download_skill_erase (github : GitHubClient.t) skill_name target_dir log (fs : FS) :
  exists log',
    download_skill github skill_name target_dir (log, fs)
    = ((download_skill github skill_name target_dir fs).1,
       (log', (download_skill github skill_name target_dir fs).2)).
Proof.
  unfold download_skill, _download_directory.
  destruct (GitHubClient.contents github _) as [e|items]; [by exists log|].
  unfold io_bind. simpl.
  destruct (fs_mkdir target_dir fs) as [[e|[]] fs1]; simpl; [eauto|].
  apply download_items_erase. apply Forall_forall. intros it _. apply download_item_erase.
Qed.

(** C3, as the code has it (download walk order). A download that returns
    has walked the listing of the unit depth-first in the order the API gave
    the entries: a ["file"] entry is written to the disk and its leaf name
    appended when the walk reaches it, a ["dir"] entry is descended into when
    the walk reaches it, so before the entries that follow it in the same
    listing, and entries of other types are passed over. The list returned
    holds the leaf name of every file in that order, and on a disk that
    lists its calls the directories made and the files written appear in
    that order after the [mkdir] of the target. *)
Theorem download_walk_order (github : GitHubClient.t) skill_name target_dir
    log (fs : FS) files log' fs' :
  download_skill github skill_name target_dir (log, fs) = (Ok files, (log', fs')) ->
  exists items,
    GitHubClient.contents github (SKILLS_PATH +:+ "/" +:+ skill_name) = Ok items /\
    files = concat (names_in_walk_order <$> items) /\
    log' = (log ++ CallMkdir target_dir
                :: concat ((fun it => walk_calls it target_dir) <$> items))%list.
Proof.
  unfold download_skill, _download_directory.
  destruct (GitHubClient.contents github _) as [e|items]; [done|].
  unfold io_bind. simpl.
  destruct (fs_mkdir target_dir fs) as [[e|[]] fs1]; [done|].
  intros Hrun. exists items. split; [done|]. split.
  - eapply (download_items_names items) in Hrun; [exact Hrun|].
    apply Forall_forall. intros it _. apply download_item_names.
  - eapply (download_items_calls items) in Hrun; [|].
    + rewrite Hrun. by rewrite <- app_assoc.
    + apply Forall_forall. intros it _. apply download_item_calls.
Qed.

End TracedWalk.

(** ** The sync worker *)

Section Worker.
Context {FS : Type} `{LocalFS FS} {text : Type} `{JsonCodec text} `{!WriteText FS text}.

Local Abbreviation world := (World.t FS text).

Lemma app_after_nil (app : App.t) : app_after app [] [] = app.
Proof. destruct app. unfold app_after. simpl. by rewrite !app_nil_r. Qed.

Lemma app_after_after (app : App.t) synced1 shown1 synced2 shown2 :
  app_after (app_after app synced1 shown1) synced2 shown2
  = app_after app (synced1 ++ synced2) (shown1 ++ shown2).
Proof. unfold app_after. simpl. by rewrite !app_assoc. Qed.

(** One turn of the loop of the worker: the start is told, the cycle run,
    and its unit appended to [synced_skills] or its error told; a text the
    status line refuses ends the loop there. *)
Lemma sync_selected_loop_cons github total i status rest app (w : world) :
  sync_selected_loop github total i (status :: rest) (app, w)
  = if App.markup_ok app (Syncing (unit_name status) i total) then
      let '(r, w1) := sync_unit github (unit_name status) (App.remote_sha app) w in
      match r with
      | inr _ =>
          sync_selected_loop github total (S i) rest
            (app_after app [unit_name status] [Syncing (unit_name status) i total], w1)
      | inl e =>
          if App.markup_ok app (ErrorSyncing (unit_name status) e) then
            sync_selected_loop github total (S i) rest
              (app_after app [] [Syncing (unit_name status) i total;
                                 ErrorSyncing (unit_name status) e], w1)
          else (Raise MarkupError,
                (app_after app [] [Syncing (unit_name status) i total], w1))
      end
    else (Raise MarkupError, (app, w)).
Proof.
  cbn [sync_selected_loop]. fold (unit_name status).
  unfold io_bind at 1. unfold update_status at 1.
  destruct (App.markup_ok app (Syncing (unit_name status) i total)); [|done].
  unfold io_bind at 1. unfold try_except, io_bind at 1. cbn [fst].
  unfold io_bind at 1. unfold on_world. cbn [App.remote_sha].
  destruct (sync_unit github (unit_name status) (App.remote_sha app) w) as [[e|files] w1].
  - unfold update_status. cbn [App.markup_ok].
    destruct (App.markup_ok app (ErrorSyncing (unit_name status) e)).
    + unfold app_after. cbn. by rewrite !app_nil_r, <- !app_assoc.
    + unfold app_after. cbn. by rewrite !app_nil_r.
  - unfold synced_skills_append, app_after. cbn. done.
Qed.

(** The loop of the worker, when the status line takes every text: the
    cycles of its units are run one after the other, whatever their
    outcomes, the units that returned are appended to [synced_skills], and
    the status line is told of each start and each error. *)
Lemma sync_selected_loop_run github total (todo : list SyncStatus.t) :
  forall i app (w : world) outcomes w',
    batch_outcomes github (App.remote_sha app) (unit_name <$> todo) w = (outcomes, w') ->
    Forall (fun ev => App.markup_ok app ev = true) (worker_events total i outcomes) ->
    sync_selected_loop github total i todo (app, w)
    = (Ok (), (app_after app (succeeded outcomes) (worker_events total i outcomes), w')).
Proof.
  induction todo as [|status rest IH]; intros i app w outcomes w'.
  - simpl. intros [= <- <-] _. by rewrite app_after_nil.
  - rewrite fmap_cons, sync_selected_loop_cons. cbn [batch_outcomes].
    destruct (sync_unit github (unit_name status) (App.remote_sha app) w) as [r w1] eqn:Hunit.
    destruct (batch_outcomes github (App.remote_sha app) (unit_name <$> rest) w1)
      as [outcomes1 w2] eqn:Hrest.
    intros [= <- <-]. cbn [worker_events]. rewrite <- app_comm_cons.
    intros [Hstart Hshown]%Forall_cons. rewrite Hstart.
    destruct r as [e|files].
    + simpl in Hshown. apply Forall_cons in Hshown as [Herror Hshown]. rewrite Herror.
      erewrite IH; [|exact Hrest|exact Hshown].
      rewrite app_after_after. unfold succeeded. simpl. done.
    + erewrite IH; [|exact Hrest|exact Hshown].
      rewrite app_after_after. unfold succeeded. simpl. done.
Qed.

(** A loop that returns has had every text taken, and so has run the cycles
    of all its units. *)
Lemma sync_selected_loop_Ok github total (todo : list SyncStatus.t) :
  forall i app (w : world) app' w',
    sync_selected_loop github total i todo (app, w) = (Ok (), (app', w')) ->
    exists outcomes,
      batch_outcomes github (App.remote_sha app) (unit_name <$> todo) w = (outcomes, w') /\
      Forall (fun ev => App.markup_ok app ev = true) (worker_events total i outcomes) /\
      app' = app_after app (succeeded outcomes) (worker_events total i outcomes).
Proof.
  induction todo as [|status rest IH]; intros i app w app' w'.
  - simpl. intros [= <- <-]. exists []. by rewrite app_after_nil.
  - rewrite fmap_cons, sync_selected_loop_cons. cbn [batch_outcomes].
    destruct (App.markup_ok app (Syncing (unit_name status) i total)) eqn:Hstart; [|done].
    destruct (sync_unit github (unit_name status) (App.remote_sha app) w) as [[e|files] w1].
    + destruct (App.markup_ok app (ErrorSyncing (unit_name status) e)) eqn:Herror; [|done].
      intros Hrun. apply IH in Hrun as (outcomes1 & Hrest & Hshown & ->).
      cbn [app_after App.remote_sha App.markup_ok] in *. rewrite Hrest.
      eexists. split; [reflexivity|]. split.
      * cbn [worker_events]. rewrite <- !app_comm_cons. by repeat constructor.
      * rewrite app_after_after. unfold succeeded. by simpl.
    + intros Hrun. apply IH in Hrun as (outcomes1 & Hrest & Hshown & ->).
      cbn [app_after App.remote_sha App.markup_ok] in *. rewrite Hrest.
      eexists. split; [reflexivity|]. split.
      * cbn [worker_events]. rewrite <- !app_comm_cons. by repeat constructor.
      * rewrite app_after_after. unfold succeeded. by simpl.
Qed.

(** An operation of the disk leaves the manifest file and the clock alone. *)
Lemma on_fs_manifest {A} (c : io FS A) (w w' : world) r :
  on_fs c w = (r, w') ->
  World.manifest_file w' = World.manifest_file w /\
  World.clock w' = World.clock w /\
  World.clock_reads w' = World.clock_reads w.
Proof. unfold on_fs. destruct (c (World.fs w)) as [r' fs']. by intros [= _ <-]. Qed.

Lemma skills_table_file (w1 w2 : world) :
  World.manifest_file w1 = World.manifest_file w2 -> skills_table w1 = skills_table w2.
Proof. unfold skills_table, get_manifest. by intros ->. Qed.

Lemma manifest_entry_of_file (w1 w2 : world) skill_name :
  World.manifest_file w1 = World.manifest_file w2 ->
  manifest_entry_of w1 skill_name = manifest_entry_of w2 skill_name.
Proof. unfold manifest_entry_of. intros Hfile. by rewrite (skills_table_file _ _ Hfile). Qed.

(** The state in which a cycle reaches [record_sync]. *)
Lemma sync_unit_inv github skill_name remote_sha (w w' : world) r :
  sync_unit github skill_name remote_sha w = (r, w') ->
  (exists e, r = Raise e /\ World.manifest_file w' = World.manifest_file w) \/
  (exists files w1,
     World.manifest_file w1 = World.manifest_file w /\
     World.clock w1 = World.clock w /\
     World.clock_reads w1 = World.clock_reads w /\
     match r with
     | inr files' =>
         files' = files /\ record_sync skill_name remote_sha files w1 = (Ok (), w')
     | inl e => record_sync skill_name remote_sha files w1 = (Raise e, w')
     end).
Proof.
  unfold sync_unit. unfold io_bind at 1.
  destruct (fs_exists _ (World.fs w)).
  - destruct (on_fs (fs_rmtree (child [] skill_name)) w) as [[e|[]] w0] eqn:Hrm.
    + intros [= <- <-]. left. exists e. split; [done|]. by apply on_fs_manifest in Hrm as [? _].
    + apply on_fs_manifest in Hrm as (Hf0 & Hc0 & Hr0).
      unfold io_bind at 1.
      destruct (on_fs (download_skill github skill_name (child [] skill_name)) w0)
        as [[e|files] w1] eqn:Hdl.
      * intros [= <- <-]. left. exists e. split; [done|].
        apply on_fs_manifest in Hdl as [? _]. congruence.
      * apply on_fs_manifest in Hdl as (Hf1 & Hc1 & Hr1).
        unfold io_bind, io_ret.
        destruct (record_sync skill_name remote_sha files w1) as [[e|[]] w2] eqn:Hrec;
          intros [= <- <-]; right; exists files, w1; repeat split; first [done|congruence].
  - unfold io_bind at 1.
    destruct (on_fs (download_skill github skill_name (child [] skill_name)) w)
      as [[e|files] w1] eqn:Hdl.
    + intros [= <- <-]. left. exists e. split; [done|].
      by apply on_fs_manifest in Hdl as [? _].
    + apply on_fs_manifest in Hdl as (Hf1 & Hc1 & Hr1).
      unfold io_bind, io_ret.
      destruct (record_sync skill_name remote_sha files w1) as [[e|[]] w2] eqn:Hrec;
        intros [= <- <-]; right; exists files, w1; repeat split; first [done|congruence].
Qed.

(** A cycle that raises has left the manifest file as it was, unless what
    raised is the write of the file: the file then is as it was, or does
    not load, or holds the document that was being written. *)
Lemma sync_unit_Raise github skill_name remote_sha (w w' : world) e :
  sync_unit github skill_name remote_sha w = (Raise e, w') ->
  World.manifest_file w' = World.manifest_file w \/
  (exists e', get_manifest w' = Raise e') \/
  (exists tbl files,
     skills_table w = Some tbl /\
     skills_table w'
     = Some (<[skill_name :=
         manifest_entry remote_sha (World.clock w (World.clock_reads w)) files]> tbl)).
Proof.
  intros Hrun. apply sync_unit_inv in Hrun as [(e' & _ & Hfile)|(files & w1 & Hf & Hc & Hr & Hrec)];
    [by left|].
  apply record_sync_Raise in Hrec
    as [Hsame|(m & tbl & fs1 & s' & Hload & Hskills & Hwrite & Hfile')].
  { left. congruence. }
  apply fs_write_text_Raise in Hwrite as [Hsame|(t' & Hleft & [Hwhole|[e' Hbad]])].
  - left. simpl in Hsame. congruence.
  - right. right. exists tbl, files. split.
    + rewrite <- (skills_table_file _ _ Hf). unfold skills_table. by rewrite Hload, Hskills.
    + unfold skills_table, get_manifest. rewrite Hfile', Hleft, Hwhole, json_loads_dumps.
      rewrite lookup_insert_eq. by rewrite Hc, Hr.
  - right. left. exists e'. unfold get_manifest. by rewrite Hfile', Hleft.
Qed.


(** A cycle that returns has stored the entry of its unit, with the full
    revision and the files it downloaded, and no other entry has changed. *)
Lemma sync_unit_Ok github skill_name remote_sha (w w' : world) files :
  sync_unit github skill_name remote_sha w = (Ok files, w') ->
  exists tbl,
    skills_table w = Some tbl /\
    skills_table w'
    = Some (<[skill_name :=
        manifest_entry remote_sha (World.clock w (World.clock_reads w)) files]> tbl).
Proof.
  intros Hrun.
  apply sync_unit_inv in Hrun as [(e' & He & _)|(files' & w1 & Hf & Hc & Hr & <- & Hrec)];
    [done|].
  apply record_sync_table in Hrec as (tbl & Htbl & Htbl').
  exists tbl. rewrite <- (skills_table_file _ _ Hf). split; [done|].
  by rewrite Htbl', Hc, Hr.
Qed.

Lemma batch_outcomes_names github remote_sha names :
  forall (w w' : world) outcomes,
    batch_outcomes github remote_sha names w = (outcomes, w') ->
    outcomes.*1 = names.
Proof.
  induction names as [|name rest IH]; intros w w' outcomes; simpl.
  - by intros [= <- _].
  - destruct (sync_unit github name remote_sha w) as [r w1].
    destruct (batch_outcomes github remote_sha rest w1) as [outcomes1 w2] eqn:Hrest.
    intros [= <- _]. rewrite fmap_cons. simpl. f_equal. exact (IH _ _ _ Hrest).
Qed.


(** Every unit of a batch has returned or raised. *)
Lemma succeeded_or_failed (outcomes : list (string * result (list string))) :
  (length (succeeded outcomes) + length (failed outcomes) = length outcomes)%nat.
Proof.
  unfold succeeded, failed.
  induction outcomes as [|[name [e|files]] rest IH]; cbn [omap list_omap snd fst length];
    [done| |]; rewrite ?length_cons; lia.
Qed.

Lemma started_worker_events total outcomes :
  forall i, started (worker_events total i outcomes) = outcomes.*1.
Proof.
  induction outcomes as [|[name r] rest IH]; intros i; [done|].
  simpl. unfold started in *. rewrite omap_app, IH.
  by destruct r.
Qed.

Lemma get_manifest_file (w1 w2 : world) :
  World.manifest_file w1 = World.manifest_file w2 -> get_manifest w1 = get_manifest w2.
Proof. unfold get_manifest. by intros ->. Qed.

(** The entry a unit got in a batch stays through a later cycle, of
    whatever unit and outcome, as long as the manifest loads. *)
Lemma sync_unit_keeps_entry github skill_name remote_sha (w w' : world) r n :
  sync_unit github skill_name remote_sha w = (r, w') ->
  ((exists e, get_manifest w = Raise e) \/
   exists now files, manifest_entry_of w n = Some (manifest_entry remote_sha now files)) ->
  (exists e, get_manifest w' = Raise e) \/
  exists now files, manifest_entry_of w' n = Some (manifest_entry remote_sha now files).
Proof.
  intros Hrun Hbefore.
  assert (forall tbl files,
            skills_table w = Some tbl ->
            skills_table w'
            = Some (<[skill_name :=
                manifest_entry remote_sha (World.clock w (World.clock_reads w)) files]> tbl) ->
            exists now files', manifest_entry_of w' n
                               = Some (manifest_entry remote_sha now files')) as Hstored.
  { intros tbl files Htbl Htbl'. unfold manifest_entry_of. rewrite Htbl'. simpl.
    destruct (decide (n = skill_name)) as [->|Hne].
    - rewrite lookup_insert_eq. by eexists _, _.
    - rewrite lookup_insert_ne by done.
      destruct Hbefore as [[e He]|(now & files' & Hentry)].
      + unfold skills_table in Htbl. by rewrite He in Htbl.
      + unfold manifest_entry_of in Hentry. rewrite Htbl in Hentry. by eexists _, _. }
  destruct r as [e|files].
  - apply sync_unit_Raise in Hrun as [Hsame|[Hbad|(tbl & files & Htbl & Htbl')]].
    + destruct Hbefore as [[e0 He0]|(now & files & Hentry)].
      * left. exists e0. by rewrite (get_manifest_file _ _ Hsame).
      * right. exists now, files. by rewrite (manifest_entry_of_file _ _ _ Hsame).
    + by left.
    + right. by eapply Hstored.
  - apply sync_unit_Ok in Hrun as (tbl & Htbl & Htbl'). right. by eapply Hstored.
Qed.

Lemma batch_keeps_entry github remote_sha names n :
  forall (w w' : world) outcomes,
    batch_outcomes github remote_sha names w = (outcomes, w') ->
    ((exists e, get_manifest w = Raise e) \/
     exists now files, manifest_entry_of w n = Some (manifest_entry remote_sha now files)) ->
    (exists e, get_manifest w' = Raise e) \/
    exists now files, manifest_entry_of w' n = Some (manifest_entry remote_sha now files).
Proof.
  induction names as [|name rest IH]; intros w w' outcomes; simpl.
  - by intros [= _ <-].
  - destruct (sync_unit github name remote_sha w) as [r w1] eqn:Hunit.
    destruct (batch_outcomes github remote_sha rest w1) as [outcomes1 w2] eqn:Hrest.
    intros [= _ <-] Hbefore. eapply IH; [exact Hrest|].
    by eapply sync_unit_keeps_entry.
Qed.

(** After a batch, on any disk: as long as the manifest loads, every unit
    whose cycle returned has an entry with the revision of the batch. *)
Lemma batch_entries github remote_sha names :
  forall (w w' : world) outcomes n,
    batch_outcomes github remote_sha names w = (outcomes, w') ->
    n ∈ succeeded outcomes ->
    (exists e, get_manifest w' = Raise e) \/
    exists now files, manifest_entry_of w' n = Some (manifest_entry remote_sha now files).
Proof.
  induction names as [|name rest IH]; intros w w' outcomes n; simpl.
  - intros [= <- _] Hn. by apply elem_of_nil in Hn.
  - destruct (sync_unit github name remote_sha w) as [r w1] eqn:Hunit.
    destruct (batch_outcomes github remote_sha rest w1) as [outcomes1 w2] eqn:Hrest.
    intros [= <- <-] Hn.
    destruct (decide (n ∈ succeeded outcomes1)) as [Hin|Hout]; [by eapply IH|].
    unfold succeeded in Hn. simpl in Hn. destruct r as [e|files]; simpl in Hn; [done|].
    apply elem_of_cons in Hn as [->|Hn]; [|done].
    eapply batch_keeps_entry; [exact Hrest|]. right.
    apply sync_unit_Ok in Hunit as (tbl & _ & Htbl1).
    eexists _, files. unfold manifest_entry_of. rewrite Htbl1. simpl. apply lookup_insert_eq.
Qed.

Lemma batch_outcomes_length github remote_sha names (w w' : world) outcomes :
  batch_outcomes github remote_sha names w = (outcomes, w') ->
  length outcomes = length names.
Proof.
  intros Hbatch. apply batch_outcomes_names in Hbatch as <-. by rewrite length_fmap.
Qed.

(** A batch of the worker whose texts the status line takes, up to the
    refresh of the table. *)
Lemma sync_selected_run github app (w w1 : world) outcomes :
  batch_outcomes github (App.remote_sha app) (unit_name <$> skills_to_sync app) w
  = (outcomes, w1) ->
  Forall (fun ev => App.markup_ok app ev = true) (batch_events app outcomes) ->
  sync_selected github (app, w)
  = refresh_table (app_after app (succeeded outcomes) (batch_events app outcomes), w1).
Proof.
  intros Hbatch Hshown. unfold batch_events in *.
  pose proof (batch_outcomes_length _ _ _ _ _ _ Hbatch) as Hlen.
  rewrite length_fmap in Hlen. rewrite Hlen in *.
  apply Forall_app in Hshown as [Hloop Hdone]. apply Forall_cons in Hdone as [Hdone _].
  unfold sync_selected. unfold io_bind at 1. cbn beta iota.
  unfold io_bind at 1. cbn [fst].
  rewrite (sync_selected_loop_run _ _ _ _ _ _ _ _ Hbatch Hloop).
  unfold io_bind at 1. cbn [fst app_after App.synced_skills].
  unfold io_bind at 1. unfold update_status. cbn [App.markup_ok app_after]. rewrite Hdone.
  unfold app_after. cbn. by rewrite <- !app_assoc.
Qed.

(** The refresh changes the statuses and the selection only. *)
Lemma refresh_table_inv app (w w' : world) r app' :
  refresh_table (app, w) = (r, (app', w')) ->
  w' = w /\
  App.status_log app' = App.status_log app /\
  App.synced_skills app' = App.synced_skills app /\
  App.remote_sha app' = App.remote_sha app /\
  App.markup_ok app' = App.markup_ok app.
Proof.
  unfold refresh_table.
  destruct (get_sync_status w _ _) as [e|new_statuses]; by intros [= _ <- <-].
Qed.

(** A batch of the worker that returns, refresh included, has had every
    text taken. *)
Lemma sync_selected_Ok github app (w w' : world) app' :
  sync_selected github (app, w) = (Ok (), (app', w')) ->
  exists outcomes,
    batch_outcomes github (App.remote_sha app) (unit_name <$> skills_to_sync app) w
    = (outcomes, w') /\
    Forall (fun ev => App.markup_ok app ev = true) (batch_events app outcomes) /\
    refresh_table (app_after app (succeeded outcomes) (batch_events app outcomes), w')
    = (Ok (), (app', w')).
Proof.
  intros Hrun. pose proof Hrun as Hrun'. revert Hrun'.
  unfold sync_selected. unfold io_bind at 1. cbn beta iota.
  unfold io_bind at 1. cbn [fst].
  destruct (sync_selected_loop github (length (skills_to_sync app)) 1 (skills_to_sync app)
              (app, w)) as [[e|[]] [app1 w1]] eqn:Hloop; [done|].
  apply sync_selected_loop_Ok in Hloop as (outcomes & Hbatch & Hloop & ->).
  pose proof (batch_outcomes_length _ _ _ _ _ _ Hbatch) as Hlen.
  rewrite length_fmap in Hlen.
  unfold io_bind at 1. cbn [fst app_after App.synced_skills].
  unfold io_bind at 1. unfold update_status. cbn [App.markup_ok app_after].
  destruct (App.markup_ok app (DoneSynced _)) eqn:Hdone; [|done].
  intros _.
  assert (Forall (fun ev => App.markup_ok app ev = true) (batch_events app outcomes)) as Hshown.
  { unfold batch_events. rewrite Hlen. apply Forall_app. split; [done|]. by constructor. }
  rewrite (sync_selected_run _ _ _ _ _ Hbatch Hshown) in Hrun.
  pose proof (refresh_table_inv _ _ _ _ _ Hrun) as (-> & _).
  by exists outcomes.
Qed.

(** The refresh does not look at the selection to resolve the statuses. *)
Lemma refresh_table_selected statuses remote_sha sel1 sel2 synced log ok (w : world) :
  exists sel1' sel2' r statuses',
    refresh_table (App.mk statuses remote_sha sel1 synced log ok, w)
    = (r, (App.mk statuses' remote_sha sel1' synced log ok, w)) /\
    refresh_table (App.mk statuses remote_sha sel2 synced log ok, w)
    = (r, (App.mk statuses' remote_sha sel2' synced log ok, w)).
Proof.
  unfold refresh_table. simpl.
  destruct (get_sync_status w _ _) as [e|new_statuses]; eauto 10.
Qed.

Lemma filter_selected_extra (sel extra : gset string) (statuses : list SyncStatus.t) :
  Forall (fun s => unit_name s ∉ extra) statuses ->
  filter (fun s => Skill.name (SyncStatus.skill s) ∈ sel ∪ extra) statuses
  = filter (fun s => Skill.name (SyncStatus.skill s) ∈ sel) statuses.
Proof.
  induction 1 as [|s rest Hs _ IH]; [done|].
  rewrite !filter_cons, IH. unfold unit_name in Hs.
  destruct (decide (Skill.name (SyncStatus.skill s) ∈ sel)) as [Hin|Hout].
  - rewrite decide_True; [done|]. apply elem_of_union. by left.
  - rewrite decide_False; [done|]. by intros [?|?]%elem_of_union.
Qed.



(** The texts of a batch tell the start of each of its units, in order. *)
Lemma started_batch_events app outcomes :
  started (batch_events app outcomes) = outcomes.*1.
Proof.
  unfold batch_events, started. rewrite omap_app.
  fold (started (worker_events (length outcomes) 1 outcomes)).
  rewrite started_worker_events. simpl. by rewrite app_nil_r.
Qed.

(** X20. Worker selection, when the status line takes every text of the batch.
    A batch of the worker runs the cycles of exactly the units of the status
    sequence whose name is in the selection, in the order of the status
    sequence: the world after the batch is the world after those cycles,
    and the status line was told of the start of each of them, numbered from
    1, in that order. A name of the selection that no unit of the status
    sequence bears changes nothing in the batch: with such names added to
    the selection the batch returns the same, in the same world, with the
    same status log, synced units and statuses. *)
Theorem worker_selection_shown github app (w : world) :
  let chosen :=
    unit_name <$> filter (fun s => unit_name s ∈ App.selected app) (App.statuses app) in
  let batch := batch_outcomes github (App.remote_sha app) chosen w in
  Forall (fun ev => App.markup_ok app ev = true) (batch_events app batch.1) ->
  exists r app',
    sync_selected github (app, w) = (r, (app', batch.2)) /\
    batch.1.*1 = chosen /\
    App.status_log app' = (App.status_log app ++ batch_events app batch.1)%list /\
    started (App.status_log app') = (started (App.status_log app) ++ chosen)%list /\
    forall extra : gset string,
      Forall (fun s => unit_name s ∉ extra) (App.statuses app) ->
      exists app'',
        sync_selected github
          (App.mk (App.statuses app) (App.remote_sha app) (App.selected app ∪ extra)
                  (App.synced_skills app) (App.status_log app) (App.markup_ok app), w)
        = (r, (app'', batch.2)) /\
        App.status_log app'' = App.status_log app' /\
        App.synced_skills app'' = App.synced_skills app' /\
        App.statuses app'' = App.statuses app'.
Proof.
  intros chosen batch. subst batch.
  change chosen with (unit_name <$> skills_to_sync app).
  destruct (batch_outcomes github (App.remote_sha app) (unit_name <$> skills_to_sync app) w)
    as [outcomes w1] eqn:Hbatch.
  cbn [fst snd]. intros Hshown.
  pose proof (batch_outcomes_names _ _ _ _ _ _ Hbatch) as Hnames.
  pose proof (sync_selected_run _ _ _ _ _ Hbatch Hshown) as Hrun.
  destruct (refresh_table (app_after app (succeeded outcomes) (batch_events app outcomes), w1))
    as [r [app' w']] eqn:Hrefresh.
  pose proof (refresh_table_inv _ _ _ _ _ Hrefresh) as (-> & Hlog & Hsynced & _).
  cbn [app_after App.status_log App.synced_skills] in Hlog, Hsynced.
  exists r, app'. split; [done|]. split; [done|]. split; [done|]. split.
  { rewrite Hlog. unfold started. rewrite omap_app.
    fold (started (App.status_log app)). fold (started (batch_events app outcomes)).
    by rewrite started_batch_events, Hnames. }
  intros extra Hextra.
  set (appx := App.mk (App.statuses app) (App.remote_sha app) (App.selected app ∪ extra)
                      (App.synced_skills app) (App.status_log app) (App.markup_ok app)).
  assert (skills_to_sync appx = skills_to_sync app) as Hsame.
  { unfold skills_to_sync. simpl. by apply filter_selected_extra. }
  assert (batch_outcomes github (App.remote_sha appx) (unit_name <$> skills_to_sync appx) w
          = (outcomes, w1)) as Hbatchx.
  { rewrite Hsame. exact Hbatch. }
  rewrite (sync_selected_run _ appx _ _ _ Hbatchx Hshown).
  unfold app_after in Hrefresh |- *. cbn [appx App.statuses App.remote_sha App.selected
    App.synced_skills App.status_log App.markup_ok].
  change (batch_events appx outcomes) with (batch_events app outcomes).
  match type of Hrefresh with
  | refresh_table (App.mk ?st ?sha ?s1 ?sy ?lg ?ok, _) = _ =>
      destruct (refresh_table_selected st sha s1 (App.selected app ∪ extra) sy lg ok w1)
        as (sel1' & sel2' & r0 & statuses' & Hr1 & Hr2)
  end.
  rewrite Hr1 in Hrefresh. injection Hrefresh as <- <-.
  eexists. split; [exact Hr2|]. done.
Qed.

(** The loop over a list of units in two parts. *)
Lemma sync_selected_loop_app github total (l1 l2 : list SyncStatus.t) :
  forall i (s : App.t * world),
    sync_selected_loop github total i (l1 ++ l2) s
    = match sync_selected_loop github total i l1 s with
      | (inr _, s1) => sync_selected_loop github total (i + length l1) l2 s1
      | (inl e, s1) => (Raise e, s1)
      end.
Proof.
  induction l1 as [|status rest IH]; intros i s.
  - simpl. by rewrite Nat.add_0_r.
  - rewrite <- app_comm_cons. cbn [sync_selected_loop length].
    unfold io_bind.
    destruct (update_status _ s) as [[e|[]] s1]; [done|].
    destruct (try_except _ _ s1) as [[e|[]] s2]; [done|].
    rewrite IH. by rewrite Nat.add_succ_r.
Qed.

(** X21. A text the status line refuses ends the batch. When the units before
    a unit have had their cycles and their texts shown, the cycle of that
    unit raises, and the status line refuses the text of its error, the
    handler of the worker raises [MarkupError] and so does the batch,
    whatever units come after: they are not started, no final message is
    shown, and the table is not refreshed. *)
Theorem worker_stops_at_refused_text github (before : list SyncStatus.t) status
    (after : list SyncStatus.t) app (w w1 w2 : world) outcomes e :
  skills_to_sync app = (before ++ status :: after)%list ->
  let total := length (skills_to_sync app) in
  let start := Syncing (unit_name status) (S (length before)) total in
  batch_outcomes github (App.remote_sha app) (unit_name <$> before) w = (outcomes, w1) ->
  Forall (fun ev => App.markup_ok app ev = true) (worker_events total 1 outcomes) ->
  App.markup_ok app start = true ->
  sync_unit github (unit_name status) (App.remote_sha app) w1 = (Raise e, w2) ->
  App.markup_ok app (ErrorSyncing (unit_name status) e) = false ->
  sync_selected github (app, w)
  = (Raise MarkupError,
     (app_after app (succeeded outcomes) (worker_events total 1 outcomes ++ [start]), w2)).
Proof.
  intros Htodo total start Hbatch Hshown Hstart Hunit Herror.
  unfold sync_selected. unfold io_bind at 1. cbn beta iota.
  unfold io_bind at 1. cbn [fst]. fold total. rewrite Htodo.
  rewrite sync_selected_loop_app.
  rewrite (sync_selected_loop_run _ _ _ _ _ _ _ _ Hbatch Hshown).
  rewrite sync_selected_loop_cons.
  cbn [app_after App.markup_ok App.remote_sha Nat.add]. fold start.
  rewrite Hstart, Hunit, Herror.
  unfold app_after. cbn. by rewrite !app_nil_r, <- !app_assoc.
Qed.


End Worker.

(** * Worked examples *)

(** The scenario of the specification: with no manifest, [pdf] is new. *)
Lemma new_unit_detection_example :
  skills_table (example_world None) = Some ∅ /\
  (∅ : gmap string pyval) !! Skill.name (example_skill "pdf") = None /\
  get_sync_status (example_world None) [example_skill "pdf"] example_revision
  = Ok [SyncStatus.mk (example_skill "pdf") "new" PyNone (PyStr "abcdef1")].
Proof.
  assert (skills_table (example_world None) = Some ∅) as H1 by (vm_compute; reflexivity).
  assert ((∅ : gmap string pyval) !! Skill.name (example_skill "pdf") = None) as H2
    by (vm_compute; reflexivity).
  split; [exact H1|]. split; [exact H2|].
  exact (proj1 (new_unit_detection (example_world None) ∅ (example_skill "pdf")
                  example_revision H1 H2)).
Defined.

(** A stored revision that differs from the remote one within the first 7
    characters: [docx] is to be updated. *)
Lemma revision_prefix_comparison_example :
  skills_table (example_world (Some (Doc example_manifest))) = Some example_table /\
  get_sync_status (example_world (Some (Doc example_manifest)))
    [example_skill "docx"] example_revision
  = Ok [SyncStatus.mk (example_skill "docx") "update" (PyStr "0123456") (PyStr "abcdef1")].
Proof.
  assert (skills_table (example_world (Some (Doc example_manifest))) = Some example_table)
    as H1 by (vm_compute; reflexivity).
  split; [exact H1|].
  refine (proj1 (revision_prefix_comparison (example_world (Some (Doc example_manifest)))
                   example_table (example_skill "docx") _ "0123456789abc"
                   example_revision H1 _ _)); vm_compute; reflexivity.
Defined.

(** Revisions that agree on their first 7 characters: [pdf] is unchanged. *)
Example revision_prefix_equal_example :
  get_sync_status (example_world (Some (Doc example_manifest)))
    [example_skill "pdf"] example_revision
  = Ok [SyncStatus.mk (example_skill "pdf") "ok" (PyStr "abcdef1") (PyStr "abcdef1")].
Proof. vm_compute. reflexivity. Qed.

(** An entry without a revision: updated, with no local revision. *)
Example revision_prefix_empty_example :
  get_sync_status (example_world (Some (Doc example_manifest)))
    [example_skill "legacy"] example_revision
  = Ok [SyncStatus.mk (example_skill "legacy") "update" PyNone (PyStr "abcdef1")].
Proof. vm_compute. reflexivity. Qed.

(** The output follows the input order, whatever it is. *)
Lemma order_preservation_example :
  let w := example_world (Some (Doc example_manifest)) in
  let skills := [example_skill "xlsx"; example_skill "docx"] in
  let statuses :=
    [ SyncStatus.mk (example_skill "xlsx") "new" PyNone (PyStr "abcdef1");
      SyncStatus.mk (example_skill "docx") "update" (PyStr "0123456") (PyStr "abcdef1") ] in
  get_sync_status w skills example_revision = Ok statuses /\
  SyncStatus.skill <$> statuses = skills /\ length statuses = length skills.
Proof.
  intros w skills statuses.
  assert (get_sync_status w skills example_revision = Ok statuses) as H1
    by (vm_compute; reflexivity).
  split; [exact H1|].
  exact (proj1 (order_preservation w skills example_revision) statuses H1).
Defined.

(** Loading without a file, and with a file that does not parse. *)
Lemma manifest_load_example :
  get_manifest (example_world None) = Ok (PyDict {[ "skills" := PyDict ∅ ]}) /\
  get_manifest (example_world (Some (Garbage "{ not json"))) = Raise JSONDecodeError /\
  get_sync_status (example_world (Some (Garbage "{ not json")))
    [example_skill "pdf"] example_revision = Raise JSONDecodeError /\
  record_sync "pdf" example_revision ["SKILL.md"] (example_world (Some (Garbage "{ not json")))
  = (Raise JSONDecodeError, example_world (Some (Garbage "{ not json"))).
Proof.
  split.
  - exact (proj1 (manifest_load (example_world None)) eq_refl).
  - assert (json_loads (Garbage "{ not json") = Raise JSONDecodeError) as Hparse
      by reflexivity.
    destruct (proj2 (manifest_load (example_world (Some (Garbage "{ not json"))))
                (Garbage "{ not json") JSONDecodeError eq_refl Hparse)
      as (Hload & Hres & Hrec).
    split; [exact Hload|]. split; [apply Hres|apply Hrec].
Defined.

(** Recording [pdf] in the example manifest keeps the key ["schema"] and the
    entry of [docx]. *)
Lemma record_sync_frame_example :
  let w := example_world (Some (Doc example_manifest)) in
  let w' := (record_sync "pdf" example_revision ["SKILL.md"] w).2 in
  record_sync "pdf" example_revision ["SKILL.md"] w = (Ok (), w') /\
  exists m' tbl',
    World.manifest_file w' = Some (Doc (PyDict m')) /\
    m' !! "schema" = Some (PyInt 2) /\
    m' !! "skills" = Some (PyDict tbl') /\
    tbl' !! "docx" = example_table !! "docx" /\
    tbl' !! "pdf" = Some (manifest_entry example_revision (example_clock 0) ["SKILL.md"]).
Proof.
  intros w w'.
  assert (record_sync "pdf" example_revision ["SKILL.md"] w = (Ok (), w')) as Hrun
    by (vm_compute; reflexivity).
  split; [exact Hrun|].
  assert (json_loads (Doc example_manifest) = Ok (PyDict example_top)) as Hparse
    by reflexivity.
  assert (example_top !! "skills" = Some (PyDict example_table)) as Htable
    by (vm_compute; reflexivity).
  destruct (record_sync_frame w w' (Doc example_manifest) example_top example_table
              "pdf" example_revision ["SKILL.md"] eq_refl Hparse Htable Hrun)
    as (m' & tbl' & Hfile & _ & Hskills & Htop & Hother & Hentry).
  exists m', tbl'. split; [exact Hfile|]. split.
  - rewrite Htop; [reflexivity|discriminate].
  - split; [exact Hskills|]. split; [apply Hother; discriminate|exact Hentry].
Defined.

(** Recording [pdf] in the example manifest on a disk with no room left:
    the directory is made, the write raises, and the file is left empty. *)
Lemma record_sync_outcome_example :
  let w : World.t small_disk memtext :=
    World.mk (SmallDisk [] 0) (Some (Doc example_manifest)) example_clock 0 in
  let run := record_sync "pdf" example_revision ["SKILL.md"] w in
  run.1 = Raise (OSError "[Errno 28] No space left on device") /\
  World.manifest_file run.2 = Some (Garbage "").
Proof.
  intros w run.
  assert (json_loads (Doc example_manifest) = Ok (PyDict example_top)) as Hparse
    by reflexivity.
  assert (example_top !! "skills" = Some (PyDict example_table)) as Htable
    by (vm_compute; reflexivity).
  destruct (record_sync_outcome w (Doc example_manifest) example_top example_table
              "pdf" example_revision ["SKILL.md"] eq_refl Hparse Htable)
    as [Hresult Hfile].
  split.
  - subst run. rewrite Hresult. vm_compute. reflexivity.
  - subst run. rewrite Hfile. vm_compute. reflexivity.
Defined.

(** A manifest without the ["skills"] key: [record_sync] raises, while the
    resolver calls every unit new. *)
Lemma record_sync_needs_skills_key_example :
  let w := example_world (Some (Doc example_manifest_no_table)) in
  record_sync "pdf" example_revision ["SKILL.md"] w
  = (Raise (KeyError "skills"),
     World.mk (World.fs w) (World.manifest_file w) (World.clock w) 1) /\
  get_sync_status w [example_skill "pdf"; example_skill "docx"] example_revision
  = Ok [status_new (example_skill "pdf") example_revision;
        status_new (example_skill "docx") example_revision].
Proof.
  intros w.
  assert (json_loads (Doc example_manifest_no_table) = Ok (PyDict {[ "schema" := PyInt 2 ]}))
    as Hparse by reflexivity.
  assert (({[ "schema" := PyInt 2 ]} : gmap string pyval) !! "skills" = None) as Hkey
    by (vm_compute; reflexivity).
  exact (proj1 (record_sync_needs_skills_key w) (Doc example_manifest_no_table)
           {[ "schema" := PyInt 2 ]} "pdf" example_revision ["SKILL.md"]
           [example_skill "pdf"; example_skill "docx"] example_revision
           eq_refl Hparse Hkey).
Defined.

(** The scenario of the specification: after syncing [pdf] only, there is
    one entry, [pdf] is unchanged and [docx] is still new. *)
Lemma sync_then_resolve_example :
  let w := example_world None in
  let w' := (record_sync "pdf" example_revision ["SKILL.md"] w).2 in
  record_sync "pdf" example_revision ["SKILL.md"] w = (Ok (), w') /\
  skills_table w'
  = Some {[ "pdf" := manifest_entry example_revision (example_clock 0) ["SKILL.md"] ]} /\
  get_sync_status w' [example_skill "pdf"; example_skill "docx"] example_revision
  = Ok [ SyncStatus.mk (example_skill "pdf") "ok" (PyStr "abcdef1") (PyStr "abcdef1");
         SyncStatus.mk (example_skill "docx") "new" PyNone (PyStr "abcdef1") ].
Proof.
  intros w w'.
  assert (record_sync "pdf" example_revision ["SKILL.md"] w = (Ok (), w')) as Hrun
    by (vm_compute; reflexivity).
  split; [exact Hrun|].
  destruct (sync_then_resolve w w' "pdf" example_revision ["SKILL.md"] Hrun)
    as (tbl & tbl' & Htbl & Htbl' & _ & Hone & Hresolve).
  assert (skills_table w = Some ∅) as Hempty by (vm_compute; reflexivity).
  rewrite Hempty in Htbl. injection Htbl as <-.
  split.
  - rewrite Htbl'. f_equal. exact (Hone eq_refl).
  - apply (Hresolve [example_skill "pdf"; example_skill "docx"]).
    constructor; [by left|]. constructor; [by right|]. constructor.
Defined.

(** The listing of [pdf] has the file [tables.md] after the directory
    [scripts]: the walk descends into [scripts] first, and [tables.md] comes
    after the file found there, in the list returned and on the disk. The
    order "files of a listing first" would give another list. *)
Lemma download_walk_files_first_counterexample :
  let run := download_skill example_github "pdf" ["pdf"] (([] : list fs_call), ([] : memfs)) in
  run.1 = Ok ["SKILL.md"; "extract.py"; "tables.md"] /\
  names_files_first (Dir "pdf" (GitHubClient.contents example_github "skills/pdf"))
  = ["SKILL.md"; "tables.md"; "extract.py"] /\
  run.1 <> Ok (names_files_first
                 (Dir "pdf" (GitHubClient.contents example_github "skills/pdf"))) /\
  run.2.1 = [ CallMkdir ["pdf"];
              CallWriteBytes ["pdf"; "SKILL.md"] [Byte.x23];
              CallMkdir ["pdf"; "scripts"];
              CallWriteBytes ["pdf"; "scripts"; "extract.py"] [Byte.x70];
              CallWriteBytes ["pdf"; "tables.md"] [Byte.x7c] ].
Proof.
  intros run. split; [vm_compute; reflexivity|]. split; [vm_compute; reflexivity|].
  split; [|vm_compute; reflexivity].
  vm_compute. intros Heq. discriminate Heq.
Qed.

(** The same download, through the theorem. *)
Lemma download_walk_order_example :
  let s0 : traced memfs := ([], []) in
  let run := download_skill example_github "pdf" ["pdf"] s0 in
  run = (Ok ["SKILL.md"; "extract.py"; "tables.md"], run.2) /\
  run.2.1 = [ CallMkdir ["pdf"];
              CallWriteBytes ["pdf"; "SKILL.md"] [Byte.x23];
              CallMkdir ["pdf"; "scripts"];
              CallWriteBytes ["pdf"; "scripts"; "extract.py"] [Byte.x70];
              CallWriteBytes ["pdf"; "tables.md"] [Byte.x7c] ].
Proof.
  intros s0 run.
  assert (run = (Ok ["SKILL.md"; "extract.py"; "tables.md"], (run.2.1, run.2.2))) as Hrun
    by (vm_compute; reflexivity).
  split; [vm_compute; reflexivity|].
  destruct (download_walk_order example_github "pdf" ["pdf"] [] ([] : memfs) _ _ _ Hrun)
    as (items & Hitems & _ & Hlog).
  assert (items = [ File "SKILL.md" (Some (Ok [Byte.x23])) (Raise TransportError);
                    Dir "scripts" (Ok [ File "extract.py" None (Ok [Byte.x70]) ]);
                    Other "symlink" "latest";
                    File "tables.md" None (Ok [Byte.x7c]) ]) as ->.
  { vm_compute in Hitems. by injection Hitems as <-. }
  rewrite Hlog. reflexivity.
Defined.

(** A batch of three units, in a fresh app, the second of which fails: the
    three are started in the order of the table, and the last message
    counts two. The name [ghost] of the selection matches no unit. *)
Lemma worker_selection_shown_example :
  let app := example_app {[ "xlsx"; "ghost"; "pptx"; "pdf" ]} in
  let run := sync_selected example_github (app, example_world None) in
  run.1 = Ok () /\
  started (App.status_log run.2.1) = ["pdf"; "pptx"; "xlsx"] /\
  App.status_log run.2.1
  = [ Syncing "pdf" 1 3; Syncing "pptx" 2 3; ErrorSyncing "pptx" (HTTPStatusError 500);
      Syncing "xlsx" 3 3; DoneSynced 2 ].
Proof.
  intros app run.
  split; [vm_compute; reflexivity|].
  destruct (worker_selection_shown example_github app (example_world None))
    as (r & app' & Hrun & _ & Hlog & Hstarted & _).
  { apply Forall_forall. intros ev _. reflexivity. }
  subst run. rewrite Hrun. cbn [fst snd]. split.
  - rewrite Hstarted. vm_compute. reflexivity.
  - rewrite Hlog. vm_compute. reflexivity.
Defined.

(** C7 (worker selection), where the code departs from it. The units [pdf],
    [pptx] and [xlsx] are selected, and the cycle of [pptx] raises an
    exception the message of which is no valid markup (it names
    "skills/pptx/a[/b]"): the status line cannot show the text, the handler
    of the worker raises [MarkupError] in its turn, and the loop is left. The
    unit [xlsx], selected and in the status sequence after [pptx], is never
    started: nothing of it is on the disk or in the manifest, no final
    message is shown, and the table is not refreshed, so the three units
    are still selected. *)
Lemma worker_selection_markup_error :
  let app := example_app_strict {[ "pdf"; "pptx"; "xlsx" ]} in
  let run := sync_selected example_github_brackets (app, example_world None) in
  unit_name <$> skills_to_sync app = ["pdf"; "pptx"; "xlsx"] /\
  run.1 = Raise MarkupError /\
  App.status_log run.2.1 = [ Syncing "pdf" 1 3; Syncing "pptx" 2 3 ] /\
  started (App.status_log run.2.1) = ["pdf"; "pptx"] /\
  App.synced_skills run.2.1 = ["pdf"] /\
  App.selected run.2.1 = {[ "pdf"; "pptx"; "xlsx" ]} /\
  manifest_entry_of run.2.2 "pdf"
  = Some (manifest_entry example_revision (example_clock 0)
            ["SKILL.md"; "extract.py"; "tables.md"]) /\
  manifest_entry_of run.2.2 "xlsx" = None /\
  memfs_lookup ["xlsx"] (World.fs run.2.2) = None.
Proof. vm_compute. repeat split; reflexivity. Qed.

(** The same batch, through the general property: [pdf] before, [pptx]
    whose error text is refused, [xlsx] after. *)
Lemma worker_stops_at_refused_text_example :
  let app := example_app_strict {[ "pdf"; "pptx"; "xlsx" ]} in
  let w := example_world None in
  let run := sync_selected example_github_brackets (app, w) in
  run.1 = Raise MarkupError /\
  App.status_log run.2.1 = [ Syncing "pdf" 1 3; Syncing "pptx" 2 3 ] /\
  App.synced_skills run.2.1 = ["pdf"].
Proof.
  intros app w run.
  pose (unit_of := fun n => SyncStatus.mk (example_skill n) "new" PyNone (PyStr "abcdef1")).
  pose (before := batch_outcomes example_github_brackets example_revision ["pdf"] w).
  pose (cycle := sync_unit example_github_brackets "pptx" example_revision before.2).
  assert (skills_to_sync app = [unit_of "pdf"; unit_of "pptx"; unit_of "xlsx"]) as Htodo
    by (vm_compute; reflexivity).
  assert (batch_outcomes example_github_brackets (App.remote_sha app)
            (unit_name <$> [unit_of "pdf"]) w = (before.1, before.2)) as Hbefore
    by (vm_compute; reflexivity).
  assert (Forall (fun ev => App.markup_ok app ev = true)
            (worker_events (length (skills_to_sync app)) 1 before.1)) as Hshown
    by (vm_compute; repeat constructor).
  assert (App.markup_ok app (Syncing (unit_name (unit_of "pptx")) 2
                               (length (skills_to_sync app))) = true) as Hstart
    by reflexivity.
  assert (sync_unit example_github_brackets (unit_name (unit_of "pptx")) (App.remote_sha app) before.2
          = (Raise (HTTPStatusError 500), cycle.2)) as Hcycle
    by (vm_compute; reflexivity).
  assert (App.markup_ok app (ErrorSyncing (unit_name (unit_of "pptx")) (HTTPStatusError 500))
          = false) as Herror
    by reflexivity.
  pose proof (worker_stops_at_refused_text example_github_brackets [unit_of "pdf"] (unit_of "pptx")
                [unit_of "xlsx"] app w before.2 cycle.2 before.1 (HTTPStatusError 500)
                Htodo Hbefore Hshown Hstart Hcycle Herror) as Hrun.
  subst run. rewrite Hrun. cbn [fst snd]. split; [reflexivity|].
  split; vm_compute; reflexivity.
Defined.

(** The manifest after that batch. *)
Example failure_isolation_first_batch :
  let s0 := (example_app {[ "xlsx"; "pptx"; "pdf" ]}, example_world None) in
  let run := sync_selected example_github s0 in
  App.synced_skills run.2.1 = ["pdf"; "xlsx"] /\
  last (App.status_log run.2.1) = Some (DoneSynced 2) /\
  manifest_entry_of run.2.2 "pdf"
  = Some (manifest_entry example_revision (example_clock 0) ["SKILL.md"; "extract.py"; "tables.md"]) /\
  manifest_entry_of run.2.2 "pptx" = None /\
  manifest_entry_of run.2.2 "xlsx"
  = Some (manifest_entry example_revision (example_clock 0) ["SKILL.md"]).
Proof. vm_compute. repeat split; reflexivity. Qed.


(** The manifest after that second batch: entries for the two units that
    succeeded, none for the one that failed. *)
Example failure_isolation_second_batch :
  let run := action_sync example_github example_second_batch in
  App.synced_skills run.2.1 = ["docx"; "pdf"; "xlsx"] /\
  manifest_entry_of run.2.2 "pdf"
  = Some (manifest_entry example_revision (example_clock 1)
            ["SKILL.md"; "extract.py"; "tables.md"]) /\
  manifest_entry_of run.2.2 "pptx" = None /\
  manifest_entry_of run.2.2 "xlsx"
  = Some (manifest_entry example_revision (example_clock 2) ["SKILL.md"]).
Proof. vm_compute. repeat split; reflexivity. Qed.


(** Why the disk has to keep the file when a write raises. On a disk with
    room for one write of the manifest file, in a batch of [pdf] and
    [docx], the entry of [pdf] is written; the write for [docx] is cut
    short and raises, the file is left empty and loads no more: the entry
    of [pdf], whose cycle returned, is lost with it. *)
Example failure_isolation_cut_write :
  let w : World.t small_disk memtext := World.mk (SmallDisk [] 1) None example_clock 0 in
  let batch := batch_outcomes example_github example_revision ["pdf"; "docx"] w in
  succeeded batch.1 = ["pdf"] /\
  failed batch.1 = ["docx"] /\
  World.manifest_file batch.2 = Some (Garbage "") /\
  get_manifest batch.2 = Raise JSONDecodeError /\
  manifest_entry_of batch.2 "pdf" = None.
Proof. vm_compute. repeat split; reflexivity. Qed.

(** * Further properties of the client, the manifest and the app *)

(** ** The cached revision *)

(** X1. A revision that was fetched and is not the empty string is answered
    from the cache from then on, whatever the remote would answer now, and
    the client stays as it is; the contents it serves are not touched. *)
Theorem get_latest_commit_cached (self self' : GitHubClient.t) sha :
  get_latest_commit self = (Ok sha, self') ->
  sha <> "" ->
  GitHubClient.contents self' = GitHubClient.contents self /\
  forall commits_now,
    let later := GitHubClient.mk commits_now (GitHubClient.contents self')
                   (GitHubClient._latest_commit self') in
    get_latest_commit later = (Ok sha, later).
Proof.
  unfold get_latest_commit. intros Hrun Hsha.
  assert (GitHubClient._latest_commit self' = Some sha /\
          GitHubClient.contents self' = GitHubClient.contents self) as [Hcache Hcontents].
  { destruct (GitHubClient._latest_commit self) as [c|] eqn:Hc.
    - destruct (negb (String.eqb c "")) eqn:Hne.
      + injection Hrun as <- <-. by rewrite Hc.
      + destruct (GitHubClient.commits_main self) as [e|sha0]; [done|].
        by injection Hrun as <- <-.
    - destruct (GitHubClient.commits_main self) as [e|sha0]; [done|].
      by injection Hrun as <- <-. }
  split; [done|]. intros commits_now. cbv zeta. simpl. rewrite Hcache.
  apply String.eqb_neq in Hsha. by rewrite Hsha.
Qed.

(** A fetch that raises changes nothing in the client. *)
Lemma get_latest_commit_Raise (self self' : GitHubClient.t) e :
  get_latest_commit self = (Raise e, self') -> self' = self.
Proof.
  unfold get_latest_commit.
  destruct (GitHubClient._latest_commit self) as [c|].
  - destruct (negb (String.eqb c "")); [done|].
    destruct (GitHubClient.commits_main self); [by intros [= _ <-]|done].
  - destruct (GitHubClient.commits_main self); [by intros [= _ <-]|done].
Qed.

Lemma get_latest_commit_cached_example :
  let later := GitHubClient.mk (Raise TransportError) example_contents (Some example_revision) in
  get_latest_commit example_github = (Ok example_revision, (get_latest_commit example_github).2) /\
  example_revision <> "" /\
  get_latest_commit later = (Ok example_revision, later).
Proof.
  intros later.
  assert (get_latest_commit example_github
          = (Ok example_revision, (get_latest_commit example_github).2)) as H1 by reflexivity.
  assert (example_revision <> "") as H2 by discriminate.
  split; [exact H1|]. split; [exact H2|].
  exact (proj2 (get_latest_commit_cached _ _ _ H1 H2) (Raise TransportError)).
Defined.

(** ** The catalogue *)

Lemma ascii_compare_N (a b : Ascii.ascii) :
  Ascii.compare a b = N.compare (Ascii.N_of_ascii a) (Ascii.N_of_ascii b).
Proof. reflexivity. Qed.

Lemma ascii_compare_Eq (a b : Ascii.ascii) : Ascii.compare a b = Eq -> a = b.
Proof. apply Ascii.compare_eq_iff. Qed.

(** The order of strings is transitive. *)
Lemma string_compare_trans (x : string) :
  forall y z c, String.compare x y = c -> String.compare y z = c -> c <> Eq ->
           String.compare x z = c.
Proof.
  induction x as [|a x IH]; intros [|b y] [|d z] c; simpl; try congruence.
  rewrite !ascii_compare_N.
  destruct (N.compare_spec (Ascii.N_of_ascii a) (Ascii.N_of_ascii b)) as [Hab|Hab|Hab];
    destruct (N.compare_spec (Ascii.N_of_ascii b) (Ascii.N_of_ascii d)) as [Hbd|Hbd|Hbd];
    destruct (N.compare_spec (Ascii.N_of_ascii a) (Ascii.N_of_ascii d)) as [Had|Had|Had];
    try congruence; try lia; eauto.
Qed.

Lemma string_leb_trans (x y z : string) :
  String.leb x y = true -> String.leb y z = true -> String.leb x z = true.
Proof.
  unfold String.leb.
  destruct (String.compare x y) eqn:Hxy; destruct (String.compare y z) eqn:Hyz;
    try done; intros _ _.
  - apply String.compare_eq_iff in Hxy as ->. by rewrite Hyz.
  - apply String.compare_eq_iff in Hxy as ->. by rewrite Hyz.
  - apply String.compare_eq_iff in Hyz as <-. by rewrite Hxy.
  - by rewrite (string_compare_trans x y z Lt Hxy Hyz).
Qed.

Lemma list_skills_loop_dirs (items : list item) :
  forall skills,
    list_skills_loop items skills
    = (skills ++ ((fun n => Skill.mk n "" []) <$> dir_names items))%list.
Proof.
  unfold dir_names.
  induction items as [|[name inline fetched|name listing|type name] rest IH]; intros skills; simpl.
  - by rewrite app_nil_r.
  - apply IH.
  - rewrite IH. by rewrite <- app_assoc.
  - apply IH.
Qed.

Lemma insert_by_name_perm (s : Skill.t) (l : list Skill.t) :
  insert_by_name s l ≡ₚ s :: l.
Proof.
  induction l as [|x rest IH]; simpl; [done|].
  destruct (String.leb _ _); [done|]. rewrite IH. apply Permutation_swap.
Qed.

Lemma sorted_by_name_perm (l : list Skill.t) : sorted_by_name l ≡ₚ l.
Proof.
  unfold sorted_by_name. induction l as [|s rest IH]; simpl; [done|].
  by rewrite insert_by_name_perm, IH.
Qed.

Lemma insert_by_name_sorted (s : Skill.t) (l : list Skill.t) :
  StronglySorted (fun a b => String.leb (Skill.name a) (Skill.name b) = true) l ->
  StronglySorted (fun a b => String.leb (Skill.name a) (Skill.name b) = true)
    (insert_by_name s l).
Proof.
  induction 1 as [|x rest Hsorted IH Hx]; simpl.
  - repeat constructor.
  - destruct (String.leb (Skill.name s) (Skill.name x)) eqn:Hle.
    + constructor; [by constructor|]. constructor; [done|].
      eapply Forall_impl; [exact Hx|]. intros y Hy. simpl in Hy.
      by eapply string_leb_trans.
    + constructor; [done|]. rewrite insert_by_name_perm. constructor; [|done].
      destruct (String.leb_total (Skill.name s) (Skill.name x)); [congruence|done].
Qed.

Lemma sorted_by_name_sorted (l : list Skill.t) :
  StronglySorted (fun a b => String.leb (Skill.name a) (Skill.name b) = true)
    (sorted_by_name l).
Proof.
  unfold sorted_by_name. induction l as [|s rest IH]; simpl; [constructor|].
  by apply insert_by_name_sorted.
Qed.

(** X2. The catalogue: when the request of the root listing is answered,
    [list_skills] returns one skill per directory of the listing and none
    for its other entries, each with an empty description and no files,
    ordered by name; when the request raises, so does [list_skills]. *)
Theorem list_skills_sorted_dirs (self : GitHubClient.t) :
  match GitHubClient.contents self SKILLS_PATH with
  | inl e => list_skills self = Raise e
  | inr items =>
      exists skills,
        list_skills self = Ok skills /\
        StronglySorted (fun a b => String.leb (Skill.name a) (Skill.name b) = true) skills /\
        Skill.name <$> skills ≡ₚ dir_names items /\
        Forall (fun s => Skill.description s = "" /\ Skill.files s = []) skills
  end.
Proof.
  unfold list_skills. destruct (GitHubClient.contents self SKILLS_PATH) as [e|items]; [done|].
  simpl. eexists. split; [reflexivity|]. split; [apply sorted_by_name_sorted|].
  rewrite list_skills_loop_dirs. simpl. split.
  - rewrite sorted_by_name_perm.
    induction (dir_names items) as [|n names IH]; [done|].
    rewrite !fmap_cons. simpl. by rewrite IH.
  - rewrite sorted_by_name_perm. apply Forall_fmap, Forall_forall. by intros n _.
Qed.

(** ** More on the manifest *)

Section ManifestMore.
Context {FS : Type} `{LocalFS FS} {text : Type} `{JsonCodec text} `{!WriteText FS text}.

Local Abbreviation world := (World.t FS text).

(** A returning [record_sync] has read the clock once. *)
Lemma record_sync_Ok_clock (w w' : world) skill_name commit_sha files :
  record_sync skill_name commit_sha files w = (Ok (), w') ->
  World.clock w' = World.clock w /\ World.clock_reads w' = S (World.clock_reads w).
Proof.
  intros Hrun.
  destruct (record_sync_shape _ _ _ _ _ _ Hrun) as [(e & He & _)|(m & tbl & Hload & Hskills)];
    [done|].
  rewrite (record_sync_run _ _ _ _ _ _ Hload Hskills) in Hrun.
  destruct (fs_mkdir [] (World.fs w)) as [[e|[]] fs1]; [done|].
  destruct (fs_write_text _ _) as [r [fs2 file2]].
  by injection Hrun as _ <-.
Qed.

(** X3. Two recordings in a row. The entry of the second unit is the one of the
    second recording; the entry of the first unit is kept when the units
    differ and replaced as a whole when they are the same (nothing of the
    first file list or revision is left); every other entry is what it was
    before the two. *)
Theorem record_sync_twice (w w1 w2 : world) a sha1 files1 b sha2 files2 :
  record_sync a sha1 files1 w = (Ok (), w1) ->
  record_sync b sha2 files2 w1 = (Ok (), w2) ->
  manifest_entry_of w2 b
  = Some (manifest_entry sha2 (World.clock w (S (World.clock_reads w))) files2) /\
  (a <> b ->
   manifest_entry_of w2 a
   = Some (manifest_entry sha1 (World.clock w (World.clock_reads w)) files1)) /\
  (forall u, u <> a -> u <> b -> manifest_entry_of w2 u = manifest_entry_of w u).
Proof.
  intros Hfirst Hsecond.
  destruct (record_sync_Ok_clock _ _ _ _ _ Hfirst) as [Hclock Hreads].
  apply record_sync_table in Hfirst as (tbl & Htbl & Htbl1).
  apply record_sync_table in Hsecond as (tbl1 & Htbl1' & Htbl2).
  rewrite Htbl1 in Htbl1'. injection Htbl1' as <-.
  rewrite Hclock, Hreads in Htbl2.
  unfold manifest_entry_of. rewrite Htbl, Htbl2. simpl. split; [|split].
  - apply lookup_insert_eq.
  - intros Hne. rewrite lookup_insert_ne by done. apply lookup_insert_eq.
  - intros u Ha Hb. by rewrite !lookup_insert_ne.
Qed.

(** X4. A manifest that is not an object, or whose ["skills"] is not an object:
    [record_sync] raises [TypeError] after reading the clock, and neither
    the file nor the disk is touched. *)
Theorem record_sync_TypeError (w : world) manifest skill_name commit_sha files :
  get_manifest w = Ok manifest ->
  match manifest with
  | PyDict m => match m !! "skills" with
                | Some (PyDict _) | None => False
                | Some _ => True
                end
  | _ => True
  end ->
  record_sync skill_name commit_sha files w
  = (Raise TypeError,
     World.mk (World.fs w) (World.manifest_file w) (World.clock w)
              (S (World.clock_reads w))).
Proof.
  intros Hload Hshape.
  unfold record_sync, io_bind, io_lift, utcnow_isoformat. rewrite Hload. cbn beta iota zeta.
  destruct manifest as [| | | | | |m]; try done. simpl.
  destruct (m !! "skills") as [[| | | | | |tbl]|]; done.
Qed.

(** An entry that is [null] resolves as an absent one. *)
Lemma sync_status_of_null tbl remote_sha skill :
  tbl !! Skill.name skill = Some PyNone ->
  sync_status_of (PyDict tbl) remote_sha skill = Ok (status_new skill remote_sha).
Proof. intros Hnull. unfold sync_status_of. simpl. by rewrite Hnull. Qed.

Lemma sync_status_of_Ok_resolvable tbl remote_sha skill status :
  sync_status_of (PyDict tbl) remote_sha skill = Ok status ->
  resolvable (tbl !! Skill.name skill) = true.
Proof.
  unfold sync_status_of, resolvable. simpl.
  destruct (tbl !! Skill.name skill) as [[| | | | | |e]|]; try done.
  simpl. unfold py_get_default. simpl. fold (stored_revision e).
  by destruct (stored_revision e).
Qed.

(** X5. Status resolution has no isolation between units: on a manifest with a
    unit table it returns exactly when the entry of every unit asked for
    can be classified (absent, [null], or an object whose revision is
    missing, a string or a list); one entry that cannot makes the whole
    call raise. *)
Theorem get_sync_status_returns_iff (w : world) tbl skills remote_sha :
  skills_table w = Some tbl ->
  (exists statuses, get_sync_status w skills remote_sha = Ok statuses) <->
  Forall (fun skill => resolvable (tbl !! Skill.name skill) = true) skills.
Proof.
  intros Htbl. split; [|by apply get_sync_status_returns].
  intros [statuses Hrun]. rewrite (get_sync_status_table _ _ _ _ Htbl) in Hrun.
  apply sync_status_loop_Ok in Hrun as (new & _ & Hall).
  induction Hall as [|skill status rest new Hone _ IH]; constructor; [|done].
  by eapply sync_status_of_Ok_resolvable.
Qed.

(** X6. The exception of a resolution that raises is the one of the first unit,
    in input order, whose entry cannot be classified. *)
Theorem get_sync_status_first_error (w : world) tbl before skill after remote_sha e :
  skills_table w = Some tbl ->
  Forall (fun skill => resolvable (tbl !! Skill.name skill) = true) before ->
  sync_status_of (PyDict tbl) remote_sha skill = Raise e ->
  get_sync_status w (before ++ skill :: after) remote_sha = Raise e.
Proof.
  intros Htbl Hbefore Hbad. rewrite (get_sync_status_table _ _ _ _ Htbl).
  generalize (@nil SyncStatus.t) as acc.
  induction Hbefore as [|s rest Hs _ IH]; intros acc; simpl.
  - by rewrite Hbad.
  - destruct (sync_status_of_resolvable _ remote_sha _ Hs) as [status ->]. simpl. apply IH.
Qed.

End ManifestMore.

(** X7. A [null] entry in the unit table is read as no entry: the unit is new. *)
Theorem null_entry_is_new {FS text : Type} `{JsonCodec text} (w : World.t FS text)
    tbl skill remote_sha :
  skills_table w = Some tbl ->
  tbl !! Skill.name skill = Some PyNone ->
  get_sync_status w [skill] remote_sha
  = Ok [SyncStatus.mk skill "new" PyNone (PyStr (str_take 7 remote_sha))].
Proof.
  intros Htbl Hnull. rewrite (get_sync_status_table _ _ _ _ Htbl). simpl.
  by rewrite (sync_status_of_null _ _ _ Hnull).
Qed.

(** ** More on the download *)

Section DownloadMore.
Context {FS : Type} `{LocalFS FS}.

(** The loop over a listing in two parts. *)
Lemma download_items_app (l1 l2 : list item) target_dir :
  forall files (fs : FS),
    download_items (l1 ++ l2) target_dir files fs
    = match download_items l1 target_dir files fs with
      | (inr files1, fs1) => download_items l2 target_dir files1 fs1
      | (inl e, fs1) => (Raise e, fs1)
      end.
Proof.
  induction l1 as [|it rest IH]; intros files fs; simpl; [done|].
  unfold io_bind. destruct (download_item it target_dir files fs) as [[e|files1] fs1]; [done|].
  apply IH.
Qed.

(** X8. A failure stops the walk. When the entries before an entry have been
    downloaded and that entry raises, the download of the directory raises
    the same exception and leaves the disk as that entry left it, whatever
    entries come after it: they are neither requested nor written. *)
Theorem download_stops_at_failure (before : list item) (bad : item) target_dir
    files files1 (fs fs1 fs2 : FS) e :
  _download_directory (Ok before) target_dir files fs = (Ok files1, fs1) ->
  download_item bad target_dir files1 fs1 = (Raise e, fs2) ->
  forall after,
    _download_directory (Ok (before ++ bad :: after)%list) target_dir files fs = (Raise e, fs2).
Proof.
  unfold _download_directory, io_bind.
  destruct (fs_mkdir target_dir fs) as [[e0|[]] fs0]; [done|].
  intros Hbefore Hbad after. rewrite download_items_app, Hbefore. simpl.
  unfold io_bind. by rewrite Hbad.
Qed.

Lemma written_paths_app (l1 l2 : list fs_call) :
  written_paths (l1 ++ l2) = (written_paths l1 ++ written_paths l2)%list.
Proof. unfold written_paths. apply omap_app. Qed.

Lemma download_items_written (items : list item) :
  Forall (fun it => forall target_dir files log (fs : FS) files' log' fs',
            download_item it target_dir files (log, fs) = (Ok files', (log', fs')) ->
            exists calls names,
              log' = (log ++ calls)%list /\ files' = (files ++ names)%list /\
              last <$> written_paths calls = Some <$> names) items ->
  forall target_dir files log (fs : FS) files' log' fs',
    download_items items target_dir files (log, fs) = (Ok files', (log', fs')) ->
    exists calls names,
      log' = (log ++ calls)%list /\ files' = (files ++ names)%list /\
      last <$> written_paths calls = Some <$> names.
Proof.
  induction 1 as [|it rest Hit _ IH]; intros target_dir files log fs files' log' fs'; simpl.
  - intros [= <- <- _]. exists [], []. by rewrite !app_nil_r.
  - unfold io_bind.
    destruct (download_item it target_dir files (log, fs)) as [[e|files1] [log1 fs1]] eqn:Hone;
      [done|].
    intros Hrest. apply Hit in Hone as (calls1 & names1 & -> & -> & Hleaf1).
    apply IH in Hrest as (calls2 & names2 & -> & -> & Hleaf2).
    exists (calls1 ++ calls2)%list, (names1 ++ names2)%list.
    rewrite written_paths_app, !fmap_app, Hleaf1, Hleaf2. by rewrite !app_assoc.
Qed.

Lemma download_item_written (it : item) :
  forall target_dir files log (fs : FS) files' log' fs',
    download_item it target_dir files (log, fs) = (Ok files', (log', fs')) ->
    exists calls names,
      log' = (log ++ calls)%list /\ files' = (files ++ names)%list /\
      last <$> written_paths calls = Some <$> names.
Proof.
  induction it as [name inline fetched|name e|name items IH|type name]
    using item_listing_ind; intros target_dir files log fs files' log' fs'.
  - simpl. unfold io_bind, _download_file, io_bind, io_lift.
    destruct (file_content inline fetched) as [e|content]; [done|].
    simpl. destruct (fs_write_bytes _ content fs) as [[e|[]] fs1]; [done|].
    intros [= <- <- _]. eexists [_], [name]. split; [done|]. split; [done|].
    unfold written_paths, child. simpl. by rewrite last_snoc.
  - done.
  - rewrite download_item_Dir. unfold _download_directory, io_bind.
    simpl. destruct (fs_mkdir _ fs) as [[e|[]] fs1]; [done|].
    intros Hrun. apply (download_items_written _ IH) in Hrun as (calls & names & -> & -> & Hleaf).
    exists (CallMkdir (child target_dir name) :: calls), names.
    split; [by rewrite <- app_assoc|]. done.
  - simpl. intros [= <- <- _]. exists [], []. by rewrite !app_nil_r.
Qed.

(** X9. What a download returns is what it wrote: on a disk that lists its
    calls, the files written during the download are as many as the names
    returned, and the name at each place of the list is the leaf name of
    the file written at that place. *)
Theorem download_skill_returns_written (github : GitHubClient.t) skill_name target_dir
    log (fs : FS) files log' fs' :
  download_skill github skill_name target_dir (log, fs) = (Ok files, (log', fs')) ->
  exists calls,
    log' = (log ++ calls)%list /\
    last <$> written_paths calls = Some <$> files /\
    length (written_paths calls) = length files.
Proof.
  unfold download_skill, _download_directory.
  destruct (GitHubClient.contents github _) as [e|items]; [done|].
  unfold io_bind. simpl.
  destruct (fs_mkdir target_dir fs) as [[e|[]] fs1]; [done|].
  intros Hrun. eapply (download_items_written items) in Hrun as (calls & names & -> & -> & Hleaf).
  - exists (CallMkdir target_dir :: calls). split; [by rewrite <- app_assoc|].
    simpl. split; [done|].
    apply (f_equal length) in Hleaf. by rewrite !length_fmap in Hleaf.
  - apply Forall_forall. intros it _. apply download_item_written.
Qed.

End DownloadMore.

(** ** The cycle of a unit on the disk *)

Section Replace.
Context {FS : Type} `{LocalFS FS} {text : Type} `{JsonCodec text} `{!WriteText FS text}.

Lemma download_items_no_rmtree (items : list item) :
  Forall (fun it => forall target_dir files log (fs : FS) r log' fs',
            download_item it target_dir files (log, fs) = (r, (log', fs')) ->
            exists calls, log' = (log ++ calls)%list /\
                          Forall (fun c => forall p, c <> CallRmtree p) calls) items ->
  forall target_dir files log (fs : FS) r log' fs',
    download_items items target_dir files (log, fs) = (r, (log', fs')) ->
    exists calls, log' = (log ++ calls)%list /\
                  Forall (fun c => forall p, c <> CallRmtree p) calls.
Proof.
  induction 1 as [|it rest Hit _ IH]; intros target_dir files log fs r log' fs'; simpl.
  - intros [= _ <- _]. exists []. by rewrite app_nil_r.
  - unfold io_bind.
    destruct (download_item it target_dir files (log, fs)) as [[e|files1] [log1 fs1]] eqn:Hone.
    + intros [= _ <- _]. by eapply Hit.
    + intros Hrest. apply Hit in Hone as (calls1 & -> & Hno1).
      apply IH in Hrest as (calls2 & -> & Hno2).
      exists (calls1 ++ calls2)%list. split; [by rewrite app_assoc|by apply Forall_app].
Qed.

Lemma download_item_no_rmtree (it : item) :
  forall target_dir files log (fs : FS) r log' fs',
    download_item it target_dir files (log, fs) = (r, (log', fs')) ->
    exists calls, log' = (log ++ calls)%list /\
                  Forall (fun c => forall p, c <> CallRmtree p) calls.
Proof.
  induction it as [name inline fetched|name e|name items IH|type name]
    using item_listing_ind; intros target_dir files log fs r log' fs'.
  - simpl. unfold io_bind, _download_file, io_bind, io_lift.
    destruct (file_content inline fetched) as [e|content].
    + intros [= _ <- _]. exists []. by rewrite app_nil_r.
    + simpl. destruct (fs_write_bytes _ content fs) as [[e|[]] fs1];
        intros [= _ <- _]; eexists [_]; (split; [done|]); by repeat constructor.
  - simpl. intros [= _ <- _]. exists []. by rewrite app_nil_r.
  - rewrite download_item_Dir. unfold _download_directory, io_bind.
    simpl. destruct (fs_mkdir _ fs) as [[e|[]] fs1].
    + intros [= _ <- _]. eexists [_]. split; [done|]. by repeat constructor.
    + intros Hrun. apply (download_items_no_rmtree _ IH) in Hrun as (calls & -> & Hno).
      exists (CallMkdir (child target_dir name) :: calls).
      split; [by rewrite <- app_assoc|]. by constructor.
  - simpl. intros [= _ <- _]. exists []. by rewrite app_nil_r.
Qed.

Lemma download_skill_no_rmtree (github : GitHubClient.t) skill_name target_dir
    log (fs : FS) r log' fs' :
  download_skill github skill_name target_dir (log, fs) = (r, (log', fs')) ->
  exists calls, log' = (log ++ calls)%list /\
                Forall (fun c => forall p, c <> CallRmtree p) calls.
Proof.
  unfold download_skill, _download_directory.
  destruct (GitHubClient.contents github _) as [e|items].
  - intros [= _ <- _]. exists []. by rewrite app_nil_r.
  - unfold io_bind. simpl. destruct (fs_mkdir target_dir fs) as [[e|[]] fs1].
    + intros [= _ <- _]. eexists [_]. split; [done|]. by repeat constructor.
    + intros Hrun. eapply (download_items_no_rmtree items) in Hrun as (calls & -> & Hno).
      * exists (CallMkdir target_dir :: calls).
        split; [by rewrite <- app_assoc|]. by constructor.
      * apply Forall_forall. intros it _. apply download_item_no_rmtree.
Qed.

Lemma record_sync_no_rmtree skill_name commit_sha files
    (w w' : World.t (traced FS) text) r :
  record_sync skill_name commit_sha files w = (r, w') ->
  exists calls, (World.fs w').1 = ((World.fs w).1 ++ calls)%list /\
                Forall (fun c => forall p, c <> CallRmtree p) calls.
Proof.
  unfold record_sync, io_bind, io_lift, utcnow_isoformat, save_manifest, on_fs,
    write_manifest_text, io_bind.
  destruct (get_manifest w) as [e|manifest].
  { intros [= _ <-]. exists []. by rewrite app_nil_r. }
  destruct manifest as [| | | | | |m]; simpl;
    try (intros [= _ <-]; exists []; simpl; by rewrite app_nil_r).
  destruct (m !! "skills") as [[| | | | | |tbl]|]; simpl;
    try (intros [= _ <-]; exists []; simpl; by rewrite app_nil_r).
  destruct (World.fs w) as [log fs]. simpl.
  destruct (fs_mkdir [] fs) as [[e|[]] fs1]; simpl.
  - intros [= _ <-]. simpl. exists [CallMkdir []]. split; [done|]. by repeat constructor.
  - destruct (fs_write_text _ (fs1, World.manifest_file w)) as [r' [fs2 file2]].
    intros [= _ <-]. simpl. exists [CallMkdir []]. split; [done|]. by repeat constructor.
Qed.

Lemma on_fs_download_no_rmtree (github : GitHubClient.t) skill_name target_dir
    (w w' : World.t (traced FS) text) r :
  on_fs (download_skill github skill_name target_dir) w = (r, w') ->
  exists calls, (World.fs w').1 = ((World.fs w).1 ++ calls)%list /\
                Forall (fun c => forall p, c <> CallRmtree p) calls.
Proof.
  unfold on_fs. destruct (World.fs w) as [log fs].
  destruct (@download_skill (traced FS) _ github skill_name target_dir (log, fs))
    as [r0 [log1 fs1]] eqn:Hdl.
  intros [= _ <-]. simpl. by eapply download_skill_no_rmtree.
Qed.

(** The cycle after the removal: download, then record. *)
Lemma cycle_tail_no_rmtree (github : GitHubClient.t) skill_name remote_sha
    (w w' : World.t (traced FS) text) r :
  io_bind (on_fs (download_skill github skill_name (child [] skill_name)))
    (fun files => io_bind (record_sync skill_name remote_sha files)
                    (fun _ => io_ret files)) w = (r, w') ->
  exists calls, (World.fs w').1 = ((World.fs w).1 ++ calls)%list /\
                Forall (fun c => forall p, c <> CallRmtree p) calls.
Proof.
  unfold io_bind at 1.
  destruct (on_fs (download_skill github skill_name (child [] skill_name)) w)
    as [[e|files] w1] eqn:Hdl;
    apply on_fs_download_no_rmtree in Hdl as (calls1 & Hlog1 & Hno1).
  - intros [= _ <-]. by exists calls1.
  - unfold io_bind, io_ret.
    destruct (record_sync skill_name remote_sha files w1) as [[e|[]] w2] eqn:Hrec;
      apply record_sync_no_rmtree in Hrec as (calls2 & Hlog2 & Hno2);
      intros [= _ <-]; exists (calls1 ++ calls2)%list;
      (split; [by rewrite Hlog2, Hlog1, app_assoc|by apply Forall_app]).
Qed.

(** X10. Full replace. In the cycle of a unit the local copy is removed exactly
    when it exists, before anything else is done to the disk, and nothing
    else is ever removed: the calls of the cycle are the [rmtree] of the
    directory of the unit if that directory existed, followed by calls none
    of which is an [rmtree], whether the cycle returns or raises. *)
Theorem sync_unit_removes_once (github : GitHubClient.t) skill_name remote_sha
    (w w' : World.t (traced FS) text) r :
  sync_unit github skill_name remote_sha w = (r, w') ->
  exists calls,
    (World.fs w').1
    = ((World.fs w).1
       ++ (if fs_exists (child [] skill_name) (World.fs w).2
           then [CallRmtree (child [] skill_name)] else [])
       ++ calls)%list /\
    Forall (fun c => forall p, c <> CallRmtree p) calls.
Proof.
  unfold sync_unit. unfold io_bind at 1.
  change (fs_exists (child [] skill_name) (World.fs w))
    with (fs_exists (child [] skill_name) (World.fs w).2).
  destruct (fs_exists (child [] skill_name) (World.fs w).2).
  - destruct (on_fs (fs_rmtree (child [] skill_name)) w) as [[e|[]] w0] eqn:Hrm.
    + intros [= _ <-]. exists []. split; [|done].
      unfold on_fs in Hrm. destruct (World.fs w) as [log fs]. simpl in *.
      destruct (fs_rmtree (child [] skill_name) fs) as [r0 fs0].
      injection Hrm as _ <-. done.
    + intros Htail. apply cycle_tail_no_rmtree in Htail as (calls & Hlog & Hno).
      exists calls. split; [|done]. rewrite Hlog.
      unfold on_fs in Hrm. destruct (World.fs w) as [log fs]. simpl in *.
      destruct (fs_rmtree (child [] skill_name) fs) as [r0 fs0].
      injection Hrm as _ <-. simpl. by rewrite <- app_assoc.
  - intros Htail. apply cycle_tail_no_rmtree in Htail as (calls & Hlog & Hno).
    exists calls. by rewrite Hlog.
Qed.

End Replace.

(** ** The selection *)

Lemma filter_ext_in {A} (P Q : A -> Prop) `{!forall x, Decision (P x)}
    `{!forall x, Decision (Q x)} (l : list A) :
  Forall (fun x => P x <-> Q x) l -> filter P l = filter Q l.
Proof.
  induction 1 as [|x rest Hx _ IH]; [done|]. rewrite !filter_cons, IH.
  destruct (decide (P x)) as [HP|HP].
  - rewrite decide_True; [done|]. by apply Hx.
  - rewrite decide_False; [done|]. by rewrite <- Hx.
Qed.

Lemma filter_all {A} (P : A -> Prop) `{!forall x, Decision (P x)} (l : list A) :
  Forall P l -> filter P l = l.
Proof.
  induction 1 as [|x rest Hx _ IH]; [done|].
  rewrite filter_cons, IH. by rewrite decide_True.
Qed.

Lemma NoDup_fmap_eq {A B} (f : A -> B) (l : list A) x y :
  NoDup (f <$> l) -> x ∈ l -> y ∈ l -> f x = f y -> x = y.
Proof.
  induction l as [|z rest IH]; [by intros _ ?%elem_of_nil|].
  rewrite fmap_cons. intros [Hz Hrest]%NoDup_cons.
  intros [->|Hx]%elem_of_cons [->|Hy]%elem_of_cons Heq; [done| | |by apply IH].
  - exfalso. apply Hz. rewrite Heq. by apply list_elem_of_fmap_2.
  - exfalso. apply Hz. rewrite <- Heq. by apply list_elem_of_fmap_2.
Qed.

#[local] Set Warnings "-clear-no-such-hyp".

Section SelectionFacts.
Context {FS text : Type}.

Local Abbreviation world := (World.t FS text).

Lemma select_all_fold (statuses : list SyncStatus.t) :
  forall sel : gset string,
    foldl (fun sel s => sel ∪ {[ Skill.name (SyncStatus.skill s) ]}) sel statuses
    = sel ∪ list_to_set (unit_name <$> statuses).
Proof.
  induction statuses as [|s rest IH]; intros sel.
  - simpl. by rewrite union_empty_r_L.
  - cbn [foldl]. rewrite IH, fmap_cons, list_to_set_cons. by rewrite (assoc_L (∪)).
Qed.

Lemma select_new_fold (statuses : list SyncStatus.t) :
  forall sel : gset string,
    foldl (fun sel s =>
             if String.eqb (SyncStatus.status s) "new"
                || String.eqb (SyncStatus.status s) "update"
             then sel ∪ {[ Skill.name (SyncStatus.skill s) ]}
             else sel) sel statuses
    = sel ∪ list_to_set
              (unit_name <$> filter (fun s => SyncStatus.status s = "new" \/
                                              SyncStatus.status s = "update") statuses).
Proof.
  induction statuses as [|s rest IH]; intros sel.
  - simpl. by rewrite union_empty_r_L.
  - cbn [foldl]. rewrite IH, filter_cons.
    destruct (String.eqb (SyncStatus.status s) "new") eqn:Hnew; cbn [orb].
    { apply String.eqb_eq in Hnew. rewrite decide_True by by left.
      rewrite fmap_cons, list_to_set_cons. by rewrite (assoc_L (∪)). }
    destruct (String.eqb (SyncStatus.status s) "update") eqn:Hupd.
    { apply String.eqb_eq in Hupd. rewrite decide_True by by right.
      rewrite fmap_cons, list_to_set_cons. by rewrite (assoc_L (∪)). }
    apply String.eqb_neq in Hnew, Hupd. rewrite decide_False; [done|]. by intros [?|?].
Qed.

(** X12. After "select all" a batch takes every unit of the table, in the order
    of the table, whatever was checked before. *)
Theorem select_all_takes_all (app : App.t) (w : world) :
  exists app',
    action_select_all (app, w) = (Ok (), (app', w)) /\
    skills_to_sync app' = App.statuses app /\
    App.selected app ⊆ App.selected app'.
Proof.
  eexists. split; [reflexivity|]. simpl. rewrite select_all_fold. split.
  - unfold skills_to_sync. simpl. apply filter_all, Forall_forall. intros s Hs.
    apply elem_of_union. right. apply elem_of_list_to_set.
    by apply (list_elem_of_fmap_2 unit_name).
  - apply union_subseteq_l.
Qed.

(** X13. After "select new/updated", with unit names that are all different, a
    batch takes exactly the units whose status is ["new"] or ["update"], in
    the order of the table, whatever was checked before. *)
Theorem select_new_takes_new (app : App.t) (w : world) :
  NoDup (unit_name <$> App.statuses app) ->
  exists app',
    action_select_new (app, w) = (Ok (), (app', w)) /\
    skills_to_sync app'
    = filter (fun s => SyncStatus.status s = "new" \/ SyncStatus.status s = "update")
        (App.statuses app).
Proof.
  intros Hnodup. eexists. split; [reflexivity|].
  unfold skills_to_sync. simpl. rewrite select_new_fold, union_empty_l_L.
  apply filter_ext_in, Forall_forall. intros s Hs.
  rewrite elem_of_list_to_set. fold (unit_name s). split.
  - intros (s' & Heq & Hs')%list_elem_of_fmap.
    apply list_elem_of_filter in Hs' as [Hnew Hs'].
    by rewrite (NoDup_fmap_eq unit_name _ s s' Hnodup Hs Hs' Heq).
  - intros Hnew. apply list_elem_of_fmap_2. by apply list_elem_of_filter.
Qed.

(** X14. Toggling a row checks it when it was unchecked and unchecks it when it
    was checked, leaves every other row as it was, and toggling it again
    gives the selection back. *)
Theorem action_toggle_twice (skill_name : string) (app : App.t) (w : world) :
  exists app1 app2,
    action_toggle skill_name (app, w) = (Ok (), (app1, w)) /\
    action_toggle skill_name (app1, w) = (Ok (), (app2, w)) /\
    (skill_name ∈ App.selected app1 <-> skill_name ∉ App.selected app) /\
    (forall other, other <> skill_name ->
       (other ∈ App.selected app1 <-> other ∈ App.selected app)) /\
    App.selected app2 = App.selected app.
Proof.
  eexists _, _. split; [reflexivity|]. split; [reflexivity|]. simpl.
  destruct (decide (skill_name ∈ App.selected app)) as [Hin|Hout].
  - rewrite (bool_decide_eq_true_2 _ Hin).
    rewrite bool_decide_eq_false_2 by set_solver.
    split; [set_solver|]. split; [set_solver|].
    apply set_eq. intros x. destruct (decide (x = skill_name)); set_solver.
  - rewrite (bool_decide_eq_false_2 _ Hout).
    rewrite bool_decide_eq_true_2 by set_solver.
    split; [set_solver|]. split; [set_solver|]. set_solver.
Qed.

End SelectionFacts.

(** ** The refresh after a batch *)

Section Refresh.
Context {FS : Type} `{LocalFS FS} {text : Type} `{JsonCodec text} `{!WriteText FS text}.

Local Abbreviation world := (World.t FS text).

Lemma get_sync_status_skills (w : world) skills remote_sha statuses :
  get_sync_status w skills remote_sha = Ok statuses ->
  SyncStatus.skill <$> statuses = skills.
Proof.
  unfold get_sync_status. intros Hrun.
  destruct (get_manifest w) as [e|manifest]; [done|]. simpl in Hrun.
  destruct (py_get_default manifest "skills" (PyDict ∅)) as [e|local_skills]; [done|].
  simpl in Hrun. apply sync_status_loop_Ok in Hrun as (new & -> & Hall). simpl.
  induction Hall as [|skill status rest new Hone _ IH]; [done|].
  apply sync_status_of_skill in Hone. rewrite fmap_cons. by rewrite Hone, IH.
Qed.

Lemma unit_names_skills (statuses : list SyncStatus.t) :
  unit_name <$> statuses = Skill.name <$> (SyncStatus.skill <$> statuses).
Proof. induction statuses as [|s rest IH]; [done|]. rewrite !fmap_cons. by rewrite IH. Qed.

Lemma refresh_fold (synced : list string) (statuses : list SyncStatus.t) :
  forall sel : gset string,
    foldl (fun sel s =>
             let n := Skill.name (SyncStatus.skill s) in
             if bool_decide (n ∈ synced) then sel ∖ {[ n ]} else sel) sel statuses
    = sel ∖ list_to_set (filter (fun n => n ∈ synced) (unit_name <$> statuses)).
Proof.
  induction statuses as [|s rest IH]; intros sel.
  - simpl. by rewrite difference_empty_L.
  - cbn [foldl]. rewrite IH, fmap_cons, filter_cons. fold (unit_name s).
    destruct (decide (unit_name s ∈ synced)) as [Hin|Hout].
    + rewrite (bool_decide_eq_true_2 _ Hin), list_to_set_cons. set_solver.
    + by rewrite (bool_decide_eq_false_2 _ Hout).
Qed.

Lemma refresh_table_outcome (app app' : App.t) (w w' : world) r :
  refresh_table (app, w) = (r, (app', w')) ->
  w' = w /\
  match r with
  | inr _ =>
      SyncStatus.skill <$> App.statuses app' = SyncStatus.skill <$> App.statuses app /\
      forall n, n ∈ App.selected app' <->
                n ∈ App.selected app /\
                ~ (n ∈ App.synced_skills app /\ n ∈ unit_name <$> App.statuses app)
  | inl _ => app' = app
  end.
Proof.
  unfold refresh_table.
  destruct (get_sync_status w _ _) as [e|new_statuses] eqn:Hres; intros [= <- <- <-];
    (split; [done|]); [done|].
  apply get_sync_status_skills in Hres. simpl. split; [done|].
  intros n. rewrite refresh_fold.
  assert (unit_name <$> new_statuses = unit_name <$> App.statuses app) as ->.
  { by rewrite !unit_names_skills, Hres. }
  rewrite elem_of_difference, elem_of_list_to_set, list_elem_of_filter. tauto.
Qed.

(** X15. The refresh of the table. When the statuses resolve, the table keeps
    its units in their order, and a unit is unchecked exactly when it is in
    the table and has been synced in the session: every other checked unit,
    a unit whose cycle raised among them, stays checked. When they do not
    resolve, the refresh raises and the app is as it was. *)
Theorem refresh_table_unchecks_synced (app app' : App.t) (w w' : world) r :
  refresh_table (app, w) = (r, (app', w')) ->
  w' = w /\
  match r with
  | inr _ =>
      SyncStatus.skill <$> App.statuses app' = SyncStatus.skill <$> App.statuses app /\
      forall n, n ∈ App.selected app' <->
                n ∈ App.selected app /\
                ~ (n ∈ App.synced_skills app /\ n ∈ unit_name <$> App.statuses app)
  | inl _ => app' = app
  end.
Proof.
  unfold refresh_table.
  destruct (get_sync_status w _ _) as [e|new_statuses] eqn:Hres; intros [= <- <- <-];
    (split; [done|]); [done|].
  apply get_sync_status_skills in Hres. simpl. split; [done|].
  intros n. rewrite refresh_fold.
  assert (unit_name <$> new_statuses = unit_name <$> App.statuses app) as ->.
  { by rewrite !unit_names_skills, Hres. }
  rewrite elem_of_difference, elem_of_list_to_set, list_elem_of_filter. tauto.
Qed.

(** X16. A batch, then the table. When a batch and its refresh return, every
    unit of the table that the batch has synced shows the status ["ok"] with
    the prefix of the session revision on both sides and is unchecked, and
    every unit that was checked and has not been synced is still checked. *)
Theorem batch_then_refresh github (app app' : App.t) (w w' : world) :
  sync_selected github (app, w) = (Ok (), (app', w')) ->
  exists new,
    App.synced_skills app' = (App.synced_skills app ++ new)%list /\
    (forall s, s ∈ App.statuses app' -> unit_name s ∈ new ->
       s = SyncStatus.mk (SyncStatus.skill s) "ok"
             (PyStr (str_take 7 (App.remote_sha app)))
             (PyStr (str_take 7 (App.remote_sha app))) /\
       unit_name s ∉ App.selected app') /\
    (forall n, n ∈ App.selected app -> n ∉ App.synced_skills app' ->
       n ∈ App.selected app').
Proof.
  intros Hrun.
  apply sync_selected_Ok in Hrun as (outcomes & Hbatch & Hshown & Hrun).
  pose proof (refresh_table_outcome _ _ _ _ _ Hrun) as (_ & Hskills & Hsel).
  pose proof (refresh_table_inv _ _ _ _ _ Hrun) as (_ & _ & Hsynced & _).
  simpl in *. exists (succeeded outcomes). split; [done|]. split.
  - intros s Hs Hnew. split.
    + unfold refresh_table in Hrun. simpl in Hrun.
      destruct (get_sync_status w' (SyncStatus.skill <$> App.statuses app) (App.remote_sha app))
        as [e|new_statuses] eqn:Hres; [done|].
      injection Hrun as <-. simpl in *.
      apply list_elem_of_lookup in Hs as [i Hi].
      assert ((SyncStatus.skill <$> App.statuses app) !! i = Some (SyncStatus.skill s)) as Hski.
      { rewrite <- Hskills, list_lookup_fmap, Hi. done. }
      destruct (batch_entries _ _ _ _ _ _ _ Hbatch Hnew)
        as [[e He]|(now & files & Hentry)].
      { unfold get_sync_status in Hres. by rewrite He in Hres. }
      unfold manifest_entry_of in Hentry.
      destruct (skills_table w') as [tbl|] eqn:Htbl; [|done]. simpl in Hentry.
      destruct (get_sync_status_lookup _ _ _ _ _ _ _ Htbl Hres Hski) as (status & Hst & Hone).
      rewrite Hi in Hst. injection Hst as <-.
      erewrite sync_status_of_present in Hone; [|exact Hentry|reflexivity].
      destruct (decide (str_take 7 (App.remote_sha app) = str_take 7 (App.remote_sha app)));
        [|done].
      by injection Hone as <-.
    + rewrite Hsel. intros [_ Hnot]. apply Hnot. split.
      * apply elem_of_app. by right.
      * rewrite unit_names_skills, <- Hskills, <- unit_names_skills.
        by apply (list_elem_of_fmap_2 unit_name).
  - intros n Hn Hnot. apply Hsel. split; [done|]. intros [Hsy _]. apply Hnot.
    by rewrite Hsynced.
Qed.

End Refresh.

(** ** The two downloaders *)

Section TwoWalks.
Context {FS : Type} `{LocalFS FS}.

Lemma creator_download_item_Dir name listing target_dir files (fs : FS) :
  SkillCreator.download_item (Dir name listing) target_dir files fs
  = SkillCreator._download_directory listing (child target_dir name) files fs.
Proof.
  unfold SkillCreator._download_directory. simpl. destruct listing as [e|items]; [done|].
  unfold io_bind. destruct (fs_mkdir _ fs) as [[e|[]] fs1]; [done|].
  revert files fs1. induction items as [|it rest IH]; intros files fs1; [done|].
  simpl. unfold io_bind.
  destruct (SkillCreator.download_item it _ files fs1) as [[e|files'] fs2]; [done|].
  apply IH.
Qed.


Lemma same_walk_items (items : list item) :
  Forall (fun it => forall target_dir paths names (fs : FS),
            same_walk target_dir paths names
              (SkillCreator.download_item it target_dir paths fs)
              (download_item it target_dir names fs)) items ->
  forall target_dir paths names (fs : FS),
    same_walk target_dir paths names
      (SkillCreator.download_items items target_dir paths fs)
      (download_items items target_dir names fs).
Proof.
  induction 1 as [|it rest Hit _ IH]; intros target_dir paths names fs; simpl.
  - split; [done|]. simpl. exists []. by rewrite !app_nil_r.
  - unfold io_bind. specialize (Hit target_dir paths names fs).
    destruct (SkillCreator.download_item it target_dir paths fs) as [[e1|paths1] fs1];
      destruct (download_item it target_dir names fs) as [[e2|names1] fs2];
      destruct Hit as [Hfs Hres]; simpl in *; subst; try done.
    destruct Hres as (new1 & -> & -> & Hnew1).
    specialize (IH target_dir (paths ++ new1.*1)%list (names ++ new1.*2)%list fs2).
    destruct (SkillCreator.download_items rest target_dir _ fs2) as [[e1|paths2] fs3];
      destruct (download_items rest target_dir _ fs2) as [[e2|names2] fs4];
      destruct IH as [Hfs Hres]; simpl in *; subst; try done.
    split; [done|]. simpl. destruct Hres as (new2 & -> & -> & Hnew2).
    exists (new1 ++ new2)%list. rewrite !fmap_app, !app_assoc.
    split; [done|]. split; [done|]. by apply Forall_app.
Qed.

Lemma same_walk_item (it : item) :
  forall target_dir paths names (fs : FS),
    same_walk target_dir paths names
      (SkillCreator.download_item it target_dir paths fs)
      (download_item it target_dir names fs).
Proof.
  induction it as [name inline fetched|name e|name items IH|type name]
    using item_listing_ind; intros target_dir paths names fs.
  - simpl. unfold io_bind, _download_file, io_bind, io_lift.
    destruct (file_content inline fetched) as [e|content]; [done|].
    destruct (fs_write_bytes _ content fs) as [[e|[]] fs1]; [done|].
    split; [done|]. simpl. exists [(child target_dir name, name)].
    split; [done|]. split; [done|]. constructor; [|done]. simpl. split.
    + by apply prefix_app_r.
    + unfold child. by rewrite last_snoc.
  - done.
  - rewrite creator_download_item_Dir, download_item_Dir.
    unfold SkillCreator._download_directory, _download_directory, io_bind.
    destruct (fs_mkdir _ fs) as [[e|[]] fs1]; [done|].
    pose proof (same_walk_items _ IH (child target_dir name) paths names fs1) as Hsub.
    destruct (SkillCreator.download_items items _ paths fs1) as [[e1|paths1] fs2];
      destruct (download_items items _ names fs1) as [[e2|names1] fs3];
      destruct Hsub as [Hfs Hres]; simpl in *; subst; try done.
    split; [done|]. simpl. destruct Hres as (new & -> & -> & Hnew).
    exists new. split; [done|]. split; [done|].
    eapply Forall_impl; [exact Hnew|]. intros [p n] [Hpre Hlast]. split; [|done].
    etrans; [|exact Hpre]. by apply prefix_app_r.
  - split; [done|]. simpl. exists []. by rewrite !app_nil_r.
Qed.

(** X18. The two downloaders are one walk. On the same remote path, target and
    disk, [download_directory] of [sync_skill_creator.py] and
    [download_skill] of [skill_sync.py] leave the same disk and raise the
    same exception or both return; what they return names the same files in
    the same order, the first by their paths below the target, the second
    by their leaf names. *)
Theorem creator_walk_is_skill_walk (github : GitHubClient.t) skill_name target_dir (fs : FS) :
  let run1 := SkillCreator.download_directory github (SKILLS_PATH +:+ "/" +:+ skill_name)
                target_dir fs in
  let run2 := download_skill github skill_name target_dir fs in
  run1.2 = run2.2 /\
  match run1.1, run2.1 with
  | inr paths, inr names =>
      last <$> paths = Some <$> names /\
      Forall (fun p => target_dir `prefix_of` p) paths
  | inl e1, inl e2 => e1 = e2
  | _, _ => False
  end.
Proof.
  unfold SkillCreator.download_directory, download_skill,
    SkillCreator._download_directory, _download_directory. simpl.
  destruct (GitHubClient.contents github _) as [e|items]; [done|].
  unfold io_bind. destruct (fs_mkdir target_dir fs) as [[e|[]] fs1]; [done|].
  assert (same_walk target_dir [] []
            (SkillCreator.download_items items target_dir [] fs1)
            (download_items items target_dir [] fs1)) as Hsame.
  { apply same_walk_items, Forall_forall. intros it _. apply same_walk_item. }
  destruct (SkillCreator.download_items items target_dir [] fs1) as [[e1|paths] fs2];
    destruct (download_items items target_dir [] fs1) as [[e2|names] fs3];
    destruct Hsame as [Hfs Hres]; simpl in *; subst; try done.
  split; [done|]. destruct Hres as (new & -> & -> & Hnew). split.
  - induction Hnew as [|[p n] rest [_ Hlast] _ IH]; [done|].
    rewrite !fmap_cons. simpl in *. by rewrite Hlast, IH.
  - induction Hnew as [|[p n] rest [Hpre _] _ IH]; [constructor|].
    rewrite fmap_cons. by constructor.
Qed.

End TwoWalks.

(** ** The script [sync_skill_creator.py] *)

Section CreatorMain.
Context {FS : Type} `{LocalFS FS}.

Lemma creator_items_written (items : list item) :
  Forall (fun it => forall target_dir paths log (fs : FS) paths' log' fs',
            SkillCreator.download_item it target_dir paths (log, fs)
            = (Ok paths', (log', fs')) ->
            exists calls, log' = (log ++ calls)%list /\
                          paths' = (paths ++ written_paths calls)%list) items ->
  forall target_dir paths log (fs : FS) paths' log' fs',
    SkillCreator.download_items items target_dir paths (log, fs)
    = (Ok paths', (log', fs')) ->
    exists calls, log' = (log ++ calls)%list /\
                  paths' = (paths ++ written_paths calls)%list.
Proof.
  induction 1 as [|it rest Hit _ IH]; intros target_dir paths log fs paths' log' fs'; simpl.
  - intros [= <- <- _]. exists []. by rewrite !app_nil_r.
  - unfold io_bind.
    destruct (SkillCreator.download_item it target_dir paths (log, fs))
      as [[e|paths1] [log1 fs1]] eqn:Hone; [done|].
    intros Hrest. apply Hit in Hone as (calls1 & -> & ->).
    apply IH in Hrest as (calls2 & -> & ->).
    exists (calls1 ++ calls2)%list. by rewrite written_paths_app, !app_assoc.
Qed.

Lemma creator_item_written (it : item) :
  forall target_dir paths log (fs : FS) paths' log' fs',
    SkillCreator.download_item it target_dir paths (log, fs) = (Ok paths', (log', fs')) ->
    exists calls, log' = (log ++ calls)%list /\
                  paths' = (paths ++ written_paths calls)%list.
Proof.
  induction it as [name inline fetched|name e|name items IH|type name]
    using item_listing_ind; intros target_dir paths log fs paths' log' fs'.
  - simpl. unfold io_bind, _download_file, io_bind, io_lift.
    destruct (file_content inline fetched) as [e|content]; [done|].
    simpl. destruct (fs_write_bytes _ content fs) as [[e|[]] fs1]; [done|].
    intros [= <- <- _]. by exists [CallWriteBytes (child target_dir name) content].
  - done.
  - rewrite creator_download_item_Dir.
    unfold SkillCreator._download_directory, io_bind.
    simpl. destruct (fs_mkdir _ fs) as [[e|[]] fs1]; [done|].
    intros Hrun. apply (creator_items_written _ IH) in Hrun as (calls & -> & ->).
    exists (CallMkdir (child target_dir name) :: calls). split; [|done].
    by rewrite <- app_assoc.
  - simpl. intros [= <- <- _]. exists []. by rewrite !app_nil_r.
Qed.

Lemma creator_download_directory_written (github : GitHubClient.t) p target_dir
    log (fs : FS) paths log' fs' :
  SkillCreator.download_directory github p target_dir (log, fs) = (Ok paths, (log', fs')) ->
  exists calls, log' = (log ++ CallMkdir target_dir :: calls)%list /\
                paths = written_paths calls.
Proof.
  unfold SkillCreator.download_directory, SkillCreator._download_directory.
  destruct (GitHubClient.contents github p) as [e|items]; [done|].
  unfold io_bind. simpl.
  destruct (fs_mkdir target_dir fs) as [[e|[]] fs1]; [done|].
  intros Hrun. eapply (creator_items_written items) in Hrun as (calls & -> & ->).
  - exists calls. by rewrite <- app_assoc.
  - apply Forall_forall. intros it _. apply creator_item_written.
Qed.

(** X19. The script, when it returns, on a disk that lists its calls: the
    revision was fetched; the directory [skill-creator] was removed first,
    and announced, exactly when it existed; then the target was made and
    the files written; and the number of the last line is the number of
    files written. *)
Theorem creator_main_counts_written (github : GitHubClient.t) out log (fs : FS)
    out' log' fs' :
  SkillCreator.main github (out, (log, fs)) = (Ok (), (out', (log', fs'))) ->
  let target_dir := child [] "skill-creator" in
  exists sha calls,
    GitHubClient.commits_main github = Ok sha /\
    log' = (log ++ (if fs_exists target_dir fs then [CallRmtree target_dir] else [])
            ++ CallMkdir target_dir :: calls)%list /\
    out' = (out ++ [FetchingLatestCommit; LatestCommit (str_take 7 sha)]
            ++ (if fs_exists target_dir fs then [RemovingExisting target_dir] else [])
            ++ [Downloading target_dir; DoneDownloaded (length (written_paths calls))])%list.
Proof.
  unfold SkillCreator.main. cbv zeta. set (target_dir := child [] "skill-creator").
  unfold io_bind at 1. unfold SkillCreator.print at 1.
  unfold io_bind at 1. unfold io_lift, SkillCreator.get_latest_commit.
  destruct (GitHubClient.commits_main github) as [e|sha]; [done|].
  unfold io_bind at 1. unfold SkillCreator.print at 1.
  unfold io_bind at 1. cbn [snd].
  change (fs_exists target_dir (log, fs)) with (fs_exists target_dir fs).
  destruct (fs_exists target_dir fs).
  - unfold io_bind at 1. unfold SkillCreator.print at 1.
    unfold SkillCreator.on_disk at 1. cbn [fs_rmtree traced_LocalFS traced_call].
    destruct (fs_rmtree target_dir fs) as [[e|[]] fs0]; cbv beta iota; [done|].
    unfold io_bind at 1. unfold SkillCreator.print at 1.
    unfold io_bind at 1. unfold SkillCreator.on_disk at 1.
    match goal with
    | |- context [@SkillCreator.download_directory ?F ?I ?g ?p ?t ?s] =>
        destruct (@SkillCreator.download_directory F I g p t s)
          as [[e|paths] [log1 fs1]] eqn:Hdl; [done|]
    end.
    apply creator_download_directory_written in Hdl as (calls & -> & ->).
    unfold SkillCreator.print. intros [= <- <- <-].
    exists sha, calls. split; [done|]. by rewrite <- !app_assoc.
  - unfold io_bind at 1. unfold SkillCreator.print at 1.
    unfold io_bind at 1. unfold SkillCreator.on_disk at 1.
    match goal with
    | |- context [@SkillCreator.download_directory ?F ?I ?g ?p ?t ?s] =>
        destruct (@SkillCreator.download_directory F I g p t s)
          as [[e|paths] [log1 fs1]] eqn:Hdl; [done|]
    end.
    apply creator_download_directory_written in Hdl as (calls & -> & ->).
    unfold SkillCreator.print. intros [= <- <- <-].
    exists sha, calls. split; [done|]. by rewrite <- !app_assoc.
Qed.

End CreatorMain.

(** ** The listing of the command line *)

Section Listing.
Context {FS : Type} `{LocalFS FS} {text : Type} `{JsonCodec text}.

Lemma list_rows_new (skills : list Skill.t) remote_sha :
  forall out,
    list_skills_cli_loop ((fun skill => status_new skill remote_sha) <$> skills) out
    = (Ok (),
       (out ++ ((fun skill => TableRow (Skill.name skill) "new" (PyStr "-")
                                (py_or (PyStr (str_take 7 remote_sha)) (PyStr "-")))
                <$> skills))%list).
Proof.
  induction skills as [|skill rest IH]; intros out.
  - simpl. unfold io_ret. by rewrite app_nil_r.
  - rewrite !fmap_cons. cbn [list_skills_cli_loop]. unfold io_bind at 1.
    unfold status_new at 1 2 3. cbn [SyncStatus.local_sha SyncStatus.remote_sha
      SyncStatus.status SyncStatus.skill].
    assert (py_formats_left (py_or PyNone (PyStr "-"))
            && py_formats_left (py_or (PyStr (str_take 7 remote_sha)) (PyStr "-")) = true)
      as ->.
    { unfold py_or. simpl. by destruct (negb _). }
    rewrite IH. by rewrite <- app_assoc.
Qed.

(** X17. A first listing. With no manifest file, when the revision and the root
    listing can be fetched, [list_skills_cli] prints, after its first line,
    the line of the revision, the heading and the rule, one row per
    directory of the root listing, ordered by name, each with the status
    ["new"], ["-"] for the local revision and the prefix of the remote
    revision (["-"] when that prefix is empty). *)
Theorem list_skills_cli_first_run (github github' : GitHubClient.t)
    (w : World.t FS text) sha items out :
  World.manifest_file w = None ->
  get_latest_commit github = (Ok sha, github') ->
  GitHubClient.contents github SKILLS_PATH = Ok items ->
  exists names,
    names ≡ₚ dir_names items /\
    StronglySorted (fun a b => String.leb a b = true) names /\
    (list_skills_cli github w).1 out
    = (Ok (),
       (out ++ [FetchingSkills; LatestCommitLine (str_take 7 sha); TableHeader; TableRule]
            ++ ((fun n => TableRow n "new" (PyStr "-")
                            (py_or (PyStr (str_take 7 sha)) (PyStr "-"))) <$> names))%list).
Proof.
  intros Hfile Hsha Hitems.
  assert (GitHubClient.contents github' = GitHubClient.contents github) as Hsame.
  { revert Hsha. unfold get_latest_commit.
    destruct (GitHubClient._latest_commit github) as [c|].
    - destruct (negb (String.eqb c "")); [by intros [= _ <-]|].
      destruct (GitHubClient.commits_main github); [done|by intros [= _ <-]].
    - destruct (GitHubClient.commits_main github); [done|by intros [= _ <-]]. }
  set (skills := sorted_by_name (list_skills_loop items [])).
  assert (list_skills github' = Ok skills) as Hlist.
  { unfold list_skills. by rewrite Hsame, Hitems. }
  assert (get_sync_status w skills sha
          = Ok ((fun skill => status_new skill sha) <$> skills)) as Hres.
  { apply (get_sync_status_fmap w ∅).
    - unfold skills_table, get_manifest. by rewrite Hfile.
    - apply Forall_forall. intros skill _. by apply sync_status_of_absent. }
  exists (Skill.name <$> skills). split; [|split].
  - subst skills. rewrite sorted_by_name_perm, list_skills_loop_dirs. simpl.
    induction (dir_names items) as [|n names IH]; [done|].
    rewrite !fmap_cons. simpl. by rewrite IH.
  - pose proof (sorted_by_name_sorted (list_skills_loop items [])) as Hsorted.
    fold skills in Hsorted. clearbody skills. clear Hlist Hres.
    induction Hsorted as [|s rest _ IH Hs]; [constructor|].
    rewrite fmap_cons. constructor; [done|]. by apply Forall_fmap.
  - unfold list_skills_cli. rewrite Hsha. cbn [fst].
    unfold io_bind at 1. unfold io_bind at 1. unfold io_lift at 1.
    unfold io_bind at 1. unfold io_lift at 1. rewrite Hlist.
    unfold io_bind at 1. unfold io_lift at 1. rewrite Hres.
    unfold io_bind at 1. rewrite list_rows_new.
    assert (forall l : list Skill.t,
              (fun skill => TableRow (Skill.name skill) "new" (PyStr "-")
                              (py_or (PyStr (str_take 7 sha)) (PyStr "-"))) <$> l
              = (fun n => TableRow n "new" (PyStr "-")
                            (py_or (PyStr (str_take 7 sha)) (PyStr "-")))
                  <$> (Skill.name <$> l)) as Hrows.
    { intros l. induction l as [|s rest IH]; [done|]. rewrite !fmap_cons. by rewrite IH. }
    rewrite Hrows. by rewrite <- !app_assoc.
Qed.

End Listing.

(** * More worked examples *)

Example list_skills_example :
  list_skills example_catalogue = Ok [example_skill "docx"; example_skill "pdf"].
Proof. reflexivity. Qed.

Lemma record_sync_twice_example :
  let w := example_world None in
  let w1 := (record_sync "pdf" example_revision ["SKILL.md"] w).2 in
  let w2 := (record_sync "docx" "0123456789abc" ["a.md"; "b.md"] w1).2 in
  record_sync "pdf" example_revision ["SKILL.md"] w = (Ok (), w1) /\
  record_sync "docx" "0123456789abc" ["a.md"; "b.md"] w1 = (Ok (), w2) /\
  manifest_entry_of w2 "docx"
  = Some (manifest_entry "0123456789abc" (example_clock 1) ["a.md"; "b.md"]) /\
  manifest_entry_of w2 "pdf"
  = Some (manifest_entry example_revision (example_clock 0) ["SKILL.md"]).
Proof.
  intros w w1 w2.
  assert (record_sync "pdf" example_revision ["SKILL.md"] w = (Ok (), w1)) as H1
    by (vm_compute; reflexivity).
  assert (record_sync "docx" "0123456789abc" ["a.md"; "b.md"] w1 = (Ok (), w2)) as H2
    by (vm_compute; reflexivity).
  split; [exact H1|]. split; [exact H2|].
  destruct (record_sync_twice w w1 w2 _ _ _ _ _ _ H1 H2) as (Hb & Ha & _).
  split; [exact Hb|]. apply Ha. discriminate.
Defined.

Lemma record_sync_TypeError_example :
  let w := example_world (Some (Doc (PyList []))) in
  get_manifest w = Ok (PyList []) /\
  record_sync "pdf" example_revision ["SKILL.md"] w
  = (Raise TypeError, World.mk [] (Some (Doc (PyList []))) example_clock 1).
Proof.
  intros w.
  assert (get_manifest w = Ok (PyList [])) as H1 by reflexivity.
  split; [exact H1|].
  exact (record_sync_TypeError w (PyList []) "pdf" example_revision ["SKILL.md"] H1 I).
Defined.

Lemma get_sync_status_returns_iff_example :
  let w := example_world (Some (Doc example_manifest_odd)) in
  skills_table w = Some {[ "pdf" := PyNone; "docx" := PyInt 7 ]} /\
  (exists statuses,
     get_sync_status w [example_skill "pdf"; example_skill "xlsx"] example_revision
     = Ok statuses) /\
  ~ (exists statuses,
       get_sync_status w [example_skill "pdf"; example_skill "docx"] example_revision
       = Ok statuses).
Proof.
  intros w.
  assert (skills_table w = Some {[ "pdf" := PyNone; "docx" := PyInt 7 ]}) as H1
    by (vm_compute; reflexivity).
  split; [exact H1|]. split.
  - apply (proj2 (get_sync_status_returns_iff w _ _ example_revision H1)).
    repeat (constructor; [vm_compute; reflexivity|]). constructor.
  - intros Hret.
    apply (proj1 (get_sync_status_returns_iff w _ _ example_revision H1)) in Hret.
    apply Forall_cons in Hret as [_ Hret]. apply Forall_cons in Hret as [Hdocx _].
    vm_compute in Hdocx. discriminate Hdocx.
Defined.

Lemma get_sync_status_first_error_example :
  let w := example_world (Some (Doc example_manifest_odd)) in
  get_sync_status w [example_skill "pdf"; example_skill "docx"; example_skill "xlsx"]
    example_revision
  = Raise (AttributeError "get").
Proof.
  intros w.
  assert (skills_table w = Some {[ "pdf" := PyNone; "docx" := PyInt 7 ]}) as H1
    by (vm_compute; reflexivity).
  refine (get_sync_status_first_error w _ [example_skill "pdf"] (example_skill "docx")
            [example_skill "xlsx"] example_revision _ H1 _ _).
  - constructor; [vm_compute; reflexivity|constructor].
  - vm_compute. reflexivity.
Defined.

Lemma null_entry_is_new_example :
  let w := example_world (Some (Doc example_manifest_odd)) in
  get_sync_status w [example_skill "pdf"] example_revision
  = Ok [SyncStatus.mk (example_skill "pdf") "new" PyNone (PyStr "abcdef1")].
Proof.
  intros w.
  assert (skills_table w = Some {[ "pdf" := PyNone; "docx" := PyInt 7 ]}) as H1
    by (vm_compute; reflexivity).
  refine (null_entry_is_new w _ (example_skill "pdf") example_revision H1 _).
  vm_compute. reflexivity.
Defined.

(** The second file of [pptx] cannot be fetched: whatever comes after it in
    the listing, the download raises and only the first file is on disk. *)
Lemma download_stops_at_failure_example :
  let before := [ File "SKILL.md" None (Ok [Byte.x23]) ] in
  let bad := File "big.bin" None (Raise (HTTPStatusError 500)) in
  let after := [ Dir "scripts" (Ok [ File "run.py" None (Ok []) ]) ] in
  let fs1 : memfs := [ (["pptx"; "SKILL.md"], NFile [Byte.x23]); (["pptx"], NDir); ([], NDir) ] in
  _download_directory (Ok (before ++ bad :: after)%list) ["pptx"] [] ([] : memfs)
  = (Raise (HTTPStatusError 500), fs1).
Proof.
  intros before bad after fs1.
  refine (download_stops_at_failure before bad ["pptx"] [] ["SKILL.md"]
            ([] : memfs) fs1 fs1 (HTTPStatusError 500) _ _ after);
    vm_compute; reflexivity.
Defined.

Lemma download_skill_returns_written_example :
  let s0 : traced memfs := ([], []) in
  let run := download_skill example_github "pdf" ["pdf"] s0 in
  run = (Ok ["SKILL.md"; "extract.py"; "tables.md"], (run.2.1, run.2.2)) /\
  written_paths run.2.1
  = [ ["pdf"; "SKILL.md"]; ["pdf"; "scripts"; "extract.py"]; ["pdf"; "tables.md"] ] /\
  exists calls,
    run.2.1 = ([] ++ calls)%list /\
    last <$> written_paths calls = Some <$> ["SKILL.md"; "extract.py"; "tables.md"] /\
    length (written_paths calls) = 3%nat.
Proof.
  intros s0 run.
  assert (run = (Ok ["SKILL.md"; "extract.py"; "tables.md"], (run.2.1, run.2.2))) as Hrun
    by (vm_compute; reflexivity).
  split; [exact Hrun|]. split; [vm_compute; reflexivity|].
  exact (download_skill_returns_written example_github "pdf" ["pdf"] [] ([] : memfs)
           _ _ _ Hrun).
Defined.

(** A resync of [pdf] over a stale copy: the copy is removed first, the
    stale file is gone from the disk afterwards. *)
Lemma sync_unit_removes_once_example :
  let run := sync_unit example_github "pdf" example_revision example_stale_world in
  run = (Ok ["SKILL.md"; "extract.py"; "tables.md"], run.2) /\
  (World.fs run.2).1
  = [ CallRmtree ["pdf"];
      CallMkdir ["pdf"];
      CallWriteBytes ["pdf"; "SKILL.md"] [Byte.x23];
      CallMkdir ["pdf"; "scripts"];
      CallWriteBytes ["pdf"; "scripts"; "extract.py"] [Byte.x70];
      CallWriteBytes ["pdf"; "tables.md"] [Byte.x7c];
      CallMkdir [] ] /\
  memfs_lookup ["pdf"; "old.md"] (World.fs run.2).2 = None /\
  exists calls,
    (World.fs run.2).1 = ([] ++ [CallRmtree ["pdf"]] ++ calls)%list /\
    Forall (fun c => forall p, c <> CallRmtree p) calls.
Proof.
  intros run.
  assert (run = (Ok ["SKILL.md"; "extract.py"; "tables.md"], run.2)) as Hrun
    by (vm_compute; reflexivity).
  split; [exact Hrun|]. split; [vm_compute; reflexivity|].
  split; [vm_compute; reflexivity|].
  exact (sync_unit_removes_once example_github "pdf" example_revision
           example_stale_world run.2 _ Hrun).
Defined.

(** After a first batch that synced [pdf], "select new/updated" takes the
    three other units. *)
Lemma select_new_takes_new_example :
  let app := example_after_first_batch.1 in
  let w := example_after_first_batch.2 in
  NoDup (unit_name <$> App.statuses app) /\
  unit_name <$> skills_to_sync (action_select_new (app, w)).2.1 = ["docx"; "pptx"; "xlsx"].
Proof.
  intros app w.
  assert (NoDup (unit_name <$> App.statuses app)) as Hnodup.
  { vm_compute. repeat (constructor; [by intros ?%list_elem_of_In; simpl in *; intuition discriminate|]).
    constructor. }
  split; [exact Hnodup|].
  destruct (select_new_takes_new app w Hnodup) as (app' & Hact & Hsync).
  rewrite Hact. cbn [fst snd]. rewrite Hsync. vm_compute. reflexivity.
Defined.

(** The refresh after a batch in which [pdf] succeeded and [pptx] failed. *)
Lemma refresh_table_unchecks_synced_example :
  let app := App.mk example_statuses example_revision {[ "pdf"; "pptx" ]} ["pdf"] []
               (fun _ => true) in
  let w := (record_sync "pdf" example_revision ["SKILL.md"] (example_world None)).2 in
  let run := refresh_table (app, w) in
  run = (Ok (), (run.2.1, run.2.2)) /\
  App.selected run.2.1 = {[ "pptx" ]} /\
  ("pptx" ∈ App.selected run.2.1 /\ "pdf" ∉ App.selected run.2.1).
Proof.
  intros app w run.
  assert (run = (Ok (), (run.2.1, run.2.2))) as Hrun by (vm_compute; reflexivity).
  split; [exact Hrun|]. split; [vm_compute; reflexivity|].
  destruct (refresh_table_unchecks_synced app run.2.1 w run.2.2 _ Hrun)
    as (_ & _ & Hsel).
  split.
  - apply Hsel. split; [vm_compute; reflexivity|].
    intros [Hsynced _]. vm_compute in Hsynced.
    apply list_elem_of_In in Hsynced. simpl in Hsynced. intuition discriminate.
  - intros Hin. apply Hsel in Hin as [_ Hnot]. apply Hnot. split.
    + left.
    + right. left.
Defined.

(** A batch of [pdf] and [pptx] in a fresh app, then the table. *)
Lemma batch_then_refresh_example :
  let s0 := (example_app {[ "pdf"; "pptx" ]}, example_world None) in
  let run := sync_selected example_github s0 in
  run = (Ok (), (run.2.1, run.2.2)) /\
  App.synced_skills run.2.1 = ["pdf"] /\
  App.selected run.2.1 = {[ "pptx" ]} /\
  SyncStatus.status <$> App.statuses run.2.1 = ["new"; "ok"; "new"; "new"] /\
  exists new,
    App.synced_skills run.2.1 = ([] ++ new)%list /\
    (forall s, s ∈ App.statuses run.2.1 -> unit_name s ∈ new ->
       s = SyncStatus.mk (SyncStatus.skill s) "ok"
             (PyStr (str_take 7 example_revision)) (PyStr (str_take 7 example_revision)) /\
       unit_name s ∉ App.selected run.2.1) /\
    (forall n, n ∈ ({[ "pdf"; "pptx" ]} : gset string) ->
       n ∉ App.synced_skills run.2.1 -> n ∈ App.selected run.2.1).
Proof.
  intros s0 run.
  assert (run = (Ok (), (run.2.1, run.2.2))) as Hrun by (vm_compute; reflexivity).
  split; [exact Hrun|]. do 3 (split; [vm_compute; reflexivity|]).
  exact (batch_then_refresh example_github s0.1 run.2.1 s0.2 run.2.2 Hrun).
Defined.

(** The script on a disk that already has a [skill-creator] directory. *)
Lemma creator_main_counts_written_example :
  let fs0 : memfs := [ ([], NDir); (["skill-creator"], NDir) ] in
  let run := SkillCreator.main example_creator_github
               (([] : list creator_line), (([] : list fs_call), fs0)) in
  run = (Ok (), (run.2.1, (run.2.2.1, run.2.2.2))) /\
  run.2.1 = [ FetchingLatestCommit; LatestCommit "abcdef1";
              RemovingExisting ["skill-creator"]; Downloading ["skill-creator"];
              DoneDownloaded 2 ] /\
  exists sha calls,
    GitHubClient.commits_main example_creator_github = Ok sha /\
    run.2.2.1 = ([] ++ (if fs_exists (child [] "skill-creator") fs0
                        then [CallRmtree (child [] "skill-creator")] else [])
                 ++ CallMkdir (child [] "skill-creator") :: calls)%list /\
    run.2.1 = ([] ++ [FetchingLatestCommit; LatestCommit (str_take 7 sha)]
               ++ (if fs_exists (child [] "skill-creator") fs0
                   then [RemovingExisting (child [] "skill-creator")] else [])
               ++ [Downloading (child [] "skill-creator");
                   DoneDownloaded (length (written_paths calls))])%list.
Proof.
  intros fs0 run.
  assert (run = (Ok (), (run.2.1, (run.2.2.1, run.2.2.2)))) as Hrun
    by (vm_compute; reflexivity).
  split; [exact Hrun|]. split; [vm_compute; reflexivity|].
  exact (creator_main_counts_written example_creator_github [] [] fs0 _ _ _ Hrun).
Defined.

(** The first listing of a catalogue with the directories [pdf] and [docx]. *)
Lemma list_skills_cli_first_run_example :
  (list_skills_cli example_catalogue (example_world None)).1 []
  = (Ok (),
     [ FetchingSkills; LatestCommitLine "abcdef1"; TableHeader; TableRule;
       TableRow "docx" "new" (PyStr "-") (PyStr "abcdef1");
       TableRow "pdf" "new" (PyStr "-") (PyStr "abcdef1") ]) /\
  exists names,
    names ≡ₚ ["pdf"; "docx"] /\
    StronglySorted (fun a b => String.leb a b = true) names.
Proof.
  split; [vm_compute; reflexivity|].
  assert (get_latest_commit example_catalogue
          = (Ok example_revision, (get_latest_commit example_catalogue).2)) as Hsha
    by reflexivity.
  destruct (list_skills_cli_first_run example_catalogue _ (example_world None)
              example_revision _ [] eq_refl Hsha eq_refl) as (names & Hperm & Hsorted & _).
  exists names. split; [exact Hperm|exact Hsorted].
Defined.

(** ** Syncing again *)

Section Resync.
Context {FS : Type} `{LocalFS FS} {text : Type} `{JsonCodec text} `{!WriteText FS text}.

(** The files a returning cycle records are the files of the remote unit,
    in the order of the walk. *)
Lemma sync_unit_files github skill_name remote_sha (w w' : World.t FS text) files :
  sync_unit github skill_name remote_sha w = (Ok files, w') ->
  files = names_in_walk_order
            (Dir skill_name (GitHubClient.contents github (SKILLS_PATH +:+ "/" +:+ skill_name))).
Proof.
  unfold sync_unit. unfold io_bind at 1.
  assert (forall w0 : World.t FS text,
            io_bind (on_fs (download_skill github skill_name (child [] skill_name)))
              (fun files0 => io_bind (record_sync skill_name remote_sha files0)
                               (fun _ => io_ret files0)) w0 = (Ok files, w') ->
            files = names_in_walk_order
                      (Dir skill_name
                         (GitHubClient.contents github (SKILLS_PATH +:+ "/" +:+ skill_name))))
    as Htail.
  { intros w0. unfold io_bind at 1. unfold on_fs.
    destruct (download_skill github skill_name (child [] skill_name) (World.fs w0))
      as [[e|files0] fs1] eqn:Hdl; [done|].
    apply download_skill_names in Hdl as <-.
    unfold io_bind, io_ret.
    destruct (record_sync skill_name remote_sha files0 _) as [[e|[]] w2]; [done|].
    by intros [= <- _]. }
  destruct (fs_exists _ (World.fs w)); [|apply Htail].
  destruct (on_fs (fs_rmtree (child [] skill_name)) w) as [[e|[]] w0]; [done|apply Htail].
Qed.

(** X11. Syncing a unit again at the same revision, the remote being the same:
    the second cycle records the same files and the same revision, so the
    entry differs from the one of the first cycle by its time only, and no
    other entry changes. *)
Theorem resync_same_entry github skill_name remote_sha (w w1 w2 : World.t FS text)
    files1 files2 :
  sync_unit github skill_name remote_sha w = (Ok files1, w1) ->
  sync_unit github skill_name remote_sha w1 = (Ok files2, w2) ->
  files2 = files1 /\
  manifest_entry_of w1 skill_name
  = Some (manifest_entry remote_sha (World.clock w (World.clock_reads w)) files1) /\
  manifest_entry_of w2 skill_name
  = Some (manifest_entry remote_sha (World.clock w1 (World.clock_reads w1)) files1) /\
  forall other, other <> skill_name ->
    manifest_entry_of w2 other = manifest_entry_of w1 other.
Proof.
  intros Hfirst Hsecond.
  pose proof (sync_unit_files _ _ _ _ _ _ Hfirst) as Hf1.
  pose proof (sync_unit_files _ _ _ _ _ _ Hsecond) as Hf2.
  apply sync_unit_Ok in Hfirst as (tbl & Htbl & Htbl1).
  apply sync_unit_Ok in Hsecond as (tbl1 & Htbl1' & Htbl2).
  unfold manifest_entry_of. rewrite Htbl1, Htbl2. simpl.
  rewrite Htbl1 in Htbl1'. injection Htbl1' as <-.
  split; [congruence|]. split; [apply lookup_insert_eq|]. split.
  - rewrite lookup_insert_eq. congruence.
  - intros other Hne. by rewrite !lookup_insert_ne.
Qed.

End Resync.

Lemma resync_same_entry_example :
  let w := example_world None in
  let run1 := sync_unit example_github "xlsx" example_revision w in
  let run2 := sync_unit example_github "xlsx" example_revision run1.2 in
  run1 = (Ok ["SKILL.md"], run1.2) /\
  run2 = (Ok ["SKILL.md"], run2.2) /\
  manifest_entry_of run2.2 "xlsx"
  = Some (manifest_entry example_revision (example_clock 1) ["SKILL.md"]).
Proof.
  intros w run1 run2.
  assert (run1 = (Ok ["SKILL.md"], run1.2)) as H1 by (vm_compute; reflexivity).
  assert (run2 = (Ok ["SKILL.md"], run2.2)) as H2 by (vm_compute; reflexivity).
  split; [exact H1|]. split; [exact H2|].
  destruct (resync_same_entry example_github "xlsx" example_revision w run1.2 run2.2
              _ _ H1 H2) as (_ & _ & Hentry & _).
  rewrite Hentry. vm_compute. reflexivity.
Defined.
